(** * pyjvm: the JVM class-file decoder of [main.py]

    A shallow embedding of the decoder ([JVMClassFile], [JVMConstant],
    [JVMCodeAttr], [JVMAttribute], [JVMField], [JVMMethod], [JVMClass]) and
    the properties of it that the specification talks about, followed by
    what the code itself shows: locality of its reads, encodings that it
    inverts and that invert it, and its behaviour at the edges.

    Conventions of the embedding:
    - a Python [int] is a [Z]; a [bytes] value is a [list byte]; a [str] is
      the list of its code points;
    - the open file is its read position together with the bytes not yet
      read (the decoder only ever reads forward);
    - a method that reads from the file is a function from the file to an
      outcome and the file afterwards; the file is kept on the exceptional
      path too, because a Python exception does not undo the reads made
      before it was raised;
    - [print] and the closing of the file in [__exit__] are not modelled,
      nor is the interpreter's bound on the depth of the call stack. *)

From Stdlib Require Import ZArith List Lia Bool String Ascii.
From Stdlib.Strings Require Import Byte.
From Stdlib Require Import DecimalString.
Import ListNotations.
Local Open Scope Z_scope.

Set Implicit Arguments.

(** ** Bytes *)

(** The number 0..255 a byte stands for. *)
Definition bval (b : byte) : Z := Z.of_N (Byte.to_N b).

(** The byte of a number, used to lay out test inputs and encodings. *)
Definition byte_of_Z (z : Z) : byte :=
  match Byte.of_N (Z.to_N (z mod 256)) with
  | Some b => b
  | None => x00
  end.

(** Big-endian encodings of the unsigned 16 and 32 bit fields. *)
Definition be16 (v : Z) : list byte := [byte_of_Z (v / 256); byte_of_Z v].
Definition be32 (v : Z) : list byte :=
  [byte_of_Z (v / 16777216); byte_of_Z (v / 65536);
   byte_of_Z (v / 256); byte_of_Z v].

Definition len {A} (l : list A) : Z := Z.of_nat (List.length l).

(** ** Exceptions and outcomes *)

Inductive Exn : Type :=
| struct_error                       (* struct.error *)
| IndexError                         (* list index out of range *)
| UnicodeDecodeError                 (* bytes.decode('utf-8') *)
| BaseException (msg : string).      (* raise BaseException(msg) *)

(** [NoFuel] is not a Python outcome: it marks a run of the model that was
    given too small a recursion budget (see [JVMAttribute_init]). *)
Inductive Outcome (A : Type) : Type :=
| Ok (a : A)
| Raise (e : Exn)
| NoFuel.
Arguments Raise {A} e.
Arguments NoFuel {A}.

(** ** class JVMClassFile *)

Record JVMClassFile : Type := mkFile {
  tell : Z;                (* bytes read so far *)
  unread : list byte       (* the rest of the file *)
}.

Definition open (content : list byte) : JVMClassFile :=
  {| tell := 0; unread := content |}.

(** Computations over the open file. *)
Definition M (A : Type) : Type := JVMClassFile -> Outcome A * JVMClassFile.

Definition ret {A} (a : A) : M A := fun f => (Ok a, f).
Definition throw {A} (e : Exn) : M A := fun f => (Raise e, f).
Definition bind {A B} (m : M A) (k : A -> M B) : M B :=
  fun f =>
    match m f with
    | (Ok a, f') => k a f'
    | (Raise e, f') => (Raise e, f')
    | (NoFuel, f') => (NoFuel, f')
    end.
Definition lift {A} (o : Outcome A) : M A := fun f => (o, f).

Declare Scope jvm_scope.
Delimit Scope jvm_scope with jvm.
Notation "x <- m ;; k" := (bind m (fun x => k))
  (at level 61, m at next level, right associativity) : jvm_scope.
Local Open Scope jvm_scope.

(** [klassFile.read(n)]: at most [n] bytes, fewer at the end of the file; a
    negative [n] reads all that is left. *)
Definition read (n : Z) : M (list byte) :=
  fun f =>
    let k := if n <? 0 then len (unread f) else Z.min n (len (unread f)) in
    (Ok (firstn (Z.to_nat k) (unread f)),
     {| tell := tell f + k; unread := skipn (Z.to_nat k) (unread f) |}).

(** [struct.unpack_from(">B", buf)[0]] and its wider siblings: the buffer
    must hold at least the bytes of the format. *)
Definition unpack_B (buf : list byte) : Outcome Z :=
  match buf with
  | b0 :: _ => Ok (bval b0)
  | _ => Raise struct_error
  end.

Definition unpack_H (buf : list byte) : Outcome Z :=
  match buf with
  | b0 :: b1 :: _ => Ok (256 * bval b0 + bval b1)
  | _ => Raise struct_error
  end.

Definition unpack_I (buf : list byte) : Outcome Z :=
  match buf with
  | b0 :: b1 :: b2 :: b3 :: _ =>
      Ok (16777216 * bval b0 + 65536 * bval b1 + 256 * bval b2 + bval b3)
  | _ => Raise struct_error
  end.

(** [struct.unpack_from(">" + "s"*n, buf)]: a tuple of [n] one-byte values
    ([n] copies of "s" is the empty format when [n] is negative). *)
Definition unpack_s (n : Z) (buf : list byte) : Outcome (list byte) :=
  if len buf <? n then Raise struct_error
  else Ok (firstn (Z.to_nat n) buf).

Definition U1 : M Z := buf <- read 1 ;; lift (unpack_B buf).
Definition U2 : M Z := buf <- read 2 ;; lift (unpack_H buf).
Definition U4 : M Z := buf <- read 4 ;; lift (unpack_I buf).
Definition U (n : Z) : M (list byte) := buf <- read n ;; lift (unpack_s n buf).

(** A list comprehension [[m for _ in range(n)]]. *)
Fixpoint repeatM {A} (n : nat) (m : M A) : M (list A) :=
  match n with
  | O => ret []
  | S n' => x <- m ;; xs <- repeatM n' m ;; ret (x :: xs)
  end.

Definition comprehension {A} (count : Z) (m : M A) : M (list A) :=
  repeatM (Z.to_nat count) m.

(** ** Text *)

(** A [str] as the list of its code points. *)
Definition str : Type := list Z.

Definition str_of_string (s : string) : str :=
  map (fun a => Z.of_N (N_of_ascii a)) (list_ascii_of_string s).

Definition str_eqb (s t : str) : bool :=
  if list_eq_dec Z.eq_dec s t then true else false.

(** [bytes.decode('utf-8')], strict: shortest forms only, no surrogates,
    nothing above U+10FFFF. *)
Definition is_cont (b : byte) : bool := (0x80 <=? bval b) && (bval b <? 0xC0).

Fixpoint utf8_decode (bs : list byte) : option str :=
  match bs with
  | [] => Some []
  | b0 :: r0 =>
    let c0 := bval b0 in
    if c0 <? 0x80 then
      option_map (cons c0) (utf8_decode r0)
    else if c0 <? 0xC2 then None
    else if c0 <? 0xE0 then
      match r0 with
      | b1 :: r1 =>
        if is_cont b1
        then option_map (cons ((c0 - 0xC0) * 64 + (bval b1 - 0x80)))
                        (utf8_decode r1)
        else None
      | _ => None
      end
    else if c0 <? 0xF0 then
      match r0 with
      | b1 :: b2 :: r2 =>
        if is_cont b1 && is_cont b2
           && negb ((c0 =? 0xE0) && (bval b1 <? 0xA0))
           && negb ((c0 =? 0xED) && (0xA0 <=? bval b1))
        then option_map
               (cons ((c0 - 0xE0) * 4096 + (bval b1 - 0x80) * 64
                      + (bval b2 - 0x80)))
               (utf8_decode r2)
        else None
      | _ => None
      end
    else if c0 <? 0xF5 then
      match r0 with
      | b1 :: b2 :: b3 :: r3 =>
        if is_cont b1 && is_cont b2 && is_cont b3
           && negb ((c0 =? 0xF0) && (bval b1 <? 0x90))
           && negb ((c0 =? 0xF4) && (0x90 <=? bval b1))
        then option_map
               (cons ((c0 - 0xF0) * 262144 + (bval b1 - 0x80) * 4096
                      + (bval b2 - 0x80) * 64 + (bval b3 - 0x80)))
               (utf8_decode r3)
        else None
      | _ => None
      end
    else None
  end.

Definition decode_utf8 (bs : list byte) : Outcome str :=
  match utf8_decode bs with
  | Some s => Ok s
  | None => Raise UnicodeDecodeError
  end.

(** The decimal text of an [int], as an f-string renders it. *)
Definition format_int (z : Z) : str :=
  str_of_string (NilZero.string_of_int (Z.to_int z)).

(** [l[i]] on a Python list: a negative index counts from the end. *)
Definition getitem {A} (l : list A) (i : Z) : Outcome A :=
  let j := if i <? 0 then i + len l else i in
  if (j <? 0) || (len l <=? j) then Raise IndexError
  else match nth_error l (Z.to_nat j) with
       | Some x => Ok x
       | None => Raise IndexError
       end.

(** ** class JVMConstant *)

Definition CONSTANT_Class : Z := 7.
Definition CONSTANT_Fieldref : Z := 9.
Definition CONSTANT_Methodref : Z := 10.
Definition CONSTANT_InterfaceMethodref : Z := 11.
Definition CONSTANT_String : Z := 8.
Definition CONSTANT_Integer : Z := 3.
Definition CONSTANT_Float : Z := 4.
Definition CONSTANT_Long : Z := 5.
Definition CONSTANT_Double : Z := 6.
Definition CONSTANT_NameAndType : Z := 12.
Definition CONSTANT_Utf8 : Z := 1.
Definition CONSTANT_MethodHandle : Z := 15.
Definition CONSTANT_MethodType : Z := 16.
Definition CONSTANT_InvokeDynamic : Z := 18.

(** The attributes [__init__] sets besides [tag], one shape per [case]
    ([Integer] and [Float] both set [bytes]). *)
Inductive ConstFields : Type :=
| Class_fields (name_index : Z)
| Ref_fields (class_index name_and_type_index : Z)
| String_fields (string_index : Z)
| Word_fields (bytes : Z)
| Wide_fields (high_bytes low_bytes : Z)
| NameAndType_fields (name_index descriptor_index : Z)
| Utf8_fields (length : Z) (bytes : str)
| MethodHandle_fields (reference_kind reference_index : Z)
| MethodType_fields (descriptor_index : Z)
| InvokeDynamic_fields (bootstrap_method_attr_index name_and_type_index : Z)
| No_fields.

Record JVMConstant : Type := mkConstant {
  tag : Z;
  fields : ConstFields
}.

(** [JVMConstant.__init__]: the [match] has no default case, so a tag that
    matches none of the cases leaves an object holding the tag alone. *)
Definition JVMConstant_init : M JVMConstant :=
  tag <- U1 ;;
  if tag =? CONSTANT_Class then
    name_index <- U2 ;;
    ret (mkConstant tag (Class_fields name_index))
  else if (tag =? CONSTANT_Fieldref) || (tag =? CONSTANT_Methodref)
          || (tag =? CONSTANT_InterfaceMethodref) then
    class_index <- U2 ;;
    name_and_type_index <- U2 ;;
    ret (mkConstant tag (Ref_fields class_index name_and_type_index))
  else if tag =? CONSTANT_String then
    string_index <- U2 ;;
    ret (mkConstant tag (String_fields string_index))
  else if tag =? CONSTANT_Integer then
    bytes <- U4 ;;
    ret (mkConstant tag (Word_fields bytes))
  else if tag =? CONSTANT_Float then
    bytes <- U4 ;;
    ret (mkConstant tag (Word_fields bytes))
  else if (tag =? CONSTANT_Long) || (tag =? CONSTANT_Double) then
    high_bytes <- U4 ;;
    low_bytes <- U4 ;;
    ret (mkConstant tag (Wide_fields high_bytes low_bytes))
  else if tag =? CONSTANT_NameAndType then
    name_index <- U2 ;;
    descriptor_index <- U2 ;;
    ret (mkConstant tag (NameAndType_fields name_index descriptor_index))
  else if tag =? CONSTANT_Utf8 then
    length <- U2 ;;
    raw <- U length ;;
    bytes <- lift (decode_utf8 raw) ;;
    ret (mkConstant tag (Utf8_fields length bytes))
  else if tag =? CONSTANT_MethodHandle then
    reference_kind <- U1 ;;
    reference_index <- U2 ;;
    ret (mkConstant tag (MethodHandle_fields reference_kind reference_index))
  else if tag =? CONSTANT_MethodType then
    descriptor_index <- U2 ;;
    ret (mkConstant tag (MethodType_fields descriptor_index))
  else if tag =? CONSTANT_InvokeDynamic then
    bootstrap_method_attr_index <- U2 ;;
    name_and_type_index <- U2 ;;
    ret (mkConstant tag
           (InvokeDynamic_fields bootstrap_method_attr_index
                                 name_and_type_index))
  else
    ret (mkConstant tag No_fields).

(** [JVMConstant.__str__] (and [__repr__], which has the same body). *)
Definition JVMConstant_str (c : JVMConstant) : str :=
  if tag c =? CONSTANT_Utf8 then
    match fields c with
    | Utf8_fields _ bytes => bytes
    | _ => []
    end
  else
    str_of_string "-- UNKNOWN " ++ format_int (tag c) ++ str_of_string " --".

(** ** class JVMCodeAttr and class JVMAttribute *)

Record ExceptionEntry : Type := mkException {
  start_pc : Z;
  end_pc : Z;
  handler_pc : Z;
  catch_type : Z
}.

Inductive JVMAttribute : Type :=
| mkAttribute (attribute_name_index : Z) (attribute_name : JVMConstant)
              (attribute_length : Z) (info : AttributeInfo)
with AttributeInfo : Type :=
| Code_info (code_attr : JVMCodeAttr)
| Raw_info (payload : list byte)
with JVMCodeAttr : Type :=
| mkCodeAttr (max_stack max_locals code_length : Z) (code : list byte)
             (exception_table_length : Z)
             (exception_table : list ExceptionEntry)
             (attributes_count : Z) (attributes : list JVMAttribute).

Definition attribute_name_index (a : JVMAttribute) : Z :=
  let (i, _, _, _) := a in i.
Definition attribute_name (a : JVMAttribute) : JVMConstant :=
  let (_, c, _, _) := a in c.
Definition attribute_length (a : JVMAttribute) : Z :=
  let (_, _, n, _) := a in n.
Definition info (a : JVMAttribute) : AttributeInfo :=
  let (_, _, _, i) := a in i.

Definition read_exception_entry : M ExceptionEntry :=
  start_pc <- U2 ;;
  end_pc <- U2 ;;
  handler_pc <- U2 ;;
  catch_type <- U2 ;;
  ret (mkException start_pc end_pc handler_pc catch_type).

(** [JVMCodeAttr.__init__], with the constructor of the nested attributes
    as a parameter ([JVMAttribute(klass)] in the source). *)
Definition JVMCodeAttr_init (nested : M JVMAttribute) : M JVMCodeAttr :=
  max_stack <- U2 ;;
  max_locals <- U2 ;;
  code_length <- U4 ;;
  code <- U code_length ;;
  exception_table_length <- U2 ;;
  exception_table <- comprehension exception_table_length
                                   read_exception_entry ;;
  attributes_count <- U2 ;;
  attributes <- comprehension attributes_count nested ;;
  ret (mkCodeAttr max_stack max_locals code_length code
                  exception_table_length exception_table
                  attributes_count attributes).

Definition Code : str := str_of_string "Code".

(** [JVMAttribute.__init__] against the constant pool of [klass].  The
    source recurses through [JVMCodeAttr]; [fuel] bounds the depth of that
    nesting, and [fuel_adequate] shows that the number of unread bytes is
    always budget enough. *)
Fixpoint JVMAttribute_init (fuel : nat) (constant_pool : list JVMConstant)
  : M JVMAttribute :=
  match fuel with
  | O => fun f => (NoFuel, f)
  | S fuel' =>
    attribute_name_index <- U2 ;;
    attribute_name <- lift (getitem constant_pool (attribute_name_index - 1)) ;;
    attribute_length <- U4 ;;
    if str_eqb (JVMConstant_str attribute_name) Code then
      code_attr <- JVMCodeAttr_init (JVMAttribute_init fuel' constant_pool) ;;
      ret (mkAttribute attribute_name_index attribute_name attribute_length
                       (Code_info code_attr))
    else
      payload <- U attribute_length ;;
      ret (mkAttribute attribute_name_index attribute_name attribute_length
                       (Raw_info payload))
  end.

(** ** class JVMMethod and class JVMField *)

Record JVMMethod : Type := mkMethod {
  method_access_flags : Z;
  method_name_index : Z;
  method_descriptor_index : Z;
  method_attributes_count : Z;
  method_attributes : list JVMAttribute
}.

Definition JVMMethod_init (fuel : nat) (constant_pool : list JVMConstant)
  : M JVMMethod :=
  access_flags <- U2 ;;
  name_index <- U2 ;;
  descriptor_index <- U2 ;;
  attributes_count <- U2 ;;
  attributes <- comprehension attributes_count
                              (JVMAttribute_init fuel constant_pool) ;;
  ret (mkMethod access_flags name_index descriptor_index
                attributes_count attributes).

Record JVMField : Type := mkField {
  field_access_flags : Z;
  field_name_index : Z;
  field_descriptor_index : Z;
  field_attributes_count : Z;
  field_attributes : list JVMAttribute
}.

Definition JVMField_init (fuel : nat) (constant_pool : list JVMConstant)
  : M JVMField :=
  access_flags <- U2 ;;
  name_index <- U2 ;;
  descriptor_index <- U2 ;;
  attributes_count <- U2 ;;
  attributes <- comprehension attributes_count
                              (JVMAttribute_init fuel constant_pool) ;;
  ret (mkField access_flags name_index descriptor_index
               attributes_count attributes).

(** ** class JVMClass *)

Record JVMClass : Type := mkClass {
  minor_version : Z;
  major_version : Z;
  constant_pool_count : Z;
  constant_pool : list JVMConstant;
  access_flags : Z;
  this_class : Z;
  super_class : Z;
  interfaces_count : Z;
  interfaces : list Z;
  fields_count : Z;
  class_fields : list JVMField;
  methods_count : Z;
  methods : list JVMMethod;
  attributes_count : Z;
  attributes : list JVMAttribute
}.

Definition validate_class_file_magic : M unit :=
  magic <- U4 ;;
  if negb (magic =? 0xCAFEBABE)
  then throw (BaseException "Invalid class file")
  else ret tt.

(** [read_constant_pool]: the count and the entries it stores on [self]. *)
Definition read_constant_pool : M (Z * list JVMConstant) :=
  constant_pool_count <- U2 ;;
  constant_pool <- comprehension (constant_pool_count - 1) JVMConstant_init ;;
  ret (constant_pool_count, constant_pool).

(** The body of [JVMClass.__init__] once the file is open. *)
Definition JVMClass_body (fuel : nat) : M JVMClass :=
  _ <- validate_class_file_magic ;;
  minor_version <- U2 ;;
  major_version <- U2 ;;
  pool <- read_constant_pool ;;
  let constant_pool_count := fst pool in
  let constant_pool := snd pool in
  access_flags <- U2 ;;
  this_class <- U2 ;;
  super_class <- U2 ;;
  interfaces_count <- U2 ;;
  interfaces <- comprehension interfaces_count U2 ;;
  fields_count <- U2 ;;
  fields <- comprehension fields_count (JVMField_init fuel constant_pool) ;;
  methods_count <- U2 ;;
  methods <- comprehension methods_count (JVMMethod_init fuel constant_pool) ;;
  attributes_count <- U2 ;;
  attributes <- comprehension attributes_count
                              (JVMAttribute_init fuel constant_pool) ;;
  ret (mkClass minor_version major_version constant_pool_count constant_pool
               access_flags this_class super_class
               interfaces_count interfaces fields_count fields
               methods_count methods attributes_count attributes).

(** [JVMClass(path)] on a file with the given content: the outcome and the
    state of the file when the constructor is left. *)
Definition JVMClass_init (content : list byte)
  : Outcome JVMClass * JVMClassFile :=
  JVMClass_body (S (List.length content)) (open content).

(** * Vocabulary of the statements *)

Unset Implicit Arguments.

(** ** Values, widths and layouts *)

(** The number a run of bytes spells, most significant byte first. *)
Definition be_value (bs : list byte) : Z :=
  fold_left (fun acc b => 256 * acc + bval b) bs 0.

(** What a primitive of width [w] that decodes its bytes with [value] does
    on a file: all [w] bytes or an error, never a short result. *)
Definition reads_exactly {A} (m : M A) (w : Z) (value : list byte -> A)
                         (f : JVMClassFile) : Prop :=
  (w <= len (unread f)
   /\ m f = (Ok (value (firstn (Z.to_nat w) (unread f))),
             {| tell := tell f + w;
                unread := skipn (Z.to_nat w) (unread f) |}))
  \/
  (len (unread f) < w
   /\ fst (m f) = Raise struct_error
   /\ tell f <= tell (snd (m f))).

(** The tags [JVMConstant.__init__] has a [case] for. *)
Definition known_tags : list Z :=
  [CONSTANT_Class; CONSTANT_Fieldref; CONSTANT_Methodref;
   CONSTANT_InterfaceMethodref; CONSTANT_String; CONSTANT_Integer;
   CONSTANT_Float; CONSTANT_Long; CONSTANT_Double; CONSTANT_NameAndType;
   CONSTANT_Utf8; CONSTANT_MethodHandle; CONSTANT_MethodType;
   CONSTANT_InvokeDynamic].

(** The bytes of a Utf8 entry holding an ASCII text. *)
Definition utf8_entry (s : string) : list byte :=
  x01 :: be16 (Z.of_nat (String.length s)) ++ list_byte_of_string s.

(** The eight bytes of one exception-table record. *)
Definition encode_exception (e : ExceptionEntry) : list byte :=
  be16 (start_pc e) ++ be16 (end_pc e)
  ++ be16 (handler_pc e) ++ be16 (catch_type e).

Definition exception_in_range (e : ExceptionEntry) : Prop :=
  0 <= start_pc e < 65536 /\ 0 <= end_pc e < 65536
  /\ 0 <= handler_pc e < 65536 /\ 0 <= catch_type e < 65536.

Definition encode_exception_table (table : list ExceptionEntry) : list byte :=
  List.concat (map encode_exception table).

(** ** Index numbering of the class-file format *)

(** As the specification words it: entries are numbered from 1, and a
    Long or Double entry takes two index slots, the second of which is
    unusable. *)
Definition is_wide (c : JVMConstant) : bool :=
  (tag c =? CONSTANT_Long) || (tag c =? CONSTANT_Double).

Fixpoint format_slots (entries : list JVMConstant)
  : list (option JVMConstant) :=
  match entries with
  | [] => []
  | c :: rest =>
      if is_wide c then Some c :: None :: format_slots rest
      else Some c :: format_slots rest
  end.

Definition format_resolve (entries : list JVMConstant) (i : Z)
  : option JVMConstant :=
  if i <? 1 then None
  else match nth_error (format_slots entries) (Z.to_nat (i - 1)) with
       | Some slot => slot
       | None => None
       end.

Definition format_count (entries : list JVMConstant) : Z :=
  len (format_slots entries) + 1.

(** ** Invariants of computations over the file *)

(** A computation that only moves forward: what it leaves unread is a
    suffix of what it found, and the position has grown by the number of
    bytes in between, whatever the outcome. *)
Definition forward {A} (m : M A) : Prop :=
  forall f, exists consumed,
    unread f = consumed ++ unread (snd (m f))
    /\ tell (snd (m f)) = tell f + len consumed.

(** [m] does not run out of budget on a file with fewer than [n] unread
    bytes. *)
Definition never_starves {A} (n : nat) (m : M A) : Prop :=
  forall f, (List.length (unread f) < n)%nat -> fst (m f) <> NoFuel.

(** [m1] agrees with [m2] wherever [m2] has budget enough. *)
Definition agrees {A} (m1 m2 : M A) : Prop :=
  forall f, fst (m2 f) <> NoFuel -> m1 f = m2 f.

(** A computation that looks at no byte it does not consume.  On the
    bytes [bs] it ends after [k] of them with outcome [o]; on any prefix of
    [bs] that still holds those [k] bytes it does exactly the same, and on
    a shorter prefix it raises [struct.error] with the prefix read to its
    end. *)
Definition local {A} (m : M A) : Prop :=
  forall (pos : Z) (bs : list byte), exists (k : nat) (o : Outcome A),
    (k <= List.length bs)%nat
    /\ m (mkFile pos bs) = (o, mkFile (pos + Z.of_nat k) (skipn k bs))
    /\ forall n : nat, (n <= List.length bs)%nat ->
         m (mkFile pos (firstn n bs))
         = if (k <=? n)%nat
           then (o, mkFile (pos + Z.of_nat k) (skipn k (firstn n bs)))
           else (Raise struct_error, mkFile (pos + Z.of_nat n) []).

(** A primitive of width [w]: all [w] bytes, or [struct.error] at the end
    of the file. *)
Definition fixed_width {A} (m : M A) (w : nat) (value : list byte -> A)
  : Prop :=
  forall (pos : Z) (bs : list byte),
    m (mkFile pos bs)
    = if (w <=? List.length bs)%nat
      then (Ok (value (firstn w bs)), mkFile (pos + Z.of_nat w) (skipn w bs))
      else (Raise struct_error, mkFile (pos + len bs) []).

(** ** UTF-8 *)

(** The code points a [str] decoded from UTF-8 can hold: up to U+10FFFF,
    surrogates left out. *)
Definition scalar (c : Z) : Prop :=
  0 <= c < 0x110000 /\ ~ (0xD800 <= c < 0xE000).

(** The UTF-8 bytes of a code point and of a text. *)
Definition utf8_encode_point (c : Z) : list byte :=
  if c <? 0x80 then [byte_of_Z c]
  else if c <? 0x800 then
    [byte_of_Z (0xC0 + c / 64); byte_of_Z (0x80 + c mod 64)]
  else if c <? 0x10000 then
    [byte_of_Z (0xE0 + c / 4096); byte_of_Z (0x80 + (c / 64) mod 64);
     byte_of_Z (0x80 + c mod 64)]
  else
    [byte_of_Z (0xF0 + c / 262144); byte_of_Z (0x80 + (c / 4096) mod 64);
     byte_of_Z (0x80 + (c / 64) mod 64); byte_of_Z (0x80 + c mod 64)].

Definition utf8_encode (s : str) : list byte :=
  flat_map utf8_encode_point s.

(** Bytes that occur in no UTF-8 text: 0xC0, 0xC1 and 0xF5 to 0xFF. *)
Definition never_in_utf8 (b : byte) : Prop :=
  bval b = 0xC0 \/ bval b = 0xC1 \/ 0xF5 <= bval b.

(** ** Encodings of what the decoder returns *)

Definition u8 (z : Z) : Prop := 0 <= z < 256.
Definition u16 (z : Z) : Prop := 0 <= z < 65536.
Definition u32 (z : Z) : Prop := 0 <= z < 4294967296.

(** The bytes of a constant-pool entry: the tag, then the fields of its
    shape in the order [__init__] reads them. *)
Definition encode_fields (fs : ConstFields) : list byte :=
  match fs with
  | Class_fields name_index => be16 name_index
  | Ref_fields class_index name_and_type_index =>
      be16 class_index ++ be16 name_and_type_index
  | String_fields string_index => be16 string_index
  | Word_fields bytes => be32 bytes
  | Wide_fields high_bytes low_bytes => be32 high_bytes ++ be32 low_bytes
  | NameAndType_fields name_index descriptor_index =>
      be16 name_index ++ be16 descriptor_index
  | Utf8_fields length bytes => be16 length ++ utf8_encode bytes
  | MethodHandle_fields reference_kind reference_index =>
      byte_of_Z reference_kind :: be16 reference_index
  | MethodType_fields descriptor_index => be16 descriptor_index
  | InvokeDynamic_fields bootstrap_method_attr_index name_and_type_index =>
      be16 bootstrap_method_attr_index ++ be16 name_and_type_index
  | No_fields => []
  end.

Definition encode_constant (c : JVMConstant) : list byte :=
  byte_of_Z (tag c) :: encode_fields (fields c).

(** An entry whose fields have the shape of its tag and fit their widths;
    an entry without fields carries a tag that has no [case]. *)
Definition wf_constant (c : JVMConstant) : Prop :=
  match fields c with
  | Class_fields n => tag c = CONSTANT_Class /\ u16 n
  | Ref_fields a b =>
      (tag c = CONSTANT_Fieldref \/ tag c = CONSTANT_Methodref
       \/ tag c = CONSTANT_InterfaceMethodref) /\ u16 a /\ u16 b
  | String_fields s => tag c = CONSTANT_String /\ u16 s
  | Word_fields w =>
      (tag c = CONSTANT_Integer \/ tag c = CONSTANT_Float) /\ u32 w
  | Wide_fields h l =>
      (tag c = CONSTANT_Long \/ tag c = CONSTANT_Double) /\ u32 h /\ u32 l
  | NameAndType_fields a b => tag c = CONSTANT_NameAndType /\ u16 a /\ u16 b
  | Utf8_fields n s =>
      tag c = CONSTANT_Utf8 /\ n = len (utf8_encode s) /\ n < 65536
      /\ Forall scalar s
  | MethodHandle_fields k i => tag c = CONSTANT_MethodHandle /\ u8 k /\ u16 i
  | MethodType_fields d => tag c = CONSTANT_MethodType /\ u16 d
  | InvokeDynamic_fields a b =>
      tag c = CONSTANT_InvokeDynamic /\ u16 a /\ u16 b
  | No_fields => u8 (tag c) /\ ~ In (tag c) known_tags
  end.

Definition encode_pool (entries : list JVMConstant) : list byte :=
  be16 (len entries + 1) ++ List.concat (map encode_constant entries).

(** The bytes of an attribute: name index, declared length, then the raw
    payload or the body of a Code attribute with its nested attributes. *)
Fixpoint encode_attribute (a : JVMAttribute) : list byte :=
  match a with
  | mkAttribute idx _ alen inf =>
      be16 idx ++ be32 alen
      ++ match inf with
         | Raw_info payload => payload
         | Code_info (mkCodeAttr max_stack max_locals code_length code
                                 exception_table_length exception_table
                                 attributes_count attributes) =>
             be16 max_stack ++ be16 max_locals
             ++ be32 code_length ++ code
             ++ be16 exception_table_length
             ++ encode_exception_table exception_table
             ++ be16 attributes_count
             ++ List.concat (map encode_attribute attributes)
         end
  end.

Definition encode_attributes (l : list JVMAttribute) : list byte :=
  List.concat (map encode_attribute l).

(** How deep Code attributes are nested in an attribute. *)
Fixpoint depth (a : JVMAttribute) : nat :=
  match a with
  | mkAttribute _ _ _ inf =>
      match inf with
      | Raw_info _ => 1
      | Code_info (mkCodeAttr _ _ _ _ _ _ _ attributes) =>
          S (fold_right (fun x acc => Nat.max (depth x) acc) 0%nat attributes)
      end
  end.

Definition max_depth (l : list JVMAttribute) : nat :=
  fold_right (fun x acc => Nat.max (depth x) acc) 0%nat l.

(** An attribute as [JVMAttribute.__init__] builds it against [pool]: the
    name is the pool entry of the name index; a payload is raw exactly
    when the name is not "Code" and then has the declared length; in a
    Code body the lengths and counts are those of the sequences.  The
    declared length of a Code attribute is bound to nothing. *)
Fixpoint wf_attribute (pool : list JVMConstant) (a : JVMAttribute) : Prop :=
  match a with
  | mkAttribute idx c alen inf =>
      u16 idx /\ getitem pool (idx - 1) = Ok c /\ u32 alen
      /\ match inf with
         | Raw_info payload =>
             JVMConstant_str c <> Code /\ alen = len payload
         | Code_info (mkCodeAttr max_stack max_locals code_length code
                                 exception_table_length exception_table
                                 attributes_count attributes) =>
             JVMConstant_str c = Code
             /\ u16 max_stack /\ u16 max_locals
             /\ code_length = len code /\ u32 code_length
             /\ exception_table_length = len exception_table
             /\ u16 exception_table_length
             /\ Forall exception_in_range exception_table
             /\ attributes_count = len attributes /\ u16 attributes_count
             /\ fold_right (fun x acc => wf_attribute pool x /\ acc)
                           True attributes
         end
  end.

Definition wf_attributes (pool : list JVMConstant) (count : Z)
           (l : list JVMAttribute) : Prop :=
  count = len l /\ u16 count /\ Forall (wf_attribute pool) l.

Definition encode_method (m : JVMMethod) : list byte :=
  be16 (method_access_flags m) ++ be16 (method_name_index m)
  ++ be16 (method_descriptor_index m) ++ be16 (method_attributes_count m)
  ++ encode_attributes (method_attributes m).

Definition wf_method (pool : list JVMConstant) (m : JVMMethod) : Prop :=
  u16 (method_access_flags m) /\ u16 (method_name_index m)
  /\ u16 (method_descriptor_index m)
  /\ wf_attributes pool (method_attributes_count m) (method_attributes m).

Definition encode_field (fd : JVMField) : list byte :=
  be16 (field_access_flags fd) ++ be16 (field_name_index fd)
  ++ be16 (field_descriptor_index fd) ++ be16 (field_attributes_count fd)
  ++ encode_attributes (field_attributes fd).

Definition wf_field (pool : list JVMConstant) (fd : JVMField) : Prop :=
  u16 (field_access_flags fd) /\ u16 (field_name_index fd)
  /\ u16 (field_descriptor_index fd)
  /\ wf_attributes pool (field_attributes_count fd) (field_attributes fd).

Definition encode_class (k : JVMClass) : list byte :=
  [xca; xfe; xba; xbe]
  ++ be16 (minor_version k) ++ be16 (major_version k)
  ++ encode_pool (constant_pool k)
  ++ be16 (access_flags k) ++ be16 (this_class k) ++ be16 (super_class k)
  ++ be16 (interfaces_count k) ++ List.concat (map be16 (interfaces k))
  ++ be16 (fields_count k) ++ List.concat (map encode_field (class_fields k))
  ++ be16 (methods_count k) ++ List.concat (map encode_method (methods k))
  ++ be16 (attributes_count k) ++ encode_attributes (attributes k).

(** A class as [JVMClass.__init__] builds it: every count is that of its
    sequence (the pool count one more), every number fits its field, and
    the entries, fields, methods and attributes are well formed. *)
Definition wf_class (k : JVMClass) : Prop :=
  u16 (minor_version k) /\ u16 (major_version k)
  /\ constant_pool_count k = len (constant_pool k) + 1
  /\ u16 (constant_pool_count k)
  /\ Forall wf_constant (constant_pool k)
  /\ u16 (access_flags k) /\ u16 (this_class k) /\ u16 (super_class k)
  /\ interfaces_count k = len (interfaces k) /\ u16 (interfaces_count k)
  /\ Forall u16 (interfaces k)
  /\ fields_count k = len (class_fields k) /\ u16 (fields_count k)
  /\ Forall (wf_field (constant_pool k)) (class_fields k)
  /\ methods_count k = len (methods k) /\ u16 (methods_count k)
  /\ Forall (wf_method (constant_pool k)) (methods k)
  /\ wf_attributes (constant_pool k) (attributes_count k) (attributes k).

(** Every attribute of a class, those of its fields and methods first. *)
Definition all_attributes (k : JVMClass) : list JVMAttribute :=
  flat_map field_attributes (class_fields k)
  ++ flat_map method_attributes (methods k)
  ++ attributes k.

(** A reader whose every result is well formed ([P]) and accounts for the
    bytes it consumed: they are the encoding of the result. *)
Definition faithful {A} (m : M A) (enc : A -> list byte) (P : A -> Prop)
  : Prop :=
  forall f x f',
    m f = (Ok x, f') ->
    P x /\ unread f = enc x ++ unread f' /\ tell f' = tell f + len (enc x).

(** The body of a Code attribute on its own. *)
Definition encode_code_attr (ca : JVMCodeAttr) : list byte :=
  match ca with
  | mkCodeAttr max_stack max_locals code_length code
               exception_table_length exception_table
               attributes_count attributes =>
      be16 max_stack ++ be16 max_locals
      ++ be32 code_length ++ code
      ++ be16 exception_table_length
      ++ encode_exception_table exception_table
      ++ be16 attributes_count
      ++ encode_attributes attributes
  end.

Definition wf_code_attr (pool : list JVMConstant) (ca : JVMCodeAttr) : Prop :=
  match ca with
  | mkCodeAttr max_stack max_locals code_length code
               exception_table_length exception_table
               attributes_count attributes =>
      u16 max_stack /\ u16 max_locals
      /\ code_length = len code /\ u32 code_length
      /\ exception_table_length = len exception_table
      /\ u16 exception_table_length
      /\ Forall exception_in_range exception_table
      /\ attributes_count = len attributes /\ u16 attributes_count
      /\ Forall (wf_attribute pool) attributes
  end.

(** [JVMAttribute.__str__] (and [__repr__], which has the same body). *)
Definition JVMAttribute_str (a : JVMAttribute) : str :=
  JVMConstant_str (attribute_name a).

(** The number of bytes [JVMConstant.__init__] reads after a tag other
    than that of a Utf8 entry. *)
Definition entry_width (t : Z) : Z :=
  if (t =? CONSTANT_Class) || (t =? CONSTANT_String)
     || (t =? CONSTANT_MethodType) then 2
  else if t =? CONSTANT_MethodHandle then 3
  else if (t =? CONSTANT_Fieldref) || (t =? CONSTANT_Methodref)
          || (t =? CONSTANT_InterfaceMethodref) || (t =? CONSTANT_Integer)
          || (t =? CONSTANT_Float) || (t =? CONSTANT_NameAndType)
          || (t =? CONSTANT_InvokeDynamic) then 4
  else if (t =? CONSTANT_Long) || (t =? CONSTANT_Double) then 8
  else 0.

(** ** Sample inputs *)

Definition sample_pool : list JVMConstant :=
  [mkConstant 1 (Utf8_fields 4 Code);
   mkConstant 7 (Class_fields 3);
   mkConstant 1 (Utf8_fields 10 (str_of_string "SourceFile"))].

Definition sample_exception_table : list ExceptionEntry :=
  [mkException 0 4 7 0; mkException 4 9 12 2].

(** Two attributes to nest in a Code attribute: a raw "SourceFile"
    attribute, and a Code attribute that has a raw attribute of its own. *)
Definition sample_nested_attributes : list JVMAttribute :=
  [mkAttribute 3 (mkConstant 1 (Utf8_fields 10 (str_of_string "SourceFile")))
               2 (Raw_info [x00; x04]);
   mkAttribute 1 (mkConstant 1 (Utf8_fields 4 Code)) 0
     (Code_info
        (mkCodeAttr 1 0 1 [xb1] 0 [] 1
           [mkAttribute 3
              (mkConstant 1 (Utf8_fields 10 (str_of_string "SourceFile")))
              0 (Raw_info [])]))].

(** A "Code" attribute that declares a length of 0 and has a 13-byte body. *)
Definition mismatched_code_attribute : list byte :=
  be16 1 ++ be32 0
  ++ be16 1 ++ be16 1 ++ be32 1 ++ [xb1] ++ be16 0 ++ be16 0.

(** A small class: pool #1 Utf8 "Code", #2 Class #3, #3 Utf8 "A",
    #4 Utf8 "m", #5 Utf8 "()V"; one field without attributes and one
    method whose Code attribute holds the single instruction [return]. *)
Definition sample_class : list byte :=
  [xca; xfe; xba; xbe] ++ be16 0 ++ be16 52
  ++ be16 6
  ++ utf8_entry "Code" ++ (x07 :: be16 3) ++ utf8_entry "A"
  ++ utf8_entry "m" ++ utf8_entry "()V"
  ++ be16 33 ++ be16 2 ++ be16 0
  ++ be16 0
  ++ be16 1 ++ (be16 0 ++ be16 4 ++ be16 5 ++ be16 0)
  ++ be16 1
  ++ (be16 1 ++ be16 4 ++ be16 5 ++ be16 1
      ++ (be16 1 ++ be32 13
          ++ be16 0 ++ be16 1 ++ be32 1 ++ [xb1] ++ be16 0 ++ be16 0))
  ++ be16 0.

(** The class [sample_class] is the bytes of. *)
Definition sample_class_value : JVMClass :=
  {| minor_version := 0;
     major_version := 52;
     constant_pool_count := 6;
     constant_pool :=
       [mkConstant 1 (Utf8_fields 4 Code);
        mkConstant 7 (Class_fields 3);
        mkConstant 1 (Utf8_fields 1 (str_of_string "A"));
        mkConstant 1 (Utf8_fields 1 (str_of_string "m"));
        mkConstant 1 (Utf8_fields 3 (str_of_string "()V"))];
     access_flags := 33;
     this_class := 2;
     super_class := 0;
     interfaces_count := 0;
     interfaces := [];
     fields_count := 1;
     class_fields := [mkField 0 4 5 0 []];
     methods_count := 1;
     methods :=
       [mkMethod 1 4 5 1
          [mkAttribute 1 (mkConstant 1 (Utf8_fields 4 Code)) 13
             (Code_info (mkCodeAttr 0 1 1 [xb1] 0 [] 0 []))]];
     attributes_count := 0;
     attributes := [] |}.

(** A class file whose [constant_pool_count] field is 0. *)
Definition class_with_zero_pool_count : list byte :=
  [xca; xfe; xba; xbe] ++ be16 0 ++ be16 52
  ++ be16 0
  ++ be16 33 ++ be16 0 ++ be16 0
  ++ be16 0 ++ be16 0 ++ be16 0 ++ be16 0.

(** A class file of the format with a Long constant: #1 Long (and so #2
    unusable), #3 Utf8 "A", #4 Class #3, #5 Utf8 "Deprecated"; the class
    is #4 and has the one attribute "Deprecated" (#5) of length 0. *)
Definition class_with_long : list byte :=
  [xca; xfe; xba; xbe] ++ be16 0 ++ be16 52
  ++ be16 6
  ++ (x05 :: be32 0 ++ be32 42)
  ++ utf8_entry "A"
  ++ (x07 :: be16 3)
  ++ utf8_entry "Deprecated"
  ++ be16 33 ++ be16 4 ++ be16 0
  ++ be16 0 ++ be16 0 ++ be16 0
  ++ be16 1 ++ be16 5 ++ be32 0.

Definition entries_with_long : list JVMConstant :=
  [mkConstant 5 (Wide_fields 0 42);
   mkConstant 1 (Utf8_fields 1 (str_of_string "A"));
   mkConstant 7 (Class_fields 3);
   mkConstant 1 (Utf8_fields 10 (str_of_string "Deprecated"))].

(** A class file whose only attribute has [attribute_name_index] 0; the
    pool holds the one entry Utf8 "Deprecated". *)
Definition class_with_zero_name_index : list byte :=
  [xca; xfe; xba; xbe] ++ be16 0 ++ be16 52
  ++ be16 2
  ++ utf8_entry "Deprecated"
  ++ be16 33 ++ be16 0 ++ be16 0
  ++ be16 0 ++ be16 0 ++ be16 0
  ++ be16 1 ++ be16 0 ++ be32 0.

(** * Properties *)

(** ** Bytes and big-endian values *)

Lemma bval_range (b : byte) : 0 <= bval b < 256.
Proof.
  unfold bval. pose proof (Byte.to_N_bounded b). lia.
Qed.

Lemma bval_byte_of_Z (z : Z) : bval (byte_of_Z z) = z mod 256.
Proof.
  unfold bval, byte_of_Z.
  assert (Hm : 0 <= z mod 256 < 256) by (apply Z.mod_pos_bound; lia).
  destruct (Byte.of_N (Z.to_N (z mod 256))) as [b|] eqn:E.
  - apply Byte.to_of_N in E. rewrite E. lia.
  - apply Byte.of_N_None_iff in E. lia.
Qed.

Lemma be_value_be16 (v : Z) : 0 <= v < 65536 -> be_value (be16 v) = v.
Proof.
  intros Hv. unfold be_value, be16. cbn [fold_left].
  rewrite !bval_byte_of_Z. Z.div_mod_to_equations. lia.
Qed.

Lemma be_value_be32 (v : Z) : 0 <= v < 4294967296 -> be_value (be32 v) = v.
Proof.
  intros Hv. unfold be_value, be32. cbn [fold_left].
  rewrite !bval_byte_of_Z.
  replace (v / 16777216) with (v / 256 / 256 / 256)
    by (rewrite !Z.div_div by lia; reflexivity).
  replace (v / 65536) with (v / 256 / 256)
    by (rewrite !Z.div_div by lia; reflexivity).
  assert (H3 : 0 <= v / 256 / 256 / 256 < 256).
  { split; [repeat apply Z.div_pos; lia|].
    repeat (apply Z.div_lt_upper_bound; [lia|]). lia. }
  rewrite (Z.mod_small _ _ H3).
  pose proof (Z.div_mod (v / 256 / 256) 256).
  pose proof (Z.div_mod (v / 256) 256).
  pose proof (Z.div_mod v 256).
  lia.
Qed.

Lemma len_nonneg {A} (l : list A) : 0 <= len l.
Proof. unfold len. lia. Qed.

Lemma len_app {A} (l1 l2 : list A) : len (l1 ++ l2) = len l1 + len l2.
Proof. unfold len. rewrite length_app. lia. Qed.

Lemma len_cons {A} (x : A) (l : list A) : len (x :: l) = 1 + len l.
Proof. unfold len. simpl List.length. lia. Qed.

Lemma firstn_len_app {A} (l1 l2 : list A) :
  firstn (Z.to_nat (len l1)) (l1 ++ l2) = l1.
Proof.
  unfold len. rewrite Nat2Z.id.
  induction l1 as [|x l1 IH]; simpl; [reflexivity | now rewrite IH].
Qed.

Lemma skipn_len_app {A} (l1 l2 : list A) :
  skipn (Z.to_nat (len l1)) (l1 ++ l2) = l2.
Proof.
  unfold len. rewrite Nat2Z.id.
  induction l1 as [|x l1 IH]; simpl; auto.
Qed.

Lemma firstn_len {A} (l : list A) : firstn (Z.to_nat (len l)) l = l.
Proof. unfold len. rewrite Nat2Z.id. apply firstn_all. Qed.

Lemma skipn_len {A} (l : list A) : skipn (Z.to_nat (len l)) l = [].
Proof. unfold len. rewrite Nat2Z.id. apply skipn_all. Qed.

(** ** The read primitives *)

(** Reading [n] bytes that are there returns them and moves on by [n]. *)
Lemma read_app (pos : Z) (pre rest : list byte) :
  read (len pre) (mkFile pos (pre ++ rest))
  = (Ok pre, mkFile (pos + len pre) rest).
Proof.
  unfold read. cbn [unread tell].
  pose proof (len_nonneg pre) as Hp. pose proof (len_nonneg rest) as Hr.
  destruct (len pre <? 0) eqn:E; [apply Z.ltb_lt in E; lia|].
  rewrite len_app, Z.min_l by lia.
  now rewrite firstn_len_app, skipn_len_app.
Qed.

Lemma read_exact (n pos : Z) (pre rest : list byte) :
  len pre = n ->
  read n (mkFile pos (pre ++ rest)) = (Ok pre, mkFile (pos + n) rest).
Proof. intros <-. apply read_app. Qed.

Lemma U1_reads (f : JVMClassFile) : reads_exactly U1 1 be_value f.
Proof.
  destruct f as [pos bs]. unfold reads_exactly. cbn [unread tell].
  destruct bs as [|b0 r].
  - right. cbn. repeat split; lia.
  - left. split; [rewrite len_cons; pose proof (len_nonneg r); lia|].
    change (b0 :: r) with ([b0] ++ r).
    unfold U1, bind. rewrite (read_exact 1 pos [b0] r) by reflexivity.
    change (Z.to_nat 1) with 1%nat. cbn [firstn skipn app].
    unfold lift, unpack_B, be_value. cbn [fold_left].
    reflexivity.
Qed.

Lemma U2_reads (f : JVMClassFile) : reads_exactly U2 2 be_value f.
Proof.
  destruct f as [pos bs]. unfold reads_exactly. cbn [unread tell].
  destruct bs as [|b0 [|b1 r]].
  - right. cbn. repeat split; lia.
  - right. cbn. repeat split; lia.
  - left. split; [rewrite !len_cons; pose proof (len_nonneg r); lia|].
    change (b0 :: b1 :: r) with ([b0; b1] ++ r).
    unfold U2, bind. rewrite (read_exact 2 pos [b0; b1] r) by reflexivity.
    change (Z.to_nat 2) with 2%nat. cbn [firstn skipn app].
    unfold lift, unpack_H, be_value. cbn [fold_left].
    reflexivity.
Qed.

Lemma U4_reads (f : JVMClassFile) : reads_exactly U4 4 be_value f.
Proof.
  destruct f as [pos bs]. unfold reads_exactly. cbn [unread tell].
  destruct bs as [|b0 [|b1 [|b2 [|b3 r]]]];
    try (right; cbn; repeat split; lia).
  left. split; [rewrite !len_cons; pose proof (len_nonneg r); lia|].
  change (b0 :: b1 :: b2 :: b3 :: r) with ([b0; b1; b2; b3] ++ r).
  unfold U4, bind.
  rewrite (read_exact 4 pos [b0; b1; b2; b3] r) by reflexivity.
  change (Z.to_nat 4) with 4%nat. cbn [firstn skipn app].
  unfold lift, unpack_I, be_value. cbn [fold_left].
  f_equal. f_equal. lia.
Qed.

Lemma U_reads (n : Z) (f : JVMClassFile) :
  0 <= n -> reads_exactly (U n) n (fun bs => bs) f.
Proof.
  intros Hn. destruct f as [pos bs]. unfold reads_exactly. cbn [unread tell].
  destruct (Z_le_gt_dec n (len bs)) as [Hle|Hgt].
  - left. split; [assumption|].
    rewrite <- (firstn_skipn (Z.to_nat n) bs) at 1.
    assert (Hl : len (firstn (Z.to_nat n) bs) = n).
    { unfold len in *. rewrite length_firstn. lia. }
    unfold U, bind. rewrite <- Hl at 1. rewrite read_app.
    unfold lift, unpack_s. rewrite Hl.
    destruct (n <? n) eqn:E; [apply Z.ltb_lt in E; lia|].
    rewrite firstn_firstn, Nat.min_id. reflexivity.
  - right. split; [lia|].
    unfold U, bind, read. cbn [unread tell].
    destruct (n <? 0) eqn:E; [apply Z.ltb_lt in E; lia|].
    rewrite Z.min_r by lia.
    unfold lift, unpack_s.
    assert (Hl : len (firstn (Z.to_nat (len bs)) bs) = len bs).
    { unfold len. rewrite length_firstn. lia. }
    rewrite Hl.
    destruct (len bs <? n) eqn:E'; [|apply Z.ltb_ge in E'; lia].
    cbn. split; [reflexivity|]. pose proof (len_nonneg bs). lia.
Qed.

(** C6: each of the four read primitives hands back its value only when all
    the bytes asked for were there, and then the position has moved by
    exactly that width ([U1] by 1, [U2] by 2, [U4] by 4, [U n] by [n]); when
    fewer bytes remain it raises [struct.error] (the decoder's truncated
    input error), returns nothing and fills nothing in; in both cases the
    position does not move backwards. *)
Theorem cursor_primitives (f : JVMClassFile) (n : Z) (Hn : 0 <= n) :
  reads_exactly U1 1 be_value f
  /\ reads_exactly U2 2 be_value f
  /\ reads_exactly U4 4 be_value f
  /\ reads_exactly (U n) n (fun bs => bs) f.
Proof.
  repeat split;
    [apply U1_reads | apply U2_reads | apply U4_reads | now apply U_reads].
Qed.

Lemma cursor_primitives_witness :
  reads_exactly U1 1 be_value (open [xca; xfe; xba])
  /\ reads_exactly U2 2 be_value (open [xca; xfe; xba])
  /\ reads_exactly U4 4 be_value (open [xca; xfe; xba])
  /\ reads_exactly (U 3) 3 (fun bs => bs) (open [xca; xfe; xba]).
Proof.
  apply (cursor_primitives (open [xca; xfe; xba]) 3). lia.
Defined.

(** ** Sequencing *)

Lemma bind_ok {A B} {m : M A} (k : A -> M B) {f a f1} :
  m f = (Ok a, f1) -> bind m k f = k a f1.
Proof. intros H. unfold bind. now rewrite H. Qed.

Lemma bind_raise {A B} {m : M A} (k : A -> M B) {f e f1} :
  m f = (Raise e, f1) -> bind m k f = (Raise e, f1).
Proof. intros H. unfold bind. now rewrite H. Qed.

Lemma bind_inv_ok {A B} (m : M A) (k : A -> M B) f b f2 :
  bind m k f = (Ok b, f2) ->
  exists a f1, m f = (Ok a, f1) /\ k a f1 = (Ok b, f2).
Proof.
  unfold bind. destruct (m f) as [[a|e|] f1]; intros H;
    try discriminate. now exists a, f1.
Qed.

Lemma ret_inv_ok {A} (a b : A) f f' : ret a f = (Ok b, f') -> a = b /\ f = f'.
Proof. unfold ret. intros H. now inversion H. Qed.

(** ** The primitives on laid-out bytes *)

Lemma U1_cons (pos : Z) (b : byte) (rest : list byte) :
  U1 (mkFile pos (b :: rest)) = (Ok (bval b), mkFile (pos + 1) rest).
Proof.
  destruct (U1_reads (mkFile pos (b :: rest))) as [[_ H]|[H _]];
    cbn [unread tell] in *.
  - rewrite H. reflexivity.
  - rewrite len_cons in H. pose proof (len_nonneg rest). lia.
Qed.

Lemma U2_be16 (pos v : Z) (rest : list byte) :
  0 <= v < 65536 ->
  U2 (mkFile pos (be16 v ++ rest)) = (Ok v, mkFile (pos + 2) rest).
Proof.
  intros Hv.
  destruct (U2_reads (mkFile pos (be16 v ++ rest))) as [[_ H]|[H _]];
    cbn [unread tell] in *.
  - rewrite H. change (Z.to_nat 2) with 2%nat.
    change (firstn 2 (be16 v ++ rest)) with (be16 v).
    now rewrite be_value_be16.
  - rewrite len_app in H. change (len (be16 v)) with 2 in H.
    pose proof (len_nonneg rest). lia.
Qed.

Lemma U4_be32 (pos v : Z) (rest : list byte) :
  0 <= v < 4294967296 ->
  U4 (mkFile pos (be32 v ++ rest)) = (Ok v, mkFile (pos + 4) rest).
Proof.
  intros Hv.
  destruct (U4_reads (mkFile pos (be32 v ++ rest))) as [[_ H]|[H _]];
    cbn [unread tell] in *.
  - rewrite H. change (Z.to_nat 4) with 4%nat.
    change (firstn 4 (be32 v ++ rest)) with (be32 v).
    now rewrite be_value_be32.
  - rewrite len_app in H. change (len (be32 v)) with 4 in H.
    pose proof (len_nonneg rest). lia.
Qed.

Lemma U_exact (pos : Z) (pre rest : list byte) :
  U (len pre) (mkFile pos (pre ++ rest))
  = (Ok pre, mkFile (pos + len pre) rest).
Proof.
  pose proof (len_nonneg pre) as Hp.
  destruct (U_reads (len pre) (mkFile pos (pre ++ rest)) Hp)
    as [[_ H]|[H _]]; cbn [unread tell] in *.
  - rewrite H. now rewrite firstn_len_app, skipn_len_app.
  - rewrite len_app in H. pose proof (len_nonneg rest). lia.
Qed.

(** A request for more bytes than are left raises [struct.error] after
    the file has been read to its end. *)
Lemma U_short (n pos : Z) (bs : list byte) :
  len bs < n ->
  U n (mkFile pos bs) = (Raise struct_error, mkFile (pos + len bs) []).
Proof.
  intros Hn. pose proof (len_nonneg bs) as Hb.
  unfold U, bind, read. cbn [unread tell].
  destruct (n <? 0) eqn:E; [apply Z.ltb_lt in E; lia|].
  rewrite Z.min_r by lia.
  rewrite firstn_len, skipn_len.
  unfold lift, unpack_s.
  destruct (len bs <? n) eqn:E'; [reflexivity|apply Z.ltb_ge in E'; lia].
Qed.

(** What a successful read tells about the file. *)
Lemma U1_inv_ok f v f' :
  U1 f = (Ok v, f') ->
  0 <= v < 256 /\ 1 <= len (unread f) /\ tell f' = tell f + 1
  /\ unread f' = skipn 1 (unread f).
Proof.
  intros H. destruct (U1_reads f) as [[Hl E]|[_ [E _]]].
  - rewrite H in E. inversion E; subst. cbn [tell unread].
    repeat split; try lia; destruct (unread f) as [|b0 r];
      unfold be_value; cbn [firstn Z.to_nat Pos.to_nat Pos.iter_op fold_left];
      try (unfold len in Hl; simpl in Hl; lia);
      pose proof (bval_range b0); lia.
  - rewrite H in E. discriminate.
Qed.

Lemma U2_inv_ok f v f' :
  U2 f = (Ok v, f') ->
  0 <= v < 65536 /\ 2 <= len (unread f) /\ tell f' = tell f + 2
  /\ unread f' = skipn 2 (unread f).
Proof.
  intros H. destruct (U2_reads f) as [[Hl E]|[_ [E _]]].
  - rewrite H in E. inversion E; subst. cbn [tell unread].
    change (Z.to_nat 2) with 2%nat.
    repeat split; try lia; destruct (unread f) as [|b0 [|b1 r]];
      unfold be_value; cbn [firstn fold_left];
      try (unfold len in Hl; simpl in Hl; lia);
      pose proof (bval_range b0); pose proof (bval_range b1); lia.
  - rewrite H in E. discriminate.
Qed.

Lemma U4_inv_ok f v f' :
  U4 f = (Ok v, f') ->
  0 <= v < 4294967296 /\ 4 <= len (unread f) /\ tell f' = tell f + 4
  /\ unread f' = skipn 4 (unread f).
Proof.
  intros H. destruct (U4_reads f) as [[Hl E]|[_ [E _]]].
  - rewrite H in E. inversion E; subst. cbn [tell unread].
    change (Z.to_nat 4) with 4%nat.
    repeat split; try lia;
      destruct (unread f) as [|b0 [|b1 [|b2 [|b3 r]]]];
      unfold be_value; cbn [firstn fold_left];
      try (unfold len in Hl; simpl in Hl; lia);
      pose proof (bval_range b0); pose proof (bval_range b1);
      pose proof (bval_range b2); pose proof (bval_range b3); lia.
  - rewrite H in E. discriminate.
Qed.

(** ** The magic number *)

(** C7: when the first four bytes of the file do not spell [0xCAFEBABE],
    the constructor raises [BaseException("Invalid class file")] (the
    decoder's not-a-class-file error), with exactly those four bytes read
    and no [JVMClass] value returned. *)
Theorem bad_magic_rejected (content : list byte) :
  4 <= len content ->
  be_value (firstn 4 content) <> 0xCAFEBABE ->
  JVMClass_init content
  = (Raise (BaseException "Invalid class file"),
     {| tell := 4; unread := skipn 4 content |}).
Proof.
  intros Hlen Hmagic. unfold JVMClass_init, JVMClass_body.
  apply bind_raise. unfold validate_class_file_magic.
  destruct (U4_reads (open content)) as [[_ E]|[Hs _]];
    cbn [open unread tell] in *; [|lia].
  rewrite (bind_ok _ E). change (Z.to_nat 4) with 4%nat.
  destruct (be_value (firstn 4 content) =? 0xCAFEBABE) eqn:Q.
  - apply Z.eqb_eq in Q. contradiction.
  - reflexivity.
Qed.

Lemma bad_magic_rejected_witness :
  JVMClass_init [xca; xfe; xba; xbf; x00; x00; x00; x34]
  = (Raise (BaseException "Invalid class file"),
     {| tell := 4; unread := [x00; x00; x00; x34] |}).
Proof.
  apply (bad_magic_rejected [xca; xfe; xba; xbf; x00; x00; x00; x34]).
  - vm_compute. discriminate.
  - vm_compute. discriminate.
Defined.

(** A file too short to hold a magic number fails in [U4] instead. *)
Lemma short_magic_rejected (content : list byte) :
  len content < 4 ->
  fst (JVMClass_init content) = Raise struct_error.
Proof.
  intros Hlen. unfold JVMClass_init, JVMClass_body, validate_class_file_magic.
  destruct (U4_reads (open content)) as [[Hs _]|[_ [E _]]];
    cbn [open unread tell] in *; [lia|].
  destruct (U4 (open content)) as [o f1] eqn:E4. cbn [fst] in E. subst o.
  rewrite (bind_raise _ (bind_raise _ E4)). reflexivity.
Qed.

(** ** Constant-pool entries *)

Ltac in_known_tags :=
  unfold known_tags; cbn [In];
  repeat first [left; reflexivity | right].

(** C2, as the code has it: a tag byte outside the known tags is not an
    error.  The constructor returns an entry that holds the tag and no
    payload field, and only the tag byte has been read. *)
Theorem unknown_tag_bare (pos : Z) (b : byte) (rest : list byte) :
  ~ In (bval b) known_tags ->
  JVMConstant_init (mkFile pos (b :: rest))
  = (Ok (mkConstant (bval b) No_fields), mkFile (pos + 1) rest).
Proof.
  intros Hb. unfold JVMConstant_init.
  rewrite (bind_ok _ (U1_cons pos b rest)).
  assert (Hne : forall t, In t known_tags -> (bval b =? t) = false).
  { intros t Ht. apply Z.eqb_neq. intros E. apply Hb. now rewrite E. }
  rewrite (Hne CONSTANT_Class), (Hne CONSTANT_Fieldref),
    (Hne CONSTANT_Methodref), (Hne CONSTANT_InterfaceMethodref),
    (Hne CONSTANT_String), (Hne CONSTANT_Integer), (Hne CONSTANT_Float),
    (Hne CONSTANT_Long), (Hne CONSTANT_Double), (Hne CONSTANT_NameAndType),
    (Hne CONSTANT_Utf8), (Hne CONSTANT_MethodHandle),
    (Hne CONSTANT_MethodType), (Hne CONSTANT_InvokeDynamic)
    by in_known_tags.
  reflexivity.
Qed.

Lemma unknown_tag_bare_witness :
  JVMConstant_init (mkFile 10 [x13; x00; x05])
  = (Ok (mkConstant 19 No_fields), mkFile (10 + 1) [x00; x05]).
Proof.
  apply (unknown_tag_bare 10 x13 [x00; x05]).
  vm_compute. intuition discriminate.
Defined.

(** C2 as stated fails: tag 2 is not a known tag, and reading the entry
    succeeds. *)
Lemma unknown_tag_not_rejected :
  ~ In 2 known_tags
  /\ JVMConstant_init (open [x02])
     = (Ok (mkConstant 2 No_fields), mkFile 1 []).
Proof.
  split; [vm_compute; intuition discriminate | reflexivity].
Qed.

(** A Utf8 entry of length 5 spelling "hello" decodes to that text. *)
Example utf8_hello :
  JVMConstant_init (open (utf8_entry "hello"))
  = (Ok (mkConstant 1 (Utf8_fields 5 (str_of_string "hello"))), mkFile 8 []).
Proof. reflexivity. Qed.

(** Bytes that are not UTF-8 (here an overlong encoding of NUL) are
    rejected by [decode]. *)
Example utf8_overlong :
  JVMConstant_init (open [x01; x00; x02; xc0; x80])
  = (Raise UnicodeDecodeError, mkFile 5 []).
Proof. reflexivity. Qed.

(** ** Attributes *)

Lemma lift_ok {A} (o : Outcome A) (a : A) (f : JVMClassFile) :
  o = Ok a -> lift o f = (Ok a, f).
Proof. now intros ->. Qed.

Lemma str_eqb_eq (s t : str) : str_eqb s t = true <-> s = t.
Proof.
  unfold str_eqb. destruct (list_eq_dec Z.eq_dec s t); intuition discriminate.
Qed.

Lemma str_eqb_neq (s t : str) : str_eqb s t = false <-> s <> t.
Proof.
  unfold str_eqb. destruct (list_eq_dec Z.eq_dec s t);
    intuition (discriminate || congruence).
Qed.

Lemma unknown_text_not_Code (t : str) :
  str_of_string "-- UNKNOWN " ++ t <> Code.
Proof. intros E. vm_compute in E. discriminate. Qed.

Lemma non_utf8_str (c : JVMConstant) :
  tag c <> CONSTANT_Utf8 ->
  JVMConstant_str c
  = str_of_string "-- UNKNOWN " ++ format_int (tag c) ++ str_of_string " --".
Proof.
  intros Ht. unfold JVMConstant_str.
  apply Z.eqb_neq in Ht. now rewrite Ht.
Qed.

(** An attribute read at position [pos] against [pool], whose name index
    [idx] is that of the pool entry [c]. *)
Section Attribute.

Variables (fuel : nat) (pool : list JVMConstant).
Variables (pos idx : Z) (c : JVMConstant).

Hypothesis idx_u16 : 0 <= idx < 65536.
Hypothesis idx_names_c : getitem pool (idx - 1) = Ok c.

(** The start of [JVMAttribute.__init__]: name index, pool lookup,
    length. *)
Lemma attribute_header (alen : Z) (body : list byte) :
  0 <= alen < 4294967296 ->
  JVMAttribute_init (S fuel) pool
    (mkFile pos (be16 idx ++ be32 alen ++ body))
  = (if str_eqb (JVMConstant_str c) Code
     then code_attr <- JVMCodeAttr_init (JVMAttribute_init fuel pool) ;;
          ret (mkAttribute idx c alen (Code_info code_attr))
     else payload <- U alen ;;
          ret (mkAttribute idx c alen (Raw_info payload)))
    (mkFile (pos + 6) body).
Proof.
  intros Hlen. cbn [JVMAttribute_init].
  rewrite (bind_ok _ (U2_be16 pos idx _ idx_u16)).
  rewrite (bind_ok _ (lift_ok _ c _ idx_names_c)).
  rewrite (bind_ok _ (U4_be32 (pos + 2) alen _ Hlen)).
  replace (pos + 2 + 4) with (pos + 6) by lia. reflexivity.
Qed.

Lemma attribute_raw_layout (payload rest : list byte) :
  len payload < 4294967296 ->
  JVMConstant_str c <> Code ->
  JVMAttribute_init (S fuel) pool
    (mkFile pos (be16 idx ++ be32 (len payload) ++ payload ++ rest))
  = (Ok (mkAttribute idx c (len payload) (Raw_info payload)),
     mkFile (pos + 6 + len payload) rest).
Proof.
  intros Hlen Hname. pose proof (len_nonneg payload) as Hp.
  rewrite attribute_header by lia.
  apply str_eqb_neq in Hname. rewrite Hname.
  rewrite (bind_ok _ (U_exact (pos + 6) payload rest)). reflexivity.
Qed.

(** C9: an attribute whose name is any text but "Code" is read as its
    declared length of raw bytes, whatever they are: the payload stored
    is exactly the [attribute_length] bytes that follow the length field,
    and the file is left at the byte after them. *)
Theorem opaque_attribute (payload rest : list byte) :
  len payload < 4294967296 ->
  JVMConstant_str c <> Code ->
  exists a,
    JVMAttribute_init (S fuel) pool
      (mkFile pos (be16 idx ++ be32 (len payload) ++ payload ++ rest))
    = (Ok a, mkFile (pos + 6 + len payload) rest)
    /\ attribute_name a = c
    /\ info a = Raw_info payload
    /\ len payload = attribute_length a.
Proof.
  intros Hlen Hname.
  exists (mkAttribute idx c (len payload) (Raw_info payload)).
  split; [now apply attribute_raw_layout | repeat split].
Qed.

(** A payload shorter than declared is not stored short: [U] raises. *)
Lemma short_payload_rejected (alen : Z) (body : list byte) :
  len body < alen < 4294967296 ->
  JVMConstant_str c <> Code ->
  JVMAttribute_init (S fuel) pool
    (mkFile pos (be16 idx ++ be32 alen ++ body))
  = (Raise struct_error, mkFile (pos + 6 + len body) []).
Proof.
  intros Hlen Hname. pose proof (len_nonneg body) as Hb.
  rewrite attribute_header by lia.
  apply str_eqb_neq in Hname. rewrite Hname.
  rewrite (bind_raise _ (U_short alen (pos + 6) body (proj1 Hlen))).
  reflexivity.
Qed.

(** C4, as the code has it: when the name index resolves to an entry
    that is not a Utf8 entry, the name is the text "-- UNKNOWN <tag> --"
    that [__str__] gives it; that text is never "Code", so the parse goes
    on and the attribute is stored with its declared length of raw
    bytes. *)
Theorem non_utf8_name_accepted (payload rest : list byte) :
  len payload < 4294967296 ->
  tag c <> CONSTANT_Utf8 ->
  JVMConstant_str c
  = str_of_string "-- UNKNOWN " ++ format_int (tag c) ++ str_of_string " --"
  /\ JVMAttribute_init (S fuel) pool
       (mkFile pos (be16 idx ++ be32 (len payload) ++ payload ++ rest))
     = (Ok (mkAttribute idx c (len payload) (Raw_info payload)),
        mkFile (pos + 6 + len payload) rest).
Proof.
  intros Hlen Htag. split; [now apply non_utf8_str|].
  apply attribute_raw_layout; [assumption|].
  rewrite (non_utf8_str c Htag). apply unknown_text_not_Code.
Qed.

(** C5, as the code has it: an attribute named "Code" is handed to the
    Code decoder at the byte after the length field, and the outcome and
    the final position are the decoder's.  The declared length is stored
    in the attribute and compared with nothing. *)
Theorem code_attribute_length_unchecked (alen : Z) (body : list byte) :
  0 <= alen < 4294967296 ->
  JVMConstant_str c = Code ->
  JVMAttribute_init (S fuel) pool
    (mkFile pos (be16 idx ++ be32 alen ++ body))
  = match JVMCodeAttr_init (JVMAttribute_init fuel pool)
                           (mkFile (pos + 6) body) with
    | (Ok code_attr, f') =>
        (Ok (mkAttribute idx c alen (Code_info code_attr)), f')
    | (Raise e, f') => (Raise e, f')
    | (NoFuel, f') => (NoFuel, f')
    end.
Proof.
  intros Hlen Hname.
  rewrite attribute_header by assumption.
  apply str_eqb_eq in Hname. rewrite Hname.
  unfold bind.
  destruct (JVMCodeAttr_init (JVMAttribute_init fuel pool)
                             (mkFile (pos + 6) body)) as [[ca|e|] f'];
    reflexivity.
Qed.

End Attribute.

Lemma opaque_attribute_witness :
  exists a,
    JVMAttribute_init 1 sample_pool
      (mkFile 0 (be16 3 ++ be32 (len [x00; x04]) ++ [x00; x04] ++ [xff]))
    = (Ok a, mkFile (0 + 6 + len [x00; x04]) [xff])
    /\ attribute_name a
       = mkConstant 1 (Utf8_fields 10 (str_of_string "SourceFile"))
    /\ info a = Raw_info [x00; x04]
    /\ len [x00; x04] = attribute_length a.
Proof.
  apply (opaque_attribute 0 sample_pool 0 3
           (mkConstant 1 (Utf8_fields 10 (str_of_string "SourceFile")))).
  - lia.
  - reflexivity.
  - vm_compute. reflexivity.
  - vm_compute. discriminate.
Defined.

Lemma non_utf8_name_accepted_witness :
  JVMConstant_str (mkConstant 7 (Class_fields 3))
  = str_of_string "-- UNKNOWN " ++ format_int 7 ++ str_of_string " --"
  /\ JVMAttribute_init 1 sample_pool
       (mkFile 0 (be16 2 ++ be32 (len [x2a]) ++ [x2a] ++ []))
     = (Ok (mkAttribute 2 (mkConstant 7 (Class_fields 3)) (len [x2a])
                        (Raw_info [x2a])),
        mkFile (0 + 6 + len [x2a]) []).
Proof.
  apply (non_utf8_name_accepted 0 sample_pool 0 2
           (mkConstant 7 (Class_fields 3))).
  - lia.
  - reflexivity.
  - vm_compute. reflexivity.
  - vm_compute. discriminate.
Defined.

(** C4 as stated fails: index 2 of [sample_pool] is a Class entry, and the
    attribute that names it is decoded without any error. *)
Lemma non_utf8_name_not_rejected :
  getitem sample_pool (2 - 1) = Ok (mkConstant 7 (Class_fields 3))
  /\ JVMAttribute_init 1 sample_pool (open (be16 2 ++ be32 1 ++ [x2a]))
     = (Ok (mkAttribute 2 (mkConstant 7 (Class_fields 3)) 1 (Raw_info [x2a])),
        mkFile 7 []).
Proof. split; reflexivity. Qed.

Lemma code_attribute_length_unchecked_witness :
  JVMAttribute_init 1 sample_pool
    (mkFile 0 (be16 1 ++ be32 0
               ++ be16 1 ++ be16 1 ++ be32 1 ++ [xb1] ++ be16 0 ++ be16 0))
  = match JVMCodeAttr_init (JVMAttribute_init 0 sample_pool)
            (mkFile (0 + 6)
               (be16 1 ++ be16 1 ++ be32 1 ++ [xb1] ++ be16 0 ++ be16 0)) with
    | (Ok code_attr, f') =>
        (Ok (mkAttribute 1 (mkConstant 1 (Utf8_fields 4 Code)) 0
                         (Code_info code_attr)), f')
    | (Raise e, f') => (Raise e, f')
    | (NoFuel, f') => (NoFuel, f')
    end.
Proof.
  apply (code_attribute_length_unchecked 0 sample_pool 0 1
           (mkConstant 1 (Utf8_fields 4 Code))).
  - lia.
  - reflexivity.
  - lia.
  - reflexivity.
Defined.

(** C5 as stated fails: the attribute is named "Code", declares 0 bytes,
    its decoder consumes 13, and the parse succeeds. *)
Lemma code_length_mismatch_accepted :
  exists a f',
    JVMAttribute_init 1 sample_pool (open mismatched_code_attribute)
    = (Ok a, f')
    /\ JVMConstant_str (attribute_name a) = Code
    /\ attribute_length a = 0
    /\ tell f' - 6 = 13.
Proof.
  eexists. eexists. split; [vm_compute; reflexivity|].
  repeat split.
Qed.

(** ** The Code attribute *)

Lemma read_exception_entry_layout (pos : Z) (e : ExceptionEntry)
      (rest : list byte) :
  exception_in_range e ->
  read_exception_entry (mkFile pos (encode_exception e ++ rest))
  = (Ok e, mkFile (pos + 8) rest).
Proof.
  intros (Hs & He & Hh & Hc). destruct e as [s e h c]. cbn [start_pc end_pc
    handler_pc catch_type] in *.
  unfold read_exception_entry, encode_exception.
  cbn [start_pc end_pc handler_pc catch_type].
  rewrite <- !app_assoc.
  rewrite (bind_ok _ (U2_be16 pos s _ Hs)).
  rewrite (bind_ok _ (U2_be16 (pos + 2) e _ He)).
  rewrite (bind_ok _ (U2_be16 (pos + 2 + 2) h _ Hh)).
  rewrite (bind_ok _ (U2_be16 (pos + 2 + 2 + 2) c _ Hc)).
  unfold ret. do 2 f_equal. lia.
Qed.

Lemma exception_table_layout (table : list ExceptionEntry) :
  forall (pos : Z) (rest : list byte),
  Forall exception_in_range table ->
  repeatM (List.length table) read_exception_entry
          (mkFile pos (encode_exception_table table ++ rest))
  = (Ok table, mkFile (pos + 8 * len table) rest).
Proof.
  induction table as [|e table IH]; intros pos rest Hall.
  - cbn. unfold ret. do 2 f_equal. unfold len. cbn. lia.
  - inversion Hall as [|? ? He Hrest]; subst.
    unfold encode_exception_table in *.
    cbn [List.length repeatM map List.concat]. rewrite <- app_assoc.
    rewrite (bind_ok _ (read_exception_entry_layout pos e _ He)).
    rewrite (bind_ok _ (IH (pos + 8) rest Hrest)).
    unfold ret. do 2 f_equal. rewrite len_cons. lia.
Qed.

Lemma code_attr_layout (nested : M JVMAttribute) (pos : Z)
      (max_stack max_locals : Z) (code : list byte)
      (table : list ExceptionEntry) (attributes_count : Z)
      (rest : list byte) :
  0 <= max_stack < 65536 ->
  0 <= max_locals < 65536 ->
  len code < 4294967296 ->
  len table < 65536 ->
  Forall exception_in_range table ->
  0 <= attributes_count < 65536 ->
  JVMCodeAttr_init nested
    (mkFile pos
       (be16 max_stack ++ be16 max_locals
        ++ be32 (len code) ++ code
        ++ be16 (len table) ++ encode_exception_table table
        ++ be16 attributes_count ++ rest))
  = (attributes <- comprehension attributes_count nested ;;
     ret (mkCodeAttr max_stack max_locals (len code) code
                     (len table) table attributes_count attributes))
    (mkFile (pos + 12 + len code + 8 * len table) rest).
Proof.
  intros Hs Hl Hc Ht Hall Hn.
  pose proof (len_nonneg code) as Hc0. pose proof (len_nonneg table) as Ht0.
  unfold JVMCodeAttr_init.
  rewrite (bind_ok _ (U2_be16 pos max_stack _ Hs)).
  rewrite (bind_ok _ (U2_be16 (pos + 2) max_locals _ Hl)).
  rewrite (bind_ok _ (U4_be32 (pos + 2 + 2) (len code) _ (conj Hc0 Hc))).
  rewrite (bind_ok _ (U_exact (pos + 2 + 2 + 4) code _)).
  rewrite (bind_ok _ (U2_be16 (pos + 2 + 2 + 4 + len code) (len table) _
                              (conj Ht0 Ht))).
  assert (Htab : comprehension (len table) read_exception_entry
                   (mkFile (pos + 2 + 2 + 4 + len code + 2)
                      (encode_exception_table table
                       ++ be16 attributes_count ++ rest))
                 = (Ok table,
                    mkFile (pos + 2 + 2 + 4 + len code + 2 + 8 * len table)
                           (be16 attributes_count ++ rest))).
  { unfold comprehension, len. rewrite Nat2Z.id.
    now apply exception_table_layout. }
  rewrite (bind_ok _ Htab).
  rewrite (bind_ok _ (U2_be16 _ attributes_count rest Hn)).
  replace (pos + 2 + 2 + 4 + len code + 2 + 8 * len table + 2)
    with (pos + 12 + len code + 8 * len table) by lia.
  reflexivity.
Qed.

(** With two records in the table, [attributes_count] is read 16 bytes
    after the table length. *)
Example two_exception_records :
  JVMCodeAttr_init (JVMAttribute_init 1 sample_pool)
    (mkFile 0
       (be16 2 ++ be16 1 ++ be32 0 ++ be16 2
        ++ encode_exception_table sample_exception_table
        ++ be16 0 ++ [xff]))
  = (Ok (mkCodeAttr 2 1 0 [] 2 sample_exception_table 0 []),
     mkFile (10 + 16 + 2) [xff]).
Proof. reflexivity. Qed.

(** ** Counts and sequences *)

Lemma repeatM_length {A} (m : M A) (n : nat) :
  forall f l f', repeatM n m f = (Ok l, f') -> List.length l = n.
Proof.
  induction n as [|n IH]; intros f l f' H; cbn [repeatM] in H.
  - apply ret_inv_ok in H. destruct H as [<- _]. reflexivity.
  - apply bind_inv_ok in H. destruct H as (x & f1 & _ & H).
    apply bind_inv_ok in H. destruct H as (xs & f2 & Hxs & H).
    apply ret_inv_ok in H. destruct H as [<- _].
    cbn [List.length]. f_equal. eapply IH, Hxs.
Qed.

Lemma comprehension_length {A} (m : M A) (count : Z) f l f' :
  comprehension count m f = (Ok l, f') -> len l = Z.max 0 count.
Proof.
  unfold comprehension. intros H. apply repeatM_length in H.
  unfold len. rewrite H. lia.
Qed.

Ltac bind_inv H x f Hx :=
  apply bind_inv_ok in H; destruct H as (x & f & Hx & H);
  cbv beta zeta in H.

Lemma validate_class_file_magic_inv_ok f u f' :
  validate_class_file_magic f = (Ok u, f') ->
  4 <= len (unread f) /\ tell f' = tell f + 4
  /\ unread f' = skipn 4 (unread f).
Proof.
  unfold validate_class_file_magic. intros H.
  bind_inv H magic f1 Hm. apply U4_inv_ok in Hm.
  destruct (negb (magic =? 3405691582)); [discriminate|].
  apply ret_inv_ok in H. destruct H as [_ <-]. tauto.
Qed.

(** C8: after a successful decode of a class file (whose count field, one
    more than the number of entries, is never 0) the pool is the sequence
    of entries read one after the other right behind the count field at
    offset 8 and has exactly [constant_pool_count - 1] entries, and the
    three other counts are the lengths of their sequences. *)
Theorem decoded_counts (content : list byte) (k : JVMClass)
      (f' : JVMClassFile) :
  JVMClass_init content = (Ok k, f') ->
  constant_pool_count k <> 0 ->
  len (constant_pool k) = constant_pool_count k - 1
  /\ (exists f1,
        comprehension (constant_pool_count k - 1) JVMConstant_init
                      (mkFile 10 (skipn 10 content))
        = (Ok (constant_pool k), f1))
  /\ methods_count k = len (methods k)
  /\ fields_count k = len (class_fields k)
  /\ interfaces_count k = len (interfaces k).
Proof.
  unfold JVMClass_init, JVMClass_body. intros H Hnz.
  bind_inv H u f1 Hmagic. apply validate_class_file_magic_inv_ok in Hmagic.
  destruct Hmagic as (_ & Ht1 & Hu1). cbn [open tell unread] in Ht1, Hu1.
  bind_inv H minor f2 Hminor. apply U2_inv_ok in Hminor.
  destruct Hminor as (_ & _ & Ht2 & Hu2).
  bind_inv H major f3 Hmajor. apply U2_inv_ok in Hmajor.
  destruct Hmajor as (_ & _ & Ht3 & Hu3).
  bind_inv H pool f4 Hpool. unfold read_constant_pool in Hpool.
  bind_inv Hpool count f3' Hcount. apply U2_inv_ok in Hcount.
  destruct Hcount as (Hrange & _ & Ht3' & Hu3').
  bind_inv Hpool entries f4' Hentries.
  apply ret_inv_ok in Hpool. destruct Hpool as [<- <-].
  cbn [fst snd] in H.
  bind_inv H flags f5 Hflags.
  bind_inv H this f6 Hthis.
  bind_inv H super f7 Hsuper.
  bind_inv H icount f8 Hicount. apply U2_inv_ok in Hicount.
  bind_inv H ifaces f9 Hifaces. apply comprehension_length in Hifaces.
  bind_inv H fcount f10 Hfcount. apply U2_inv_ok in Hfcount.
  bind_inv H flds f11 Hflds. apply comprehension_length in Hflds.
  bind_inv H mcount f12 Hmcount. apply U2_inv_ok in Hmcount.
  bind_inv H meths f13 Hmeths. apply comprehension_length in Hmeths.
  bind_inv H acount f14 Hacount.
  bind_inv H attrs f15 Hattrs.
  apply ret_inv_ok in H. destruct H as [<- _].
  cbn [constant_pool constant_pool_count methods methods_count
       class_fields fields_count interfaces interfaces_count] in *.
  assert (Hf3' : f3' = mkFile 10 (skipn 10 content)).
  { destruct f3' as [t3' u3']. cbn [tell unread] in *.
    rewrite Hu3', Hu3, Hu2, Hu1, !skipn_skipn. f_equal. lia. }
  subst f3'.
  repeat split; try lia.
  - apply comprehension_length in Hentries. lia.
  - now exists f4'.
Qed.

Lemma decoded_counts_witness :
  len (constant_pool sample_class_value)
  = constant_pool_count sample_class_value - 1
  /\ (exists f1,
        comprehension (constant_pool_count sample_class_value - 1)
                      JVMConstant_init
                      (mkFile 10 (skipn 10 sample_class))
        = (Ok (constant_pool sample_class_value), f1))
  /\ methods_count sample_class_value = len (methods sample_class_value)
  /\ fields_count sample_class_value = len (class_fields sample_class_value)
  /\ interfaces_count sample_class_value
     = len (interfaces sample_class_value).
Proof.
  apply (decoded_counts sample_class sample_class_value (mkFile 83 [])).
  - vm_compute. reflexivity.
  - vm_compute. discriminate.
Defined.

(** A count field of 0, which the format never writes, is not refused:
    [range] of a negative number is empty, and the pool is left empty. *)
Example zero_pool_count_edge :
  exists k f',
    JVMClass_init class_with_zero_pool_count = (Ok k, f')
    /\ constant_pool_count k = 0
    /\ constant_pool k = [].
Proof.
  eexists. eexists. split; [vm_compute; reflexivity|].
  split; reflexivity.
Qed.

(** The sample class decodes to the end of the file, Code attribute
    included. *)
Example sample_class_decodes :
  exists k,
    JVMClass_init sample_class = (Ok k, mkFile 83 [])
    /\ len (constant_pool k) = 5
    /\ map method_attributes (methods k)
       = [[mkAttribute 1 (mkConstant 1 (Utf8_fields 4 Code)) 13
             (Code_info (mkCodeAttr 0 1 1 [xb1] 0 [] 0 []))]].
Proof.
  eexists. split; [vm_compute; reflexivity|]. split; reflexivity.
Qed.

(** ** Pool lookups *)

(** The lookup [constant_pool[i - 1]] of [JVMAttribute.__init__] for an
    index from 1 to the number of stored entries. *)
Lemma getitem_in_range {A} (l : list A) (i : Z) :
  1 <= i <= len l ->
  exists x, nth_error l (Z.to_nat (i - 1)) = Some x
            /\ getitem l (i - 1) = Ok x.
Proof.
  intros Hi. unfold getitem.
  destruct (i - 1 <? 0) eqn:E; [apply Z.ltb_lt in E; lia|].
  cbv beta zeta iota. rewrite E.
  destruct (len l <=? i - 1) eqn:E'; [apply Z.leb_le in E'; lia|].
  cbn [orb].
  destruct (nth_error l (Z.to_nat (i - 1))) as [x|] eqn:N.
  - now exists x.
  - apply nth_error_None in N. unfold len in Hi. lia.
Qed.

(** An index beyond the stored entries raises [IndexError]. *)
Lemma getitem_beyond {A} (l : list A) (i : Z) :
  len l < i -> getitem l (i - 1) = Raise IndexError.
Proof.
  intros Hi. pose proof (len_nonneg l). unfold getitem.
  destruct (i - 1 <? 0) eqn:E; [apply Z.ltb_lt in E; lia|].
  cbv beta zeta iota. rewrite E.
  destruct (len l <=? i - 1) eqn:E'; [|apply Z.leb_gt in E'; lia].
  reflexivity.
Qed.

(** Index 0 becomes the list index -1, the last stored entry. *)
Lemma getitem_zero {A} (l : list A) (x : A) :
  getitem (l ++ [x]) (0 - 1) = Ok x.
Proof.
  unfold getitem. change (0 - 1 <? 0) with true. cbv beta zeta iota.
  rewrite len_app. change (len [x]) with 1.
  pose proof (len_nonneg l) as Hl.
  replace (0 - 1 + (len l + 1)) with (len l) by lia.
  destruct (len l <? 0) eqn:E; [apply Z.ltb_lt in E; lia|].
  destruct (len l + 1 <=? len l) eqn:E'; [apply Z.leb_le in E'; lia|].
  cbn [orb].
  unfold len. rewrite Nat2Z.id, nth_error_app2, Nat.sub_diag by lia.
  reflexivity.
Qed.

Lemma getitem_zero_empty {A} : getitem (@nil A) (0 - 1) = Raise IndexError.
Proof. reflexivity. Qed.

(** C1 fails on [class_with_long].  The format numbers its four entries
    1, 3, 4 and 5 and so declares a count of 6.  [read_constant_pool]
    reads [6 - 1] entries, taking the first byte of [access_flags] for the
    tag of a fifth; [constant_pool[i - 1]] then gives the Class entry for
    index 3 (the format: Utf8 "A") and the stray entry for index 5 (the
    format: Utf8 "Deprecated"), and the decode ends in [IndexError]. *)
Theorem long_constant_misindexed :
  format_count entries_with_long = 6
  /\ format_resolve entries_with_long 3
     = Some (mkConstant 1 (Utf8_fields 1 (str_of_string "A")))
  /\ format_resolve entries_with_long 5
     = Some (mkConstant 1 (Utf8_fields 10 (str_of_string "Deprecated")))
  /\ (exists f1,
        read_constant_pool (mkFile 8 (skipn 8 class_with_long))
        = (Ok (6, entries_with_long ++ [mkConstant 0 No_fields]), f1))
  /\ getitem (entries_with_long ++ [mkConstant 0 No_fields]) (3 - 1)
     = Ok (mkConstant 7 (Class_fields 3))
  /\ getitem (entries_with_long ++ [mkConstant 0 No_fields]) (5 - 1)
     = Ok (mkConstant 0 No_fields)
  /\ fst (JVMClass_init class_with_long) = Raise IndexError.
Proof.
  repeat split; try reflexivity.
  eexists. vm_compute. reflexivity.
Qed.

(** C3 fails on [class_with_zero_name_index]: the decode succeeds, and the
    attribute with name index 0 carries the last pool entry as its name.
    (An index above the number of stored entries does raise [IndexError]:
    [getitem_beyond].) *)
Theorem zero_name_index_resolves :
  exists k f',
    JVMClass_init class_with_zero_name_index = (Ok k, f')
    /\ attributes k
       = [mkAttribute 0
            (mkConstant 1 (Utf8_fields 10 (str_of_string "Deprecated")))
            0 (Raw_info [])]
    /\ getitem (constant_pool k) (0 - 1)
       = Ok (mkConstant 1 (Utf8_fields 10 (str_of_string "Deprecated"))).
Proof.
  eexists. eexists. split; [vm_compute; reflexivity|].
  split; reflexivity.
Qed.

(** ** The file is read front to back *)

Lemma forward_ret {A} (a : A) : forward (ret a).
Proof. intros f. exists []. cbn. split; [reflexivity|lia]. Qed.

Lemma forward_throw {A} (e : Exn) : forward (@throw A e).
Proof. intros f. exists []. cbn. split; [reflexivity|lia]. Qed.

Lemma forward_lift {A} (o : Outcome A) : forward (lift o).
Proof. intros f. exists []. cbn. split; [reflexivity|lia]. Qed.

Lemma forward_read (n : Z) : forward (read n).
Proof.
  intros f. unfold read. cbn [snd unread tell].
  set (k := if n <? 0 then len (unread f) else Z.min n (len (unread f))).
  exists (firstn (Z.to_nat k) (unread f)). split.
  - symmetry. apply firstn_skipn.
  - f_equal. unfold len. rewrite length_firstn.
    subst k. pose proof (len_nonneg (unread f)). unfold len in *.
    destruct (n <? 0) eqn:E; [|apply Z.ltb_ge in E]; lia.
Qed.

Lemma forward_bind {A B} (m : M A) (k : A -> M B) :
  forward m -> (forall a, forward (k a)) -> forward (bind m k).
Proof.
  intros Hm Hk f. unfold bind.
  destruct (Hm f) as (c1 & Hu1 & Ht1).
  destruct (m f) as [[a|e|] f1]; cbn [snd] in *;
    try (exists c1; now split).
  destruct (Hk a f1) as (c2 & Hu2 & Ht2).
  exists (c1 ++ c2). split.
  - rewrite <- app_assoc. congruence.
  - rewrite len_app. lia.
Qed.

Lemma forward_repeatM {A} (m : M A) (n : nat) : forward m -> forward (repeatM n m).
Proof.
  intros Hm. induction n as [|n IH]; cbn [repeatM].
  - apply forward_ret.
  - apply forward_bind; [assumption|]. intros x.
    apply forward_bind; [assumption|]. intros xs. apply forward_ret.
Qed.

Lemma forward_comprehension {A} (m : M A) (count : Z) :
  forward m -> forward (comprehension count m).
Proof. apply forward_repeatM. Qed.

Ltac forward_steps :=
  repeat first
    [ apply forward_ret | apply forward_throw | apply forward_lift
    | apply forward_read
    | apply forward_comprehension
    | apply forward_bind; [|intro]
    | match goal with
      | |- forward (if ?b then _ else _) => destruct b
      end
    | assumption ].

Lemma forward_U1 : forward U1.
Proof. unfold U1. forward_steps. Qed.

Lemma forward_U2 : forward U2.
Proof. unfold U2. forward_steps. Qed.

Lemma forward_U4 : forward U4.
Proof. unfold U4. forward_steps. Qed.

Lemma forward_U (n : Z) : forward (U n).
Proof. unfold U. forward_steps. Qed.

Lemma forward_JVMConstant_init : forward JVMConstant_init.
Proof.
  unfold JVMConstant_init.
  apply forward_bind; [apply forward_U1|]. intros t.
  repeat match goal with
         | |- forward (if ?b then _ else _) => destruct b
         end;
    repeat first
      [ apply forward_ret | apply forward_lift
      | apply forward_U1 | apply forward_U2 | apply forward_U4
      | apply forward_U
      | apply forward_bind; [|intro] ].
Qed.

Lemma forward_read_exception_entry : forward read_exception_entry.
Proof.
  unfold read_exception_entry.
  repeat first [ apply forward_ret | apply forward_U2
               | apply forward_bind; [|intro] ].
Qed.

Lemma forward_JVMCodeAttr_init (nested : M JVMAttribute) :
  forward nested -> forward (JVMCodeAttr_init nested).
Proof.
  intros Hn. unfold JVMCodeAttr_init.
  repeat first
    [ apply forward_ret | apply forward_U2 | apply forward_U4
    | apply forward_U
    | apply forward_comprehension;
      first [ apply forward_read_exception_entry | assumption ]
    | apply forward_bind; [|intro] ].
Qed.

Lemma forward_JVMAttribute_init (fuel : nat) (pool : list JVMConstant) :
  forward (JVMAttribute_init fuel pool).
Proof.
  induction fuel as [|fuel IH]; cbn [JVMAttribute_init].
  - intros f. exists []. cbn. split; [reflexivity|lia].
  - apply forward_bind; [apply forward_U2|]. intros idx.
    apply forward_bind; [apply forward_lift|]. intros c.
    apply forward_bind; [apply forward_U4|]. intros alen.
    destruct (str_eqb (JVMConstant_str c) Code).
    + apply forward_bind; [now apply forward_JVMCodeAttr_init|].
      intros ca. apply forward_ret.
    + apply forward_bind; [apply forward_U|]. intros p. apply forward_ret.
Qed.

Lemma forward_JVMMethod_init (fuel : nat) (pool : list JVMConstant) :
  forward (JVMMethod_init fuel pool).
Proof.
  unfold JVMMethod_init.
  repeat first
    [ apply forward_ret | apply forward_U2
    | apply forward_comprehension; apply forward_JVMAttribute_init
    | apply forward_bind; [|intro] ].
Qed.

Lemma forward_JVMField_init (fuel : nat) (pool : list JVMConstant) :
  forward (JVMField_init fuel pool).
Proof.
  unfold JVMField_init.
  repeat first
    [ apply forward_ret | apply forward_U2
    | apply forward_comprehension; apply forward_JVMAttribute_init
    | apply forward_bind; [|intro] ].
Qed.

Lemma forward_validate_class_file_magic : forward validate_class_file_magic.
Proof.
  unfold validate_class_file_magic.
  apply forward_bind; [apply forward_U4|]. intros magic.
  destruct (negb (magic =? 3405691582));
    [apply forward_throw | apply forward_ret].
Qed.

Lemma forward_read_constant_pool : forward read_constant_pool.
Proof.
  unfold read_constant_pool.
  apply forward_bind; [apply forward_U2|]. intros count.
  apply forward_bind;
    [apply forward_comprehension, forward_JVMConstant_init|].
  intros entries. apply forward_ret.
Qed.

Lemma forward_JVMClass_body (fuel : nat) : forward (JVMClass_body fuel).
Proof.
  unfold JVMClass_body.
  repeat first
    [ apply forward_ret | apply forward_U2
    | apply forward_validate_class_file_magic
    | apply forward_read_constant_pool
    | apply forward_comprehension;
      first [ apply forward_U2 | apply forward_JVMField_init
            | apply forward_JVMMethod_init
            | apply forward_JVMAttribute_init ]
    | apply forward_bind; [|intro]; cbv zeta ].
Qed.

(** The whole decode is one pass: however it ends, the bytes already read
    and the bytes still unread make up the file, and the position is the
    number of bytes read. *)
Theorem single_pass (content : list byte) :
  exists consumed,
    content = consumed ++ unread (snd (JVMClass_init content))
    /\ tell (snd (JVMClass_init content)) = len consumed.
Proof.
  destruct (forward_JVMClass_body (S (List.length content)) (open content))
    as (c & Hu & Ht).
  exists c. unfold JVMClass_init. split; [exact Hu | now rewrite Ht].
Qed.

(** ** The recursion budget *)

Lemma forward_shrinks {A} (m : M A) (f : JVMClassFile) :
  forward m ->
  (List.length (unread (snd (m f))) <= List.length (unread f))%nat.
Proof.
  intros Hm. destruct (Hm f) as (c & Hu & _).
  apply (f_equal (@List.length byte)) in Hu. rewrite length_app in Hu. lia.
Qed.

Lemma never_starves_ret {A} (n : nat) (a : A) : never_starves n (ret a).
Proof. intros f _. discriminate. Qed.

Lemma never_starves_throw {A} (n : nat) (e : Exn) :
  never_starves n (@throw A e).
Proof. intros f _. discriminate. Qed.

Lemma never_starves_lift {A} (n : nat) (o : Outcome A) :
  o <> NoFuel -> never_starves n (lift o).
Proof. intros Ho f _. exact Ho. Qed.

Lemma never_starves_read (n : nat) (k : Z) : never_starves n (read k).
Proof. intros f _. discriminate. Qed.

Lemma never_starves_bind {A B} (n : nat) (m : M A) (k : A -> M B) :
  forward m -> never_starves n m -> (forall a, never_starves n (k a)) ->
  never_starves n (bind m k).
Proof.
  intros Hf Hm Hk f Hlen. unfold bind.
  pose proof (Hm f Hlen) as Hmf. pose proof (forward_shrinks m f Hf) as Hs.
  destruct (m f) as [[a|e|] f1]; cbn [fst snd] in *;
    [|discriminate|congruence].
  apply Hk. lia.
Qed.

Lemma never_starves_repeatM {A} (n : nat) (m : M A) (count : nat) :
  forward m -> never_starves n m -> never_starves n (repeatM count m).
Proof.
  intros Hf Hm. induction count as [|count IH]; cbn [repeatM].
  - apply never_starves_ret.
  - apply never_starves_bind; [assumption|assumption|]. intros x.
    apply never_starves_bind;
      [now apply forward_repeatM|assumption|].
    intros xs. apply never_starves_ret.
Qed.

Lemma unpack_B_fueled buf : unpack_B buf <> NoFuel.
Proof. destruct buf; discriminate. Qed.

Lemma unpack_H_fueled buf : unpack_H buf <> NoFuel.
Proof. destruct buf as [|? [|? ?]]; discriminate. Qed.

Lemma unpack_I_fueled buf : unpack_I buf <> NoFuel.
Proof. destruct buf as [|? [|? [|? [|? ?]]]]; discriminate. Qed.

Lemma unpack_s_fueled n buf : unpack_s n buf <> NoFuel.
Proof. unfold unpack_s. destruct (len buf <? n); discriminate. Qed.

Lemma decode_utf8_fueled bs : decode_utf8 bs <> NoFuel.
Proof. unfold decode_utf8. destruct (utf8_decode bs); discriminate. Qed.

Lemma getitem_fueled {A} (l : list A) i : getitem l i <> NoFuel.
Proof.
  unfold getitem.
  destruct ((_ <? 0) || (len l <=? _)); [discriminate|].
  destruct (nth_error l _); discriminate.
Qed.

Lemma never_starves_U1 n : never_starves n U1.
Proof.
  unfold U1. apply never_starves_bind;
    [apply forward_read | apply never_starves_read |].
  intros buf. apply never_starves_lift, unpack_B_fueled.
Qed.

Lemma never_starves_U2 n : never_starves n U2.
Proof.
  unfold U2. apply never_starves_bind;
    [apply forward_read | apply never_starves_read |].
  intros buf. apply never_starves_lift, unpack_H_fueled.
Qed.

Lemma never_starves_U4 n : never_starves n U4.
Proof.
  unfold U4. apply never_starves_bind;
    [apply forward_read | apply never_starves_read |].
  intros buf. apply never_starves_lift, unpack_I_fueled.
Qed.

Lemma never_starves_U n k : never_starves n (U k).
Proof.
  unfold U. apply never_starves_bind;
    [apply forward_read | apply never_starves_read |].
  intros buf. apply never_starves_lift, unpack_s_fueled.
Qed.

Ltac starve_steps :=
  repeat first
    [ apply never_starves_ret | apply never_starves_throw
    | apply never_starves_U1 | apply never_starves_U2
    | apply never_starves_U4 | apply never_starves_U
    | apply never_starves_lift;
      first [ apply decode_utf8_fueled | apply getitem_fueled ]
    | apply forward_U1 | apply forward_U2 | apply forward_U4
    | apply forward_U | apply forward_lift
    | apply never_starves_bind; [| |intro] ].

Lemma never_starves_JVMConstant_init n : never_starves n JVMConstant_init.
Proof.
  unfold JVMConstant_init.
  apply never_starves_bind;
    [apply forward_U1 | apply never_starves_U1 |]. intros t.
  repeat match goal with
         | |- never_starves _ (if ?b then _ else _) => destruct b
         end; starve_steps.
Qed.

Lemma never_starves_read_exception_entry n :
  never_starves n read_exception_entry.
Proof. unfold read_exception_entry. starve_steps. Qed.

Lemma never_starves_JVMCodeAttr_init n (nested : M JVMAttribute) :
  forward nested -> never_starves n nested ->
  never_starves n (JVMCodeAttr_init nested).
Proof.
  intros Hf Hn. unfold JVMCodeAttr_init, comprehension.
  repeat first
    [ apply never_starves_ret
    | apply never_starves_U2 | apply never_starves_U4
    | apply never_starves_U
    | apply forward_U2 | apply forward_U4 | apply forward_U
    | apply forward_repeatM;
      first [ apply forward_read_exception_entry | assumption ]
    | apply never_starves_repeatM;
      first [ apply forward_read_exception_entry
            | apply never_starves_read_exception_entry | assumption ]
    | apply never_starves_bind; [| |intro] ].
Qed.

(** A budget above the number of unread bytes is never used up: every
    nested attribute starts with six bytes of header. *)
Lemma never_starves_JVMAttribute_init (fuel : nat)
      (pool : list JVMConstant) :
  never_starves fuel (JVMAttribute_init fuel pool).
Proof.
  induction fuel as [|fuel IH]; intros f Hlen; [lia|].
  cbn [JVMAttribute_init]. unfold bind at 1.
  destruct (U2_reads f) as [[H2 E2]|[_ [E2 _]]]; rewrite ?E2;
    [|destruct (U2 f) as [o f1]; cbn [fst] in E2; subst o; discriminate].
  unfold bind at 1. unfold lift at 1.
  pose proof (getitem_fueled pool
    (be_value (firstn (Z.to_nat 2) (unread f)) - 1)) as Hg.
  destruct (getitem pool _) as [c|e|]; [|discriminate|congruence].
  unfold bind at 1.
  set (f1 := {| tell := tell f + 2;
                unread := skipn (Z.to_nat 2) (unread f) |}).
  assert (Hf1 : (List.length (unread f1) < fuel)%nat).
  { subst f1. cbn [unread]. rewrite length_skipn. unfold len in H2. lia. }
  pose proof (never_starves_U4 fuel f1 Hf1) as H4.
  pose proof (forward_shrinks U4 f1 forward_U4) as Hs.
  destruct (U4 f1) as [[alen|e|] f2]; cbn [fst snd] in *;
    [|discriminate|congruence].
  assert (Hf2 : (List.length (unread f2) < fuel)%nat) by lia.
  destruct (str_eqb (JVMConstant_str c) Code).
  - refine (never_starves_bind fuel _ _ _ _ _ f2 Hf2).
    + apply forward_JVMCodeAttr_init, forward_JVMAttribute_init.
    + apply never_starves_JVMCodeAttr_init;
        [apply forward_JVMAttribute_init | exact IH].
    + intros ca. apply never_starves_ret.
  - refine (never_starves_bind fuel _ _ _ _ _ f2 Hf2).
    + apply forward_U.
    + apply never_starves_U.
    + intros p. apply never_starves_ret.
Qed.

Lemma never_starves_JVMMethod_init fuel pool :
  never_starves fuel (JVMMethod_init fuel pool).
Proof.
  unfold JVMMethod_init, comprehension.
  repeat first
    [ apply never_starves_ret | apply never_starves_U2 | apply forward_U2
    | apply forward_repeatM, forward_JVMAttribute_init
    | apply never_starves_repeatM;
      [apply forward_JVMAttribute_init
      |apply never_starves_JVMAttribute_init]
    | apply never_starves_bind; [| |intro] ].
Qed.

Lemma never_starves_JVMField_init fuel pool :
  never_starves fuel (JVMField_init fuel pool).
Proof.
  unfold JVMField_init, comprehension.
  repeat first
    [ apply never_starves_ret | apply never_starves_U2 | apply forward_U2
    | apply forward_repeatM, forward_JVMAttribute_init
    | apply never_starves_repeatM;
      [apply forward_JVMAttribute_init
      |apply never_starves_JVMAttribute_init]
    | apply never_starves_bind; [| |intro] ].
Qed.

Lemma never_starves_JVMClass_body fuel :
  never_starves fuel (JVMClass_body fuel).
Proof.
  unfold JVMClass_body.
  apply never_starves_bind; [apply forward_validate_class_file_magic| |].
  { unfold validate_class_file_magic.
    apply never_starves_bind;
      [apply forward_U4 | apply never_starves_U4 |].
    intros magic. destruct (negb (magic =? 3405691582));
      [apply never_starves_throw | apply never_starves_ret]. }
  intros _.
  apply never_starves_bind; [apply forward_U2|apply never_starves_U2|].
  intros minor.
  apply never_starves_bind; [apply forward_U2|apply never_starves_U2|].
  intros major.
  apply never_starves_bind; [apply forward_read_constant_pool| |].
  { unfold read_constant_pool, comprehension.
    apply never_starves_bind; [apply forward_U2|apply never_starves_U2|].
    intros count.
    apply never_starves_bind;
      [apply forward_repeatM, forward_JVMConstant_init
      |apply never_starves_repeatM;
       [apply forward_JVMConstant_init|apply never_starves_JVMConstant_init]
      |].
    intros entries. apply never_starves_ret. }
  intros pool. cbv zeta. unfold comprehension.
  repeat first
    [ apply never_starves_ret | apply never_starves_U2 | apply forward_U2
    | apply forward_repeatM;
      first [ apply forward_U2 | apply forward_JVMField_init
            | apply forward_JVMMethod_init
            | apply forward_JVMAttribute_init ]
    | apply never_starves_repeatM;
      first [ apply forward_U2 | apply forward_JVMField_init
            | apply forward_JVMMethod_init
            | apply forward_JVMAttribute_init
            | apply never_starves_U2
            | apply never_starves_JVMField_init
            | apply never_starves_JVMMethod_init
            | apply never_starves_JVMAttribute_init ]
    | apply never_starves_bind; [| |intro] ].
Qed.

(** The constructor always ends the way the source can end: with a
    [JVMClass] or with an exception. *)
Theorem fuel_adequate (content : list byte) :
  fst (JVMClass_init content) <> NoFuel.
Proof.
  unfold JVMClass_init. apply never_starves_JVMClass_body.
  cbn [open unread]. lia.
Qed.

Lemma agrees_refl {A} (m : M A) : agrees m m.
Proof. intros f _. reflexivity. Qed.

Lemma agrees_bind {A B} (m1 m2 : M A) (k1 k2 : A -> M B) :
  agrees m1 m2 -> (forall a, agrees (k1 a) (k2 a)) ->
  agrees (bind m1 k1) (bind m2 k2).
Proof.
  intros Hm Hk f. unfold bind. intros H.
  rewrite (Hm f).
  - destruct (m2 f) as [[a|e|] f1]; try reflexivity. now apply Hk.
  - destruct (m2 f) as [[a|e|] f1]; cbn [fst] in *; congruence.
Qed.

Lemma agrees_repeatM {A} (m1 m2 : M A) (n : nat) :
  agrees m1 m2 -> agrees (repeatM n m1) (repeatM n m2).
Proof.
  intros Hm. induction n as [|n IH]; cbn [repeatM].
  - apply agrees_refl.
  - apply agrees_bind; [assumption|]. intros x.
    apply agrees_bind; [assumption|]. intros xs. apply agrees_refl.
Qed.

Ltac agree_steps :=
  repeat first
    [ apply agrees_refl
    | apply agrees_repeatM; assumption
    | apply agrees_bind; [|intro] ].

Lemma agrees_JVMCodeAttr_init (n1 n2 : M JVMAttribute) :
  agrees n1 n2 -> agrees (JVMCodeAttr_init n1) (JVMCodeAttr_init n2).
Proof.
  intros Hn. unfold JVMCodeAttr_init, comprehension. agree_steps.
Qed.

Lemma agrees_JVMAttribute_step (n1 n2 : nat) (pool : list JVMConstant) :
  agrees (JVMAttribute_init n1 pool) (JVMAttribute_init n2 pool) ->
  agrees (JVMAttribute_init (S n1) pool) (JVMAttribute_init (S n2) pool).
Proof.
  intros Hn. cbn [JVMAttribute_init].
  apply agrees_bind; [apply agrees_refl|]. intros idx.
  apply agrees_bind; [apply agrees_refl|]. intros c.
  apply agrees_bind; [apply agrees_refl|]. intros alen.
  destruct (str_eqb (JVMConstant_str c) Code); [|apply agrees_refl].
  apply agrees_bind; [|intros ca; apply agrees_refl].
  now apply agrees_JVMCodeAttr_init.
Qed.

Lemma agrees_JVMAttribute_init (fuel : nat) (pool : list JVMConstant) :
  agrees (JVMAttribute_init (S fuel) pool) (JVMAttribute_init fuel pool).
Proof.
  induction fuel as [|fuel IH].
  - intros f H. now contradiction H.
  - now apply agrees_JVMAttribute_step.
Qed.

Lemma agrees_JVMClass_body (fuel : nat) :
  agrees (JVMClass_body (S fuel)) (JVMClass_body fuel).
Proof.
  pose proof (agrees_JVMAttribute_init fuel) as Ha.
  unfold JVMClass_body, JVMField_init, JVMMethod_init, comprehension.
  repeat first
    [ apply agrees_refl
    | apply agrees_repeatM;
      first [ apply Ha
            | repeat first [ apply agrees_refl
                           | apply agrees_repeatM; apply Ha
                           | apply agrees_bind; [|intro] ] ]
    | apply agrees_bind; [|intro]; cbv zeta ].
Qed.

(** The budget [JVMClass_init] picks is not a choice that matters: every
    larger one gives the same outcome and the same file. *)
Theorem fuel_irrelevant (content : list byte) (extra : nat) :
  JVMClass_body (S (List.length content) + extra) (open content)
  = JVMClass_init content.
Proof.
  induction extra as [|extra IH].
  - rewrite Nat.add_0_r. reflexivity.
  - rewrite Nat.add_succ_r.
    rewrite agrees_JVMClass_body; [exact IH|].
    rewrite IH. apply fuel_adequate.
Qed.


(** ** Reads are local *)

Lemma fixed_width_U1 : fixed_width U1 1 be_value.
Proof.
  intros pos bs. destruct bs as [|b0 r]; [reflexivity|].
  cbn [List.length Nat.leb]. rewrite U1_cons. reflexivity.
Qed.

Lemma fixed_width_U2 : fixed_width U2 2 be_value.
Proof.
  intros pos bs. destruct bs as [|b0 [|b1 r]]; try reflexivity.
  destruct (U2_reads (mkFile pos (b0 :: b1 :: r))) as [[_ E]|[E _]];
    cbn [unread tell] in E.
  - rewrite E. reflexivity.
  - rewrite !len_cons in E. pose proof (len_nonneg r). lia.
Qed.

Lemma fixed_width_U4 : fixed_width U4 4 be_value.
Proof.
  intros pos bs. destruct bs as [|b0 [|b1 [|b2 [|b3 r]]]]; try reflexivity.
  destruct (U4_reads (mkFile pos (b0 :: b1 :: b2 :: b3 :: r)))
    as [[_ E]|[E _]]; cbn [unread tell] in E.
  - rewrite E. reflexivity.
  - rewrite !len_cons in E. pose proof (len_nonneg r). lia.
Qed.

Lemma fixed_width_U (n : nat) :
  fixed_width (U (Z.of_nat n)) n (fun bs => bs).
Proof.
  intros pos bs. destruct (n <=? List.length bs)%nat eqn:E.
  - apply Nat.leb_le in E.
    destruct (U_reads (Z.of_nat n) (mkFile pos bs) (Nat2Z.is_nonneg n))
      as [[_ H]|[H _]]; cbn [unread tell] in H.
    + rewrite H, Nat2Z.id. reflexivity.
    + unfold len in H. lia.
  - apply Nat.leb_gt in E. apply U_short. unfold len. lia.
Qed.

Lemma fixed_width_local {A} (m : M A) (w : nat) (value : list byte -> A) :
  fixed_width m w value -> local m.
Proof.
  intros H pos bs. destruct (w <=? List.length bs)%nat eqn:E.
  - apply Nat.leb_le in E.
    exists w, (Ok (value (firstn w bs))). split; [assumption|].
    split.
    + rewrite H. apply Nat.leb_le in E. now rewrite E.
    + intros n Hn. rewrite H, length_firstn, Nat.min_l by assumption.
      destruct (w <=? n)%nat eqn:E'.
      * apply Nat.leb_le in E'.
        now rewrite firstn_firstn, Nat.min_l by assumption.
      * unfold len. now rewrite length_firstn, Nat.min_l by assumption.
  - apply Nat.leb_gt in E.
    exists (List.length bs), (Raise struct_error). split; [lia|].
    assert (Hfull : m (mkFile pos bs)
                    = (Raise struct_error,
                       mkFile (pos + Z.of_nat (List.length bs))
                              (skipn (List.length bs) bs))).
    { rewrite H. apply Nat.leb_gt in E. rewrite E.
      now rewrite skipn_all. }
    split; [exact Hfull|].
    intros n Hn. destruct (List.length bs <=? n)%nat eqn:E'.
    + apply Nat.leb_le in E'.
      assert (n = List.length bs) by lia. subst n.
      rewrite firstn_all. exact Hfull.
    + apply Nat.leb_gt in E'.
      rewrite H, length_firstn, Nat.min_l by assumption.
      assert (Hw : (w <=? n)%nat = false) by (apply Nat.leb_gt; lia).
      rewrite Hw. unfold len.
      now rewrite length_firstn, Nat.min_l by assumption.
Qed.

Lemma local_U1 : local U1.
Proof. exact (fixed_width_local _ _ _ fixed_width_U1). Qed.

Lemma local_U2 : local U2.
Proof. exact (fixed_width_local _ _ _ fixed_width_U2). Qed.

Lemma local_U4 : local U4.
Proof. exact (fixed_width_local _ _ _ fixed_width_U4). Qed.

Lemma local_U (n : Z) : 0 <= n -> local (U n).
Proof.
  intros Hn. rewrite <- (Z2Nat.id n Hn).
  exact (fixed_width_local _ _ _ (fixed_width_U (Z.to_nat n))).
Qed.

(** Computations that read nothing. *)
Lemma local_pure {A} (m : M A) (o : Outcome A) :
  (forall f, m f = (o, f)) -> local m.
Proof.
  intros H pos bs. exists 0%nat, o. split; [lia|].
  assert (E : forall l, m (mkFile pos l)
                        = (o, mkFile (pos + Z.of_nat 0) (skipn 0 l))).
  { intros l. rewrite H. cbn [skipn Z.of_nat]. now rewrite Z.add_0_r. }
  split; [apply E|]. intros n _. cbn [Nat.leb]. apply E.
Qed.

Lemma local_ret {A} (a : A) : local (ret a).
Proof. now apply (local_pure _ (Ok a)). Qed.

Lemma local_throw {A} (e : Exn) : local (@throw A e).
Proof. now apply (local_pure _ (Raise e)). Qed.

Lemma local_lift {A} (o : Outcome A) : local (lift o).
Proof. now apply (local_pure _ o). Qed.

Lemma local_bind {A B} (m : M A) (k : A -> M B) :
  local m ->
  (forall a f f', m f = (Ok a, f') -> local (k a)) ->
  local (bind m k).
Proof.
  intros Hm Hk pos bs.
  destruct (Hm pos bs) as (k1 & o1 & Hk1 & E1 & P1).
  destruct o1 as [a|e|].
  - destruct (Hk a _ _ E1 (pos + Z.of_nat k1) (skipn k1 bs))
      as (k2 & o2 & Hk2 & E2 & P2).
    rewrite length_skipn in Hk2.
    exists (k1 + k2)%nat, o2. split; [lia|].
    split.
    + rewrite (bind_ok _ E1), E2, skipn_skipn.
      do 2 f_equal; [lia | f_equal; lia].
    + intros n Hn. destruct (k1 <=? n)%nat eqn:L1.
      * apply Nat.leb_le in L1.
        pose proof (P1 n Hn) as Q1. apply Nat.leb_le in L1.
        rewrite L1 in Q1. apply Nat.leb_le in L1.
        rewrite (bind_ok _ Q1), skipn_firstn_comm.
        rewrite P2 by (rewrite length_skipn; lia).
        destruct (k2 <=? n - k1)%nat eqn:L2.
        -- apply Nat.leb_le in L2.
           assert (L : (k1 + k2 <=? n)%nat = true) by (apply Nat.leb_le; lia).
           rewrite L, <- skipn_firstn_comm, skipn_skipn.
           do 2 f_equal; [lia | f_equal; lia].
        -- apply Nat.leb_gt in L2.
           assert (L : (k1 + k2 <=? n)%nat = false)
             by (apply Nat.leb_gt; lia).
           rewrite L. do 2 f_equal. lia.
      * pose proof (P1 n Hn) as Q1. rewrite L1 in Q1.
        apply Nat.leb_gt in L1.
        assert (L : (k1 + k2 <=? n)%nat = false) by (apply Nat.leb_gt; lia).
        rewrite L. apply (bind_raise _ Q1).
  - exists k1, (Raise e). split; [assumption|].
    split; [apply (bind_raise _ E1)|].
    intros n Hn. pose proof (P1 n Hn) as Q1.
    destruct (k1 <=? n)%nat; apply (bind_raise _ Q1).
  - exists k1, NoFuel. split; [assumption|].
    assert (Hno : forall f f1, m f = (NoFuel, f1) -> bind m k f = (NoFuel, f1)).
    { intros f f1 E. unfold bind. now rewrite E. }
    split; [apply (Hno _ _ E1)|].
    intros n Hn. pose proof (P1 n Hn) as Q1.
    destruct (k1 <=? n)%nat; [apply (Hno _ _ Q1) | apply (bind_raise _ Q1)].
Qed.

Lemma local_repeatM {A} (m : M A) (n : nat) : local m -> local (repeatM n m).
Proof.
  intros Hm. induction n as [|n IH]; cbn [repeatM].
  - apply local_ret.
  - apply local_bind; [assumption|]. intros x _ _ _.
    apply local_bind; [assumption|]. intros xs _ _ _. apply local_ret.
Qed.

Lemma local_comprehension {A} (m : M A) (count : Z) :
  local m -> local (comprehension count m).
Proof. apply local_repeatM. Qed.

Ltac u_nonneg :=
  match goal with
  | H : U2 _ = (Ok ?n, _) |- 0 <= ?n => apply U2_inv_ok in H; lia
  | H : U4 _ = (Ok ?n, _) |- 0 <= ?n => apply U4_inv_ok in H; lia
  end.

Ltac local_steps :=
  repeat first
    [ apply local_ret | apply local_throw | apply local_lift
    | apply local_U1 | apply local_U2 | apply local_U4
    | apply local_U; u_nonneg
    | assumption
    | apply local_comprehension
    | apply local_bind; [|intros ? ? ? ?]
    | match goal with
      | |- local (if ?b then _ else _) => destruct b
      end ].

Lemma local_JVMConstant_init : local JVMConstant_init.
Proof. unfold JVMConstant_init. local_steps. Qed.

Lemma local_read_exception_entry : local read_exception_entry.
Proof. unfold read_exception_entry. local_steps. Qed.

Lemma local_JVMCodeAttr_init (nested : M JVMAttribute) :
  local nested -> local (JVMCodeAttr_init nested).
Proof.
  intros Hn. pose proof local_read_exception_entry.
  unfold JVMCodeAttr_init. local_steps.
Qed.

Lemma local_JVMAttribute_init (fuel : nat) (pool : list JVMConstant) :
  local (JVMAttribute_init fuel pool).
Proof.
  induction fuel as [|fuel IH]; cbn [JVMAttribute_init].
  - now apply (local_pure _ NoFuel).
  - pose proof (local_JVMCodeAttr_init _ IH). local_steps.
Qed.

Lemma local_JVMMethod_init (fuel : nat) (pool : list JVMConstant) :
  local (JVMMethod_init fuel pool).
Proof.
  pose proof (local_JVMAttribute_init fuel pool).
  unfold JVMMethod_init. local_steps.
Qed.

Lemma local_JVMField_init (fuel : nat) (pool : list JVMConstant) :
  local (JVMField_init fuel pool).
Proof.
  pose proof (local_JVMAttribute_init fuel pool).
  unfold JVMField_init. local_steps.
Qed.

Lemma local_validate_class_file_magic : local validate_class_file_magic.
Proof. unfold validate_class_file_magic. local_steps. Qed.

Lemma local_read_constant_pool : local read_constant_pool.
Proof.
  pose proof local_JVMConstant_init.
  unfold read_constant_pool. local_steps.
Qed.

Lemma local_JVMClass_body (fuel : nat) : local (JVMClass_body fuel).
Proof.
  unfold JVMClass_body.
  apply local_bind; [apply local_validate_class_file_magic|].
  intros _ _ _ _.
  apply local_bind; [apply local_U2|]. intros minor _ _ _.
  apply local_bind; [apply local_U2|]. intros major _ _ _.
  apply local_bind; [apply local_read_constant_pool|]. intros pool _ _ _.
  cbv zeta.
  pose proof (local_JVMField_init fuel (snd pool)).
  pose proof (local_JVMMethod_init fuel (snd pool)).
  pose proof (local_JVMAttribute_init fuel (snd pool)).
  local_steps.
Qed.

Lemma body_enough_fuel (content : list byte) (fuel : nat) :
  (List.length content < fuel)%nat ->
  JVMClass_body fuel (open content) = JVMClass_init content.
Proof.
  intros H.
  replace fuel with (S (List.length content)
                     + (fuel - S (List.length content)))%nat by lia.
  apply fuel_irrelevant.
Qed.

(** Cutting a file short of the position its decode ends at makes the
    constructor raise [struct.error], with the shortened file read to its
    end: a truncated class file is never decoded to something else. *)
Theorem truncated_file_rejected (content : list byte) (n : nat) :
  Z.of_nat n < tell (snd (JVMClass_init content)) ->
  JVMClass_init (firstn n content)
  = (Raise struct_error, mkFile (Z.of_nat n) []).
Proof.
  intros Hn.
  destruct (local_JVMClass_body (S (List.length content)) 0 content)
    as (k & o & Hk & E & P).
  change (mkFile 0 content) with (open content) in E.
  fold (JVMClass_init content) in E. rewrite E in Hn. cbn [snd tell] in Hn.
  assert (Hlen : (n <= List.length content)%nat) by lia.
  specialize (P n Hlen).
  change (mkFile 0 (firstn n content)) with (open (firstn n content)) in P.
  rewrite body_enough_fuel in P
    by (rewrite length_firstn; lia).
  rewrite P.
  assert (L : (k <=? n)%nat = false) by (apply Nat.leb_gt; lia).
  now rewrite L.
Qed.

Lemma truncated_file_rejected_witness :
  JVMClass_init (firstn 40 sample_class)
  = (Raise struct_error, mkFile (Z.of_nat 40) []).
Proof.
  apply (truncated_file_rejected sample_class 40).
  vm_compute. reflexivity.
Defined.

(** The constructor never looks past the byte it stops at.  Unless the
    decode ran into the end of the file ([struct.error]), bytes appended to
    the file change neither the outcome nor the position: they are left
    unread, and nothing checks that the file ends where the class does. *)
Theorem trailing_bytes_ignored (content extra : list byte)
      (o : Outcome JVMClass) (pos : Z) (rest : list byte) :
  JVMClass_init content = (o, mkFile pos rest) ->
  o <> Raise struct_error ->
  JVMClass_init (content ++ extra) = (o, mkFile pos (rest ++ extra)).
Proof.
  intros Hrun Ho.
  destruct (local_JVMClass_body (S (List.length (content ++ extra))) 0
                                (content ++ extra))
    as (k & o' & Hk & E & P).
  assert (Hlen : (List.length content <= List.length (content ++ extra))%nat)
    by (rewrite length_app; lia).
  specialize (P (List.length content) Hlen).
  rewrite firstn_app, firstn_all, Nat.sub_diag, firstn_O, app_nil_r in P.
  change (mkFile 0 content) with (open content) in P.
  rewrite body_enough_fuel in P by lia.
  rewrite Hrun in P.
  destruct (k <=? List.length content)%nat eqn:L.
  - apply Nat.leb_le in L. inversion P; subst.
    unfold JVMClass_init at 1.
    change (open (content ++ extra)) with (mkFile 0 (content ++ extra)).
    rewrite E. do 2 f_equal.
    rewrite skipn_app.
    replace (k - List.length content)%nat with 0%nat by lia.
    reflexivity.
  - inversion P; subst. now contradiction Ho.
Qed.

Lemma trailing_bytes_ignored_witness :
  exists k,
    JVMClass_init (sample_class ++ [xff; x00])
    = (Ok k, mkFile 83 ([] ++ [xff; x00])).
Proof.
  eexists.
  apply (trailing_bytes_ignored sample_class [xff; x00] (Ok _) 83 []).
  - vm_compute. reflexivity.
  - discriminate.
Defined.

(** ** UTF-8 text *)

Ltac ltb_cases :=
  repeat match goal with
         | |- context [?a <? ?b] =>
             destruct (Z.ltb_spec a b); try lia
         | |- context [?a <=? ?b] =>
             destruct (Z.leb_spec a b); try lia
         | |- context [?a =? ?b] =>
             destruct (Z.eqb_spec a b); try lia
         end.

Lemma bval_byte_of_Z_small (z : Z) :
  0 <= z < 256 -> bval (byte_of_Z z) = z.
Proof. intros H. rewrite bval_byte_of_Z. now apply Z.mod_small. Qed.

Lemma utf8_decode_point (c : Z) (bs : list byte) :
  scalar c ->
  utf8_decode (utf8_encode_point c ++ bs)
  = option_map (cons c) (utf8_decode bs).
Proof.
  intros [Hr Hs]. unfold utf8_encode_point.
  destruct (Z.ltb_spec c 0x80); [|destruct (Z.ltb_spec c 0x800);
    [|destruct (Z.ltb_spec c 0x10000)]];
    cbn [app utf8_decode]; unfold is_cont.
  - rewrite bval_byte_of_Z_small by lia. ltb_cases. reflexivity.
  - pose proof (Z.div_mod c 64 ltac:(lia)) as D.
    pose proof (Z.mod_pos_bound c 64 ltac:(lia)) as R.
    set (q := c / 64) in *. set (r := c mod 64) in *.
    rewrite !bval_byte_of_Z_small by lia.
    ltb_cases. cbn [andb]. do 2 f_equal. lia.
  - pose proof (Z.div_mod c 64 ltac:(lia)) as D.
    pose proof (Z.mod_pos_bound c 64 ltac:(lia)) as R.
    pose proof (Z.div_mod (c / 64) 64 ltac:(lia)) as D'.
    pose proof (Z.mod_pos_bound (c / 64) 64 ltac:(lia)) as R'.
    replace (c / 4096) with (c / 64 / 64) in *
      by (rewrite Z.div_div by lia; reflexivity).
    set (q := c / 64) in *. set (r := c mod 64) in *.
    set (q' := q / 64) in *. set (r' := q mod 64) in *.
    rewrite !bval_byte_of_Z_small by lia.
    ltb_cases; cbn [andb negb]; try (do 2 f_equal; lia).
  - pose proof (Z.div_mod c 64 ltac:(lia)) as D.
    pose proof (Z.mod_pos_bound c 64 ltac:(lia)) as R.
    pose proof (Z.div_mod (c / 64) 64 ltac:(lia)) as D'.
    pose proof (Z.mod_pos_bound (c / 64) 64 ltac:(lia)) as R'.
    pose proof (Z.div_mod (c / 64 / 64) 64 ltac:(lia)) as D''.
    pose proof (Z.mod_pos_bound (c / 64 / 64) 64 ltac:(lia)) as R''.
    replace (c / 262144) with (c / 64 / 64 / 64) in *
      by (rewrite !Z.div_div by lia; reflexivity).
    replace (c / 4096) with (c / 64 / 64) in *
      by (rewrite Z.div_div by lia; reflexivity).
    set (q := c / 64) in *. set (r := c mod 64) in *.
    set (q' := q / 64) in *. set (r' := q mod 64) in *.
    set (q'' := q' / 64) in *. set (r'' := q' mod 64) in *.
    rewrite !bval_byte_of_Z_small by lia.
    ltb_cases; cbn [andb negb]; try (do 2 f_equal; lia).
Qed.

(** Python's [decode('utf-8')] reads back every text from its UTF-8
    bytes. *)
Lemma utf8_decode_encode (s : str) :
  Forall scalar s -> utf8_decode (utf8_encode s) = Some s.
Proof.
  induction 1 as [|c s Hc Hs IH]; [reflexivity|].
  unfold utf8_encode in *. cbn [flat_map].
  now rewrite utf8_decode_point, IH.
Qed.

Lemma is_cont_in_utf8 (b : byte) : is_cont b = true -> ~ never_in_utf8 b.
Proof.
  unfold is_cont, never_in_utf8. intros H.
  apply andb_true_iff in H. destruct H as [H1 H2].
  apply Z.leb_le in H1. apply Z.ltb_lt in H2. lia.
Qed.

Lemma utf8_decode_rejects_bounded (n : nat) :
  forall (bs : list byte) (b : byte),
    (List.length bs <= n)%nat -> In b bs -> never_in_utf8 b ->
    utf8_decode bs = None.
Proof.
  induction n as [|n IH]; intros bs b Hlen Hin Hb.
  - destruct bs; [contradiction | cbn in Hlen; lia].
  - destruct bs as [|b0 r0]; [contradiction|].
    cbn [List.length] in Hlen. cbn [utf8_decode].
    destruct (Z.ltb_spec (bval b0) 0x80) as [L1|L1].
    { rewrite (IH r0 b); [reflexivity | lia | | assumption].
      destruct Hin as [<-|Hin]; [unfold never_in_utf8 in Hb; lia|assumption]. }
    destruct (Z.ltb_spec (bval b0) 0xC2) as [L2|L2]; [reflexivity|].
    destruct (Z.ltb_spec (bval b0) 0xE0) as [L3|L3].
    { destruct r0 as [|b1 r1]; [reflexivity|].
      destruct (is_cont b1) eqn:C1; [|reflexivity].
      cbn [List.length] in Hlen.
      rewrite (IH r1 b); [reflexivity | lia | | assumption].
      destruct Hin as [<-|[<-|Hin]]; [unfold never_in_utf8 in Hb; lia | |
                                     assumption].
      now apply is_cont_in_utf8 in C1. }
    destruct (Z.ltb_spec (bval b0) 0xF0) as [L4|L4].
    { destruct r0 as [|b1 [|b2 r2]]; try reflexivity.
      match goal with
      | |- (if ?c then _ else _) = _ => destruct c eqn:C; [|reflexivity]
      end.
      apply andb_true_iff in C; destruct C as [C _].
      apply andb_true_iff in C; destruct C as [C _].
      apply andb_true_iff in C; destruct C as [C1 C2].
      cbn [List.length] in Hlen.
      rewrite (IH r2 b); [reflexivity | lia | | assumption].
      destruct Hin as [<-|[<-|[<-|Hin]]];
        [unfold never_in_utf8 in Hb; lia | | | assumption];
        exfalso;
        match goal with
        | H : is_cont ?x = true, N : never_in_utf8 ?x |- _ =>
            exact (is_cont_in_utf8 _ H N)
        end. }
    destruct (Z.ltb_spec (bval b0) 0xF5) as [L5|L5]; [|reflexivity].
    destruct r0 as [|b1 [|b2 [|b3 r3]]]; try reflexivity.
    match goal with
    | |- (if ?c then _ else _) = _ => destruct c eqn:C; [|reflexivity]
    end.
    apply andb_true_iff in C; destruct C as [C _].
    apply andb_true_iff in C; destruct C as [C _].
    apply andb_true_iff in C; destruct C as [C C3].
    apply andb_true_iff in C; destruct C as [C1 C2].
    cbn [List.length] in Hlen.
    rewrite (IH r3 b); [reflexivity | lia | | assumption].
    destruct Hin as [<-|[<-|[<-|[<-|Hin]]]];
      [unfold never_in_utf8 in Hb; lia | | | | assumption];
      exfalso;
      match goal with
      | H : is_cont ?x = true, N : never_in_utf8 ?x |- _ =>
          exact (is_cont_in_utf8 _ H N)
      end.
Qed.

Lemma utf8_decode_rejects (bs : list byte) (b : byte) :
  In b bs -> never_in_utf8 b -> utf8_decode bs = None.
Proof. now apply (utf8_decode_rejects_bounded (List.length bs)). Qed.

(** ** Constant-pool entries, encoded and read back *)

Lemma len_be16 (v : Z) : len (be16 v) = 2.
Proof. reflexivity. Qed.

Lemma len_be32 (v : Z) : len (be32 v) = 4.
Proof. reflexivity. Qed.

Lemma len_nil {A} : len (@nil A) = 0.
Proof. reflexivity. Qed.

Ltac len_norm :=
  repeat first [ rewrite len_app | rewrite len_cons | rewrite len_be16
               | rewrite len_be32 | rewrite len_nil ].

(** What [JVMConstant.__init__] does after the tag byte. *)
Lemma constant_after_tag (pos : Z) (t : Z) (bs : list byte) :
  u8 t ->
  JVMConstant_init (mkFile pos (byte_of_Z t :: bs))
  = (fun tag : Z =>
       if tag =? CONSTANT_Class then
         name_index <- U2 ;;
         ret (mkConstant tag (Class_fields name_index))
       else if (tag =? CONSTANT_Fieldref) || (tag =? CONSTANT_Methodref)
               || (tag =? CONSTANT_InterfaceMethodref) then
         class_index <- U2 ;;
         name_and_type_index <- U2 ;;
         ret (mkConstant tag (Ref_fields class_index name_and_type_index))
       else if tag =? CONSTANT_String then
         string_index <- U2 ;;
         ret (mkConstant tag (String_fields string_index))
       else if tag =? CONSTANT_Integer then
         bytes <- U4 ;;
         ret (mkConstant tag (Word_fields bytes))
       else if tag =? CONSTANT_Float then
         bytes <- U4 ;;
         ret (mkConstant tag (Word_fields bytes))
       else if (tag =? CONSTANT_Long) || (tag =? CONSTANT_Double) then
         high_bytes <- U4 ;;
         low_bytes <- U4 ;;
         ret (mkConstant tag (Wide_fields high_bytes low_bytes))
       else if tag =? CONSTANT_NameAndType then
         name_index <- U2 ;;
         descriptor_index <- U2 ;;
         ret (mkConstant tag (NameAndType_fields name_index descriptor_index))
       else if tag =? CONSTANT_Utf8 then
         length <- U2 ;;
         raw <- U length ;;
         bytes <- lift (decode_utf8 raw) ;;
         ret (mkConstant tag (Utf8_fields length bytes))
       else if tag =? CONSTANT_MethodHandle then
         reference_kind <- U1 ;;
         reference_index <- U2 ;;
         ret (mkConstant tag
                (MethodHandle_fields reference_kind reference_index))
       else if tag =? CONSTANT_MethodType then
         descriptor_index <- U2 ;;
         ret (mkConstant tag (MethodType_fields descriptor_index))
       else if tag =? CONSTANT_InvokeDynamic then
         bootstrap_method_attr_index <- U2 ;;
         name_and_type_index <- U2 ;;
         ret (mkConstant tag
                (InvokeDynamic_fields bootstrap_method_attr_index
                                      name_and_type_index))
       else
         ret (mkConstant tag No_fields)) t (mkFile (pos + 1) bs).
Proof.
  intros Ht. unfold JVMConstant_init.
  rewrite (bind_ok _ (U1_cons pos (byte_of_Z t) bs)).
  now rewrite bval_byte_of_Z_small by exact Ht.
Qed.

Ltac tag_tests :=
  repeat match goal with
         | |- context [?a =? ?b] =>
             let v := eval vm_compute in (a =? b) in
             change (a =? b) with v
         end;
  cbn [orb]; cbv iota.

Ltac read_fields :=
  repeat match goal with
         | |- context [bind U2 _ (mkFile ?p (be16 ?v ++ ?r))] =>
             rewrite (bind_ok _ (U2_be16 p v r ltac:(assumption)))
         | |- context [bind U4 _ (mkFile ?p (be32 ?v ++ ?r))] =>
             rewrite (bind_ok _ (U4_be32 p v r ltac:(assumption)))
         end.

Ltac known_tag_u8 := vm_compute; intuition discriminate.

Ltac fixed_entry :=
  rewrite constant_after_tag by known_tag_u8;
  cbv beta; tag_tests; read_fields;
  unfold ret; do 2 f_equal; len_norm; lia.

Lemma bare_entry_layout (pos t : Z) (rest : list byte) :
  u8 t -> ~ In t known_tags ->
  JVMConstant_init (mkFile pos (byte_of_Z t :: rest))
  = (Ok (mkConstant t No_fields), mkFile (pos + 1) rest).
Proof.
  intros Ht Hn. rewrite constant_after_tag by assumption. cbv beta.
  assert (Hne : forall x, In x known_tags -> (t =? x) = false).
  { intros x Hx. apply Z.eqb_neq. intros E. apply Hn. now rewrite E. }
  rewrite (Hne CONSTANT_Class), (Hne CONSTANT_Fieldref),
    (Hne CONSTANT_Methodref), (Hne CONSTANT_InterfaceMethodref),
    (Hne CONSTANT_String), (Hne CONSTANT_Integer), (Hne CONSTANT_Float),
    (Hne CONSTANT_Long), (Hne CONSTANT_Double), (Hne CONSTANT_NameAndType),
    (Hne CONSTANT_Utf8), (Hne CONSTANT_MethodHandle),
    (Hne CONSTANT_MethodType), (Hne CONSTANT_InvokeDynamic)
    by in_known_tags.
  reflexivity.
Qed.

(** A Utf8 entry is read as its length, that many bytes, and their
    decoding. *)
Lemma utf8_entry_layout (pos : Z) (raw rest : list byte) :
  len raw < 65536 ->
  JVMConstant_init
    (mkFile pos (byte_of_Z CONSTANT_Utf8 :: be16 (len raw) ++ raw ++ rest))
  = match utf8_decode raw with
    | Some text =>
        (Ok (mkConstant CONSTANT_Utf8 (Utf8_fields (len raw) text)),
         mkFile (pos + 3 + len raw) rest)
    | None => (Raise UnicodeDecodeError, mkFile (pos + 3 + len raw) rest)
    end.
Proof.
  intros Hlen. pose proof (len_nonneg raw) as Hr.
  rewrite constant_after_tag by known_tag_u8.
  cbv beta. tag_tests.
  rewrite (bind_ok _ (U2_be16 (pos + 1) (len raw) _ (conj Hr Hlen))).
  rewrite (bind_ok _ (U_exact (pos + 1 + 2) raw rest)).
  replace (pos + 1 + 2 + len raw) with (pos + 3 + len raw) by lia.
  unfold bind, lift, decode_utf8.
  destruct (utf8_decode raw); reflexivity.
Qed.

Lemma constant_round_trip (pos : Z) (c : JVMConstant) (rest : list byte) :
  wf_constant c ->
  JVMConstant_init (mkFile pos (encode_constant c ++ rest))
  = (Ok c, mkFile (pos + len (encode_constant c)) rest).
Proof.
  destruct c as [t fs]. unfold wf_constant, encode_constant, u8, u16, u32.
  cbn [tag fields].
  destruct fs; cbn [encode_fields]; intros H;
    cbn [app]; rewrite <- ?app_assoc.
  - destruct H as [-> H]. fixed_entry.
  - destruct H as ([->|[->| ->]] & H1 & H2); fixed_entry.
  - destruct H as [-> H]. fixed_entry.
  - destruct H as [[->| ->] H]; fixed_entry.
  - destruct H as ([->| ->] & H1 & H2); fixed_entry.
  - destruct H as (-> & H1 & H2). fixed_entry.
  - destruct H as (-> & -> & Hlen & Hs).
    rewrite utf8_entry_layout by assumption.
    rewrite (utf8_decode_encode _ Hs). do 2 f_equal. len_norm. lia.
  - destruct H as (-> & H1 & H2).
    rewrite constant_after_tag by known_tag_u8.
    cbv beta. tag_tests. cbn [app].
    rewrite (bind_ok _ (U1_cons _ _ _)).
    rewrite bval_byte_of_Z_small by assumption.
    read_fields. unfold ret. do 2 f_equal. len_norm. lia.
  - destruct H as [-> H]. fixed_entry.
  - destruct H as (-> & H1 & H2). fixed_entry.
  - destruct H as [Ht Hn].
    rewrite bare_entry_layout by assumption. reflexivity.
Qed.

(** A Utf8 entry that holds a byte no UTF-8 text contains (in particular
    the 0xC0 of the two-byte NUL that class files written by Java use) is
    not decoded: [decode] raises [UnicodeDecodeError] once the entry's
    bytes have been read. *)
Theorem utf8_entry_rejected (pos : Z) (raw rest : list byte) (b : byte) :
  len raw < 65536 ->
  In b raw ->
  never_in_utf8 b ->
  JVMConstant_init (mkFile pos (x01 :: be16 (len raw) ++ raw ++ rest))
  = (Raise UnicodeDecodeError, mkFile (pos + 3 + len raw) rest).
Proof.
  intros Hlen Hin Hb.
  change x01 with (byte_of_Z CONSTANT_Utf8).
  rewrite utf8_entry_layout by assumption.
  now rewrite (utf8_decode_rejects raw b Hin Hb).
Qed.

Lemma utf8_entry_rejected_witness :
  JVMConstant_init
    (mkFile 10 (x01 :: be16 (len [x41; xc0; x80]) ++ [x41; xc0; x80] ++ [x07]))
  = (Raise UnicodeDecodeError, mkFile (10 + 3 + len [x41; xc0; x80]) [x07]).
Proof.
  apply (utf8_entry_rejected 10 [x41; xc0; x80] [x07] xc0).
  - vm_compute. reflexivity.
  - right. left. reflexivity.
  - left. reflexivity.
Defined.

(** A Utf8 entry whose text is any sequence of code points is read back
    from its UTF-8 bytes as that text, with the position just behind the
    entry. *)
Theorem utf8_entry_round_trip (pos : Z) (text : str) (rest : list byte) :
  Forall scalar text ->
  len (utf8_encode text) < 65536 ->
  JVMConstant_init
    (mkFile pos (x01 :: be16 (len (utf8_encode text))
                     ++ utf8_encode text ++ rest))
  = (Ok (mkConstant CONSTANT_Utf8
           (Utf8_fields (len (utf8_encode text)) text)),
     mkFile (pos + 3 + len (utf8_encode text)) rest).
Proof.
  intros Hs Hlen.
  change x01 with (byte_of_Z CONSTANT_Utf8).
  rewrite utf8_entry_layout by assumption.
  now rewrite (utf8_decode_encode _ Hs).
Qed.

Lemma utf8_entry_round_trip_witness :
  JVMConstant_init
    (mkFile 0 (x01 :: be16 (len (utf8_encode [72; 233; 8364; 128512]))
                   ++ utf8_encode [72; 233; 8364; 128512] ++ [xff]))
  = (Ok (mkConstant CONSTANT_Utf8
           (Utf8_fields (len (utf8_encode [72; 233; 8364; 128512]))
                        [72; 233; 8364; 128512])),
     mkFile (0 + 3 + len (utf8_encode [72; 233; 8364; 128512])) [xff]).
Proof.
  apply (utf8_entry_round_trip 0 [72; 233; 8364; 128512] [xff]).
  - repeat constructor; vm_compute; intuition discriminate.
  - vm_compute. reflexivity.
Defined.

(** ** Sequences, encoded and read back *)

Lemma repeatM_round_trip {A} (m : M A) (enc : A -> list byte)
      (P : A -> Prop) :
  (forall x pos rest, P x ->
     m (mkFile pos (enc x ++ rest)) = (Ok x, mkFile (pos + len (enc x)) rest)) ->
  forall xs pos rest, Forall P xs ->
    repeatM (List.length xs) m
            (mkFile pos (List.concat (map enc xs) ++ rest))
    = (Ok xs, mkFile (pos + len (List.concat (map enc xs))) rest).
Proof.
  intros Hm xs. induction xs as [|x xs IH]; intros pos rest Hall.
  - cbn. unfold ret. do 2 f_equal. lia.
  - inversion Hall as [|? ? Hx Hxs]; subst.
    cbn [List.length repeatM map List.concat]. rewrite <- app_assoc.
    rewrite (bind_ok _ (Hm x pos _ Hx)).
    rewrite (bind_ok _ (IH _ rest Hxs)).
    unfold ret. do 2 f_equal. rewrite len_app. lia.
Qed.

Lemma comprehension_round_trip {A} (m : M A) (enc : A -> list byte)
      (P : A -> Prop) (count : Z) :
  (forall x pos rest, P x ->
     m (mkFile pos (enc x ++ rest)) = (Ok x, mkFile (pos + len (enc x)) rest)) ->
  forall xs pos rest, Forall P xs -> count = len xs ->
    comprehension count m (mkFile pos (List.concat (map enc xs) ++ rest))
    = (Ok xs, mkFile (pos + len (List.concat (map enc xs))) rest).
Proof.
  intros Hm xs pos rest Hall ->. unfold comprehension, len.
  rewrite Nat2Z.id. now apply repeatM_round_trip with (P := P).
Qed.

Lemma read_constant_pool_encode (pos : Z) (entries : list JVMConstant)
      (rest : list byte) :
  Forall wf_constant entries ->
  len entries + 1 < 65536 ->
  read_constant_pool (mkFile pos (encode_pool entries ++ rest))
  = (Ok (len entries + 1, entries),
     mkFile (pos + len (encode_pool entries)) rest).
Proof.
  intros Hall Hlen. pose proof (len_nonneg entries) as He.
  unfold read_constant_pool, encode_pool. rewrite <- app_assoc.
  rewrite (bind_ok _ (U2_be16 pos (len entries + 1) _ ltac:(lia))).
  rewrite (bind_ok _ (comprehension_round_trip JVMConstant_init
                        encode_constant wf_constant (len entries + 1 - 1)
                        (fun x p r => constant_round_trip p x r)
                        entries (pos + 2) rest Hall ltac:(lia))).
  unfold ret. do 2 f_equal. len_norm. lia.
Qed.

(** A constant pool of well-formed entries is read back entry for entry
    from its bytes: the count field holds the number of entries plus one,
    and every entry, Long and Double included, is one element of the
    list. *)
Theorem pool_round_trip (pos : Z) (entries : list JVMConstant)
      (rest : list byte) :
  Forall wf_constant entries ->
  len entries + 1 < 65536 ->
  read_constant_pool (mkFile pos (encode_pool entries ++ rest))
  = (Ok (len entries + 1, entries),
     mkFile (pos + len (encode_pool entries)) rest).
Proof.
  intros Hall Hlen. pose proof (len_nonneg entries) as He.
  unfold read_constant_pool, encode_pool. rewrite <- app_assoc.
  rewrite (bind_ok _ (U2_be16 pos (len entries + 1) _ ltac:(lia))).
  replace (len entries + 1 - 1) with (len entries) by lia.
  rewrite (bind_ok _ (comprehension_round_trip JVMConstant_init
                        encode_constant wf_constant (len entries)
                        (fun x p r => constant_round_trip p x r)
                        entries (pos + 2) rest Hall eq_refl)).
  unfold ret. do 2 f_equal. len_norm. lia.
Qed.

Lemma pool_round_trip_witness :
  read_constant_pool (mkFile 8 (encode_pool entries_with_long ++ [x00; x21]))
  = (Ok (len entries_with_long + 1, entries_with_long),
     mkFile (8 + len (encode_pool entries_with_long)) [x00; x21]).
Proof.
  apply (pool_round_trip 8 entries_with_long [x00; x21]).
  - repeat constructor; vm_compute; intuition discriminate.
  - vm_compute. reflexivity.
Defined.

(** ** Attributes, encoded and read back *)

Lemma fold_and_Forall {A} (P : A -> Prop) (l : list A) :
  fold_right (fun x acc => P x /\ acc) True l <-> Forall P l.
Proof.
  induction l as [|x l IH]; cbn [fold_right].
  - split; [constructor | trivial].
  - rewrite IH. split.
    + intros [Hx Hl]. now constructor.
    + intros H. now inversion H.
Qed.

Lemma max_depth_Forall (n : nat) (l : list JVMAttribute) :
  (max_depth l <= n)%nat -> Forall (fun x => (depth x <= n)%nat) l.
Proof.
  unfold max_depth. induction l as [|x l IH]; cbn [fold_right]; intros H.
  - constructor.
  - constructor; [lia | apply IH; lia].
Qed.

Lemma Forall_and {A} (P Q : A -> Prop) (l : list A) :
  Forall P l -> Forall Q l -> Forall (fun x => P x /\ Q x) l.
Proof.
  induction 1 as [|x l Hx Hl IH]; intros HQ; [constructor|].
  inversion HQ; subst. constructor; [now split | now apply IH].
Qed.

Lemma attribute_round_trip (fuel : nat) (pool : list JVMConstant) :
  forall (a : JVMAttribute) (pos : Z) (rest : list byte),
    wf_attribute pool a /\ (depth a <= fuel)%nat ->
    JVMAttribute_init fuel pool (mkFile pos (encode_attribute a ++ rest))
    = (Ok a, mkFile (pos + len (encode_attribute a)) rest).
Proof.
  induction fuel as [|fuel IH]; intros a pos rest [Hwf Hd].
  - destruct a as [idx c alen [[]|payload]]; cbn [depth] in Hd; lia.
  - destruct a as [idx c alen inf]. cbn [wf_attribute] in Hwf.
    destruct Hwf as (Hidx & Hget & Hlen & Hinf).
    cbn [encode_attribute]. rewrite <- !app_assoc.
    rewrite (attribute_header fuel pool pos idx c Hidx Hget alen _ Hlen).
    destruct inf as [[ms ml cl code etl table n attrs]|payload].
    + destruct Hinf as (Hname & Hms & Hml & -> & Hcl & -> & Hetl & Hall
                        & -> & Hn & Hnested).
      apply str_eqb_eq in Hname. rewrite Hname.
      apply fold_and_Forall in Hnested.
      cbn [depth] in Hd. fold (max_depth attrs) in Hd.
      assert (Hds : Forall (fun x => (depth x <= fuel)%nat) attrs)
        by (apply max_depth_Forall; lia).
      rewrite <- !app_assoc. unfold bind at 1.
      rewrite code_attr_layout
        by (try assumption; first [apply Hcl | apply Hetl]).
      rewrite (bind_ok _ (comprehension_round_trip
                            (JVMAttribute_init fuel pool) encode_attribute
                            (fun x => wf_attribute pool x
                                      /\ (depth x <= fuel)%nat)
                            (len attrs) IH attrs _ rest
                            (Forall_and _ _ _ Hnested Hds) eq_refl)).
      unfold ret. do 2 f_equal. unfold encode_exception_table.
      len_norm.
      assert (Ht : len (List.concat (map encode_exception table))
                   = 8 * len table).
      { clear. induction table as [|e table IHt]; [reflexivity|].
        cbn [map List.concat]. rewrite len_app, len_cons, IHt.
        unfold encode_exception. len_norm. lia. }
      rewrite Ht. lia.
    + destruct Hinf as (Hname & ->).
      apply str_eqb_neq in Hname. rewrite Hname.
      rewrite (bind_ok _ (U_exact (pos + 6) payload rest)).
      unfold ret. do 2 f_equal. len_norm. lia.
Qed.

Lemma attributes_round_trip (fuel : nat) (pool : list JVMConstant)
      (count : Z) (l : list JVMAttribute) (pos : Z) (rest : list byte) :
  wf_attributes pool count l ->
  (max_depth l <= fuel)%nat ->
  comprehension count (JVMAttribute_init fuel pool)
                (mkFile pos (encode_attributes l ++ rest))
  = (Ok l, mkFile (pos + len (encode_attributes l)) rest).
Proof.
  intros (Hc & _ & Hall) Hd. unfold encode_attributes.
  apply comprehension_round_trip
    with (P := fun x => wf_attribute pool x /\ (depth x <= fuel)%nat).
  - apply attribute_round_trip.
  - apply Forall_and; [assumption | now apply max_depth_Forall].
  - assumption.
Qed.

Lemma len_encode_exception_table (table : list ExceptionEntry) :
  len (encode_exception_table table) = 8 * len table.
Proof.
  unfold encode_exception_table.
  induction table as [|e table IH]; [reflexivity|].
  cbn [map List.concat]. rewrite len_app, len_cons, IH.
  unfold encode_exception. len_norm. lia.
Qed.

(** C10: on a Code attribute body laid out as [max_stack] and [max_locals]
    (two bytes each), [code_length] (four bytes), the code, the
    [exception_table_length] (two bytes), that many eight-byte records of
    [start_pc], [end_pc], [handler_pc], [catch_type], [attributes_count]
    (two bytes) and the nested attributes, the decoder reads every field
    back in that order with those widths, keeps the code bytes as they
    are, takes [8 * exception_table_length] bytes for the table, and then
    returns the nested attributes, each of them (and whatever is nested in
    them) named through the same constant pool; this both for the decoder
    on its own and as [JVMAttribute.__init__] reaches it for an attribute
    named "Code". *)
Theorem code_attribute_decoding (fuel : nat) (pool : list JVMConstant)
      (pos idx alen : Z) (c : JVMConstant)
      (max_stack max_locals : Z) (code : list byte)
      (table : list ExceptionEntry) (nested : list JVMAttribute)
      (rest : list byte) :
  0 <= idx < 65536 ->
  getitem pool (idx - 1) = Ok c ->
  JVMConstant_str c = Code ->
  0 <= alen < 4294967296 ->
  0 <= max_stack < 65536 ->
  0 <= max_locals < 65536 ->
  len code < 4294967296 ->
  len table < 65536 ->
  Forall exception_in_range table ->
  len nested < 65536 ->
  Forall (wf_attribute pool) nested ->
  (max_depth nested <= fuel)%nat ->
  len (encode_exception_table table) = 8 * len table
  /\ JVMCodeAttr_init (JVMAttribute_init fuel pool)
       (mkFile pos
          (be16 max_stack ++ be16 max_locals
           ++ be32 (len code) ++ code
           ++ be16 (len table) ++ encode_exception_table table
           ++ be16 (len nested) ++ encode_attributes nested ++ rest))
     = (Ok (mkCodeAttr max_stack max_locals (len code) code
                       (len table) table (len nested) nested),
        mkFile (pos + 2 + 2 + 4 + len code + 2 + 8 * len table + 2
                + len (encode_attributes nested)) rest)
  /\ JVMAttribute_init (S fuel) pool
       (mkFile pos
          (be16 idx ++ be32 alen
           ++ be16 max_stack ++ be16 max_locals
           ++ be32 (len code) ++ code
           ++ be16 (len table) ++ encode_exception_table table
           ++ be16 (len nested) ++ encode_attributes nested ++ rest))
     = (Ok (mkAttribute idx c alen
              (Code_info (mkCodeAttr max_stack max_locals (len code) code
                                     (len table) table
                                     (len nested) nested))),
        mkFile (pos + 2 + 4
                + 2 + 2 + 4 + len code + 2 + 8 * len table + 2
                + len (encode_attributes nested)) rest).
Proof.
  intros Hidx Hget Hname Halen Hs Hl Hc Ht Hall Hn Hwf Hd.
  pose proof (len_nonneg code) as Hc0. pose proof (len_nonneg table) as Ht0.
  pose proof (len_nonneg nested) as Hn0.
  pose proof (len_encode_exception_table table) as Htab.
  split; [exact Htab | split].
  - rewrite code_attr_layout by (assumption || lia).
    rewrite (bind_ok _ (attributes_round_trip fuel pool (len nested) nested
                          _ rest
                          (conj eq_refl (conj (conj Hn0 Hn) Hwf)) Hd)).
    unfold ret. do 2 f_equal. lia.
  - pose proof (attribute_round_trip (S fuel) pool
                  (mkAttribute idx c alen
                     (Code_info (mkCodeAttr max_stack max_locals (len code)
                                            code (len table) table
                                            (len nested) nested)))
                  pos rest) as H.
    cbn [encode_attribute wf_attribute depth] in H.
    fold (encode_attributes nested) in H. fold (max_depth nested) in H.
    rewrite <- !app_assoc in H. rewrite H.
    + do 2 f_equal. len_norm. rewrite Htab. lia.
    + split; [|lia].
      unfold u16, u32. rewrite fold_and_Forall.
      repeat split; try assumption; lia.
Qed.

Lemma code_attribute_decoding_witness :
  len (encode_exception_table sample_exception_table)
  = 8 * len sample_exception_table
  /\ JVMCodeAttr_init (JVMAttribute_init 2 sample_pool)
       (mkFile 6
          (be16 2 ++ be16 1
           ++ be32 (len [x2a; xb1]) ++ [x2a; xb1]
           ++ be16 (len sample_exception_table)
           ++ encode_exception_table sample_exception_table
           ++ be16 (len sample_nested_attributes)
           ++ encode_attributes sample_nested_attributes ++ [xff]))
     = (Ok (mkCodeAttr 2 1 (len [x2a; xb1]) [x2a; xb1]
                       (len sample_exception_table) sample_exception_table
                       (len sample_nested_attributes)
                       sample_nested_attributes),
        mkFile (6 + 2 + 2 + 4 + len [x2a; xb1] + 2
                + 8 * len sample_exception_table + 2
                + len (encode_attributes sample_nested_attributes)) [xff])
  /\ JVMAttribute_init 3 sample_pool
       (mkFile 6
          (be16 1 ++ be32 0
           ++ be16 2 ++ be16 1
           ++ be32 (len [x2a; xb1]) ++ [x2a; xb1]
           ++ be16 (len sample_exception_table)
           ++ encode_exception_table sample_exception_table
           ++ be16 (len sample_nested_attributes)
           ++ encode_attributes sample_nested_attributes ++ [xff]))
     = (Ok (mkAttribute 1 (mkConstant 1 (Utf8_fields 4 Code)) 0
              (Code_info (mkCodeAttr 2 1 (len [x2a; xb1]) [x2a; xb1]
                                     (len sample_exception_table)
                                     sample_exception_table
                                     (len sample_nested_attributes)
                                     sample_nested_attributes))),
        mkFile (6 + 2 + 4
                + 2 + 2 + 4 + len [x2a; xb1] + 2
                + 8 * len sample_exception_table + 2
                + len (encode_attributes sample_nested_attributes)) [xff]).
Proof.
  apply (code_attribute_decoding 2 sample_pool 6 1 0
           (mkConstant 1 (Utf8_fields 4 Code)) 2 1 [x2a; xb1]
           sample_exception_table sample_nested_attributes [xff]).
  - lia.
  - reflexivity.
  - reflexivity.
  - lia.
  - lia.
  - lia.
  - vm_compute. reflexivity.
  - vm_compute. reflexivity.
  - repeat constructor; vm_compute; discriminate.
  - vm_compute. reflexivity.
  - unfold sample_nested_attributes, u16, u32. cbn.
    repeat constructor; try lia; try (vm_compute; discriminate).
  - vm_compute. lia.
Defined.

(** The nested Code attribute of the sample is decoded with its own
    nested attribute resolved against the same pool: name index 3 is
    "SourceFile" at both levels. *)
Example nested_attributes_share_pool :
  JVMCodeAttr_init (JVMAttribute_init 2 sample_pool)
    (mkFile 0
       (be16 2 ++ be16 1 ++ be32 0 ++ be16 0 ++ be16 2
        ++ encode_attributes sample_nested_attributes))
  = (Ok (mkCodeAttr 2 1 0 [] 0 [] 2 sample_nested_attributes),
     mkFile 45 []).
Proof. vm_compute. reflexivity. Qed.

(** ** Fields and methods, encoded and read back *)

Lemma method_round_trip (fuel : nat) (pool : list JVMConstant)
      (m : JVMMethod) (pos : Z) (rest : list byte) :
  wf_method pool m /\ (max_depth (method_attributes m) <= fuel)%nat ->
  JVMMethod_init fuel pool (mkFile pos (encode_method m ++ rest))
  = (Ok m, mkFile (pos + len (encode_method m)) rest).
Proof.
  destruct m as [flags name desc count attrs].
  unfold wf_method, encode_method.
  cbn [method_access_flags method_name_index method_descriptor_index
       method_attributes_count method_attributes].
  intros ((Hf & Hn & Hd & Ha) & Hdepth).
  pose proof Ha as (_ & Hc & _).
  unfold JVMMethod_init. rewrite <- !app_assoc. read_fields.
  rewrite (bind_ok _ (attributes_round_trip fuel pool count attrs _ rest
                        Ha Hdepth)).
  unfold ret. do 2 f_equal. len_norm. lia.
Qed.

Lemma field_round_trip (fuel : nat) (pool : list JVMConstant)
      (fd : JVMField) (pos : Z) (rest : list byte) :
  wf_field pool fd /\ (max_depth (field_attributes fd) <= fuel)%nat ->
  JVMField_init fuel pool (mkFile pos (encode_field fd ++ rest))
  = (Ok fd, mkFile (pos + len (encode_field fd)) rest).
Proof.
  destruct fd as [flags name desc count attrs].
  unfold wf_field, encode_field.
  cbn [field_access_flags field_name_index field_descriptor_index
       field_attributes_count field_attributes].
  intros ((Hf & Hn & Hd & Ha) & Hdepth).
  pose proof Ha as (_ & Hc & _).
  unfold JVMField_init. rewrite <- !app_assoc. read_fields.
  rewrite (bind_ok _ (attributes_round_trip fuel pool count attrs _ rest
                        Ha Hdepth)).
  unfold ret. do 2 f_equal. len_norm. lia.
Qed.

(** ** Classes, encoded and read back *)

Lemma max_depth_app (l1 l2 : list JVMAttribute) :
  max_depth (l1 ++ l2) = Nat.max (max_depth l1) (max_depth l2).
Proof.
  unfold max_depth. induction l1 as [|x l1 IH]; cbn [app fold_right].
  - reflexivity.
  - rewrite IH. lia.
Qed.

Lemma max_depth_flat_map {A} (g : A -> list JVMAttribute) (n : nat)
      (l : list A) :
  (max_depth (flat_map g l) <= n)%nat ->
  Forall (fun x => (max_depth (g x) <= n)%nat) l.
Proof.
  induction l as [|x l IH]; cbn [flat_map]; intros H; [constructor|].
  rewrite max_depth_app in H. constructor; [lia | apply IH; lia].
Qed.

Lemma magic_accepted (pos : Z) (rest : list byte) :
  validate_class_file_magic (mkFile pos ([xca; xfe; xba; xbe] ++ rest))
  = (Ok tt, mkFile (pos + 4) rest).
Proof.
  unfold validate_class_file_magic.
  change [xca; xfe; xba; xbe] with (be32 0xCAFEBABE).
  rewrite (bind_ok _ (U4_be32 pos 0xCAFEBABE rest ltac:(lia))).
  reflexivity.
Qed.

Lemma U2_round_trip (x pos : Z) (rest : list byte) :
  u16 x ->
  U2 (mkFile pos (be16 x ++ rest)) = (Ok x, mkFile (pos + len (be16 x)) rest).
Proof. intros Hx. now rewrite U2_be16. Qed.

Lemma class_body_round_trip (fuel : nat) (k : JVMClass) (pos : Z)
      (rest : list byte) :
  wf_class k ->
  (max_depth (all_attributes k) <= fuel)%nat ->
  JVMClass_body fuel (mkFile pos (encode_class k ++ rest))
  = (Ok k, mkFile (pos + len (encode_class k)) rest).
Proof.
  destruct k as [minor major cpc pool flags this super ic ifs fc flds
                 mc meths ac attrs].
  unfold wf_class, encode_class, all_attributes.
  cbn [minor_version major_version constant_pool_count constant_pool
       access_flags this_class super_class interfaces_count interfaces
       fields_count class_fields methods_count methods
       attributes_count attributes].
  intros (Hminor & Hmajor & -> & Hcpc & Hpool & Hflags & Hthis & Hsuper
          & -> & Hic & Hifs & -> & Hfc & Hflds & -> & Hmc & Hmeths & Hattrs)
         Hdepth.
  pose proof Hattrs as (_ & Hac & _).
  rewrite !max_depth_app in Hdepth.
  assert (Hdf : Forall (fun x => (max_depth (field_attributes x) <= fuel)%nat)
                       flds) by (apply max_depth_flat_map; lia).
  assert (Hdm : Forall (fun x => (max_depth (method_attributes x) <= fuel)%nat)
                       meths) by (apply max_depth_flat_map; lia).
  unfold JVMClass_body. rewrite <- !app_assoc.
  rewrite (bind_ok _ (magic_accepted pos _)).
  read_fields.
  rewrite (bind_ok _ (read_constant_pool_encode _ pool _ Hpool (proj2 Hcpc))).
  cbv zeta. cbn [fst snd].
  read_fields.
  rewrite (bind_ok _ (comprehension_round_trip U2 be16 u16 (len ifs)
                        U2_round_trip ifs _ _ Hifs eq_refl)).
  read_fields.
  rewrite (bind_ok _ (comprehension_round_trip (JVMField_init fuel pool)
                        encode_field
                        (fun x => wf_field pool x
                          /\ (max_depth (field_attributes x) <= fuel)%nat)
                        (len flds) (field_round_trip fuel pool) flds _ _
                        (Forall_and _ _ _ Hflds Hdf) eq_refl)).
  read_fields.
  rewrite (bind_ok _ (comprehension_round_trip (JVMMethod_init fuel pool)
                        encode_method
                        (fun x => wf_method pool x
                          /\ (max_depth (method_attributes x) <= fuel)%nat)
                        (len meths) (method_round_trip fuel pool) meths _ _
                        (Forall_and _ _ _ Hmeths Hdm) eq_refl)).
  read_fields.
  rewrite (bind_ok _ (attributes_round_trip fuel pool ac attrs _ rest
                        Hattrs ltac:(lia))).
  unfold ret. do 2 f_equal. len_norm. lia.
Qed.

(** Decoding undoes encoding: the bytes of any well-formed class, followed
    by whatever, are decoded to that class, and the file is left at the
    first byte after it. *)
Theorem class_round_trip (k : JVMClass) (rest : list byte) :
  wf_class k ->
  JVMClass_init (encode_class k ++ rest)
  = (Ok k, mkFile (len (encode_class k)) rest).
Proof.
  intros Hwf.
  rewrite <- (fuel_irrelevant (encode_class k ++ rest)
                              (max_depth (all_attributes k))).
  unfold open.
  rewrite class_body_round_trip by (assumption || lia).
  reflexivity.
Qed.

Lemma class_round_trip_witness :
  JVMClass_init (encode_class sample_class_value ++ [xff])
  = (Ok sample_class_value, mkFile (len (encode_class sample_class_value)) [xff]).
Proof.
  apply (class_round_trip sample_class_value [xff]).
  unfold wf_class, wf_attributes, u16. cbn.
  repeat split; try lia; try discriminate;
    repeat constructor; try (vm_compute; intuition discriminate).
Defined.

Example sample_class_encoding : encode_class sample_class_value = sample_class.
Proof. reflexivity. Qed.

(** ** From the decoded value back to the bytes *)

Lemma byte_of_Z_bval (b : byte) : byte_of_Z (bval b) = b.
Proof.
  unfold byte_of_Z, bval. pose proof (Byte.to_N_bounded b) as Hb.
  rewrite Z.mod_small by lia. rewrite N2Z.id.
  now rewrite Byte.of_to_N.
Qed.

Lemma byte_of_Z_eq (z : Z) (b : byte) : z = bval b -> byte_of_Z z = b.
Proof. intros ->. apply byte_of_Z_bval. Qed.

Lemma option_map_cons_inv (c : Z) (o : option str) (s : str) :
  option_map (cons c) o = Some s -> exists s', o = Some s' /\ s = c :: s'.
Proof.
  destruct o as [s'|]; cbn; intros H; [|discriminate].
  inversion H. now exists s'.
Qed.

Lemma is_cont_range (b : byte) : is_cont b = true -> 0x80 <= bval b < 0xC0.
Proof.
  unfold is_cont. intros H. apply andb_true_iff in H. destruct H as [H1 H2].
  apply Z.leb_le in H1. apply Z.ltb_lt in H2. lia.
Qed.

Lemma negb_and_range (p q : bool) (P Q : Prop) :
  (p = true <-> P) -> (q = true <-> Q) ->
  negb (p && q) = true -> ~ (P /\ Q).
Proof.
  intros Hp Hq H [HP HQ]. apply Hp in HP. apply Hq in HQ.
  rewrite HP, HQ in H. discriminate.
Qed.

Lemma utf8_encode_cons (c : Z) (s : str) :
  utf8_encode (c :: s) = utf8_encode_point c ++ utf8_encode s.
Proof. reflexivity. Qed.

Lemma utf8_encode_decode_bounded (n : nat) :
  forall (bs : list byte) (s : str),
    (List.length bs <= n)%nat -> utf8_decode bs = Some s ->
    utf8_encode s = bs /\ Forall scalar s.
Proof.
  unfold scalar.
  induction n as [|n IH]; intros bs s Hlen Hdec.
  - destruct bs; [|cbn in Hlen; lia]. cbn in Hdec. inversion Hdec.
    split; [reflexivity | constructor].
  - destruct bs as [|b0 r0].
    { cbn in Hdec. inversion Hdec. split; [reflexivity | constructor]. }
    cbn [List.length] in Hlen. cbn [utf8_decode] in Hdec.
    pose proof (bval_range b0) as R0.
    destruct (Z.ltb_spec (bval b0) 0x80) as [L1|L1].
    { apply option_map_cons_inv in Hdec. destruct Hdec as (s' & Hs' & ->).
      destruct (IH r0 s' ltac:(lia) Hs') as [He Hsc].
      rewrite utf8_encode_cons. unfold utf8_encode_point.
      destruct (Z.ltb_spec (bval b0) 0x80); [|lia].
      rewrite byte_of_Z_bval, He. split; [reflexivity|].
      constructor; [lia | assumption]. }
    destruct (Z.ltb_spec (bval b0) 0xC2) as [L2|L2]; [discriminate|].
    destruct (Z.ltb_spec (bval b0) 0xE0) as [L3|L3].
    { destruct r0 as [|b1 r1]; [discriminate|].
      destruct (is_cont b1) eqn:C1; [|discriminate].
      apply is_cont_range in C1.
      apply option_map_cons_inv in Hdec. destruct Hdec as (s' & Hs' & ->).
      cbn [List.length] in Hlen.
      destruct (IH r1 s' ltac:(lia) Hs') as [He Hsc].
      set (c := (bval b0 - 0xC0) * 64 + (bval b1 - 0x80)) in *.
      assert (Hq : c / 64 = bval b0 - 0xC0)
        by (subst c; Z.div_mod_to_equations; lia).
      assert (Hr : c mod 64 = bval b1 - 0x80)
        by (subst c; Z.div_mod_to_equations; lia).
      assert (Hc : 0x80 <= c < 0x800) by (subst c; lia).
      rewrite utf8_encode_cons. unfold utf8_encode_point.
      destruct (Z.ltb_spec c 0x80); [lia|].
      destruct (Z.ltb_spec c 0x800); [|lia].
      rewrite Hq, Hr, He.
      rewrite (byte_of_Z_eq _ b0), (byte_of_Z_eq _ b1) by lia.
      split; [reflexivity|]. constructor; [lia | assumption]. }
    destruct (Z.ltb_spec (bval b0) 0xF0) as [L4|L4].
    { destruct r0 as [|b1 [|b2 r2]]; try discriminate.
      match type of Hdec with
      | (if ?c then _ else _) = _ => destruct c eqn:C; [|discriminate]
      end.
      apply andb_true_iff in C; destruct C as [C N2].
      apply andb_true_iff in C; destruct C as [C N1].
      apply andb_true_iff in C; destruct C as [C1 C2].
      apply is_cont_range in C1. apply is_cont_range in C2.
      apply (negb_and_range _ _ _ _ (Z.eqb_eq _ _) (Z.ltb_lt _ _)) in N1.
      apply (negb_and_range _ _ _ _ (Z.eqb_eq _ _) (Z.leb_le _ _)) in N2.
      apply option_map_cons_inv in Hdec. destruct Hdec as (s' & Hs' & ->).
      cbn [List.length] in Hlen.
      destruct (IH r2 s' ltac:(lia) Hs') as [He Hsc].
      set (c := (bval b0 - 0xE0) * 4096 + (bval b1 - 0x80) * 64
                + (bval b2 - 0x80)) in *.
      assert (Hq1 : c / 64 = (bval b0 - 0xE0) * 64 + (bval b1 - 0x80))
        by (subst c; Z.div_mod_to_equations; lia).
      assert (Hr : c mod 64 = bval b2 - 0x80)
        by (subst c; Z.div_mod_to_equations; lia).
      assert (Hq2 : c / 4096 = bval b0 - 0xE0)
        by (subst c; Z.div_mod_to_equations; lia).
      assert (Hr1 : (c / 64) mod 64 = bval b1 - 0x80)
        by (rewrite Hq1; Z.div_mod_to_equations; lia).
      assert (Hc : 0x800 <= c < 0x10000 /\ ~ (0xD800 <= c < 0xE000))
        by (subst c; lia).
      rewrite utf8_encode_cons. unfold utf8_encode_point.
      destruct (Z.ltb_spec c 0x80); [lia|].
      destruct (Z.ltb_spec c 0x800); [lia|].
      destruct (Z.ltb_spec c 0x10000); [|lia].
      rewrite Hq2, Hr1, Hr, He.
      rewrite (byte_of_Z_eq _ b0), (byte_of_Z_eq _ b1), (byte_of_Z_eq _ b2)
        by lia.
      split; [reflexivity|]. constructor; [lia | assumption]. }
    destruct (Z.ltb_spec (bval b0) 0xF5) as [L5|L5]; [|discriminate].
    destruct r0 as [|b1 [|b2 [|b3 r3]]]; try discriminate.
    match type of Hdec with
    | (if ?c then _ else _) = _ => destruct c eqn:C; [|discriminate]
    end.
    apply andb_true_iff in C; destruct C as [C N2].
    apply andb_true_iff in C; destruct C as [C N1].
    apply andb_true_iff in C; destruct C as [C C3].
    apply andb_true_iff in C; destruct C as [C1 C2].
    apply is_cont_range in C1. apply is_cont_range in C2.
    apply is_cont_range in C3.
    apply (negb_and_range _ _ _ _ (Z.eqb_eq _ _) (Z.ltb_lt _ _)) in N1.
    apply (negb_and_range _ _ _ _ (Z.eqb_eq _ _) (Z.leb_le _ _)) in N2.
    apply option_map_cons_inv in Hdec. destruct Hdec as (s' & Hs' & ->).
    cbn [List.length] in Hlen.
    destruct (IH r3 s' ltac:(lia) Hs') as [He Hsc].
    set (c := (bval b0 - 0xF0) * 262144 + (bval b1 - 0x80) * 4096
              + (bval b2 - 0x80) * 64 + (bval b3 - 0x80)) in *.
    assert (Hq1 : c / 64 = (bval b0 - 0xF0) * 4096 + (bval b1 - 0x80) * 64
                           + (bval b2 - 0x80))
      by (subst c; Z.div_mod_to_equations; lia).
    assert (Hr : c mod 64 = bval b3 - 0x80)
      by (subst c; Z.div_mod_to_equations; lia).
    assert (Hq2 : c / 4096 = (bval b0 - 0xF0) * 64 + (bval b1 - 0x80))
      by (subst c; Z.div_mod_to_equations; lia).
    assert (Hq3 : c / 262144 = bval b0 - 0xF0)
      by (subst c; Z.div_mod_to_equations; lia).
    assert (Hr1 : (c / 64) mod 64 = bval b2 - 0x80)
      by (rewrite Hq1; Z.div_mod_to_equations; lia).
    assert (Hr2 : (c / 4096) mod 64 = bval b1 - 0x80)
      by (rewrite Hq2; Z.div_mod_to_equations; lia).
    assert (Hc : 0x10000 <= c < 0x110000) by (subst c; lia).
    rewrite utf8_encode_cons. unfold utf8_encode_point.
    destruct (Z.ltb_spec c 0x80); [lia|].
    destruct (Z.ltb_spec c 0x800); [lia|].
    destruct (Z.ltb_spec c 0x10000); [lia|].
    rewrite Hq3, Hr2, Hr1, Hr, He.
    rewrite (byte_of_Z_eq _ b0), (byte_of_Z_eq _ b1), (byte_of_Z_eq _ b2),
      (byte_of_Z_eq _ b3) by lia.
    split; [reflexivity|]. constructor; [lia | assumption].
Qed.

(** What [decode('utf-8')] accepts is the UTF-8 encoding of the text it
    returns, and that text holds no surrogate and nothing above
    U+10FFFF. *)
Lemma utf8_encode_decode (bs : list byte) (s : str) :
  utf8_decode bs = Some s -> utf8_encode s = bs /\ Forall scalar s.
Proof. now apply (utf8_encode_decode_bounded (List.length bs)). Qed.

Lemma byte_of_Z_mod_eq (z : Z) (b : byte) :
  z mod 256 = bval b -> byte_of_Z z = b.
Proof.
  intros H. unfold byte_of_Z. rewrite H. unfold bval.
  now rewrite N2Z.id, Byte.of_to_N.
Qed.

Lemma faithful_U1 : faithful U1 (fun v => [byte_of_Z v]) u8.
Proof.
  intros [pos bs] v f' H. rewrite fixed_width_U1 in H.
  destruct bs as [|b0 r]; cbn [List.length Nat.leb] in H; [discriminate|].
  inversion H; subst. cbn [unread tell firstn skipn app].
  unfold be_value, u8. cbn [fold_left]. pose proof (bval_range b0).
  repeat split; try lia.
  f_equal. symmetry. apply byte_of_Z_eq. lia.
Qed.

Lemma faithful_U2 : faithful U2 be16 u16.
Proof.
  intros [pos bs] v f' H. rewrite fixed_width_U2 in H.
  destruct bs as [|b0 [|b1 r]]; cbn [List.length Nat.leb] in H;
    try discriminate.
  inversion H; subst. cbn [unread tell firstn skipn].
  unfold be_value, u16, be16. cbn [fold_left app].
  pose proof (bval_range b0). pose proof (bval_range b1).
  repeat split; try lia.
  f_equal; [|f_equal]; symmetry; apply byte_of_Z_mod_eq;
    Z.div_mod_to_equations; lia.
Qed.

Lemma faithful_U4 : faithful U4 be32 u32.
Proof.
  intros [pos bs] v f' H. rewrite fixed_width_U4 in H.
  destruct bs as [|b0 [|b1 [|b2 [|b3 r]]]]; cbn [List.length Nat.leb] in H;
    try discriminate.
  inversion H; subst. cbn [unread tell firstn skipn].
  unfold be_value, u32, be32. cbn [fold_left app].
  pose proof (bval_range b0). pose proof (bval_range b1).
  pose proof (bval_range b2). pose proof (bval_range b3).
  repeat split; try lia.
  f_equal; [|f_equal; [|f_equal; [|f_equal]]]; symmetry;
    apply byte_of_Z_mod_eq; Z.div_mod_to_equations; lia.
Qed.

Lemma U_inv_bytes (n : Z) f (bs : list byte) f' :
  0 <= n -> U n f = (Ok bs, f') ->
  len bs = n /\ unread f = bs ++ unread f' /\ tell f' = tell f + n.
Proof.
  intros Hn H. destruct (U_reads n f Hn) as [[Hl E]|[_ [E _]]].
  - rewrite H in E. inversion E; subst. cbn [unread tell].
    repeat split.
    + unfold len in *. rewrite length_firstn. lia.
    + symmetry. apply firstn_skipn.
  - rewrite H in E. discriminate.
Qed.

Lemma faithful_repeatM {A} (m : M A) (enc : A -> list byte)
      (P : A -> Prop) :
  faithful m enc P ->
  forall (n : nat) f xs f',
    repeatM n m f = (Ok xs, f') ->
    Forall P xs /\ List.length xs = n
    /\ unread f = List.concat (map enc xs) ++ unread f'
    /\ tell f' = tell f + len (List.concat (map enc xs)).
Proof.
  intros Hm n. induction n as [|n IH]; intros f xs f' H; cbn [repeatM] in H.
  - apply ret_inv_ok in H. destruct H as [<- <-].
    cbn. repeat split; [constructor | lia].
  - bind_inv H x f1 Hx. bind_inv H l f2 Hl.
    apply ret_inv_ok in H. destruct H as [<- <-].
    apply Hm in Hx. destruct Hx as (Px & Ux & Tx).
    apply IH in Hl. destruct Hl as (Pl & Ll & Ul & Tl).
    cbn [map List.concat List.length].
    repeat split.
    + now constructor.
    + now f_equal.
    + rewrite <- app_assoc, <- Ul. exact Ux.
    + rewrite len_app. lia.
Qed.

Lemma faithful_comprehension {A} (m : M A) (enc : A -> list byte)
      (P : A -> Prop) (count : Z) f xs f' :
  faithful m enc P -> 0 <= count ->
  comprehension count m f = (Ok xs, f') ->
  Forall P xs /\ count = len xs
  /\ unread f = List.concat (map enc xs) ++ unread f'
  /\ tell f' = tell f + len (List.concat (map enc xs)).
Proof.
  intros Hm Hc H. unfold comprehension in H.
  apply (faithful_repeatM _ _ _ Hm) in H.
  destruct H as (HP & HL & HU & HT). unfold len. rewrite HL.
  repeat split; try assumption. lia.
Qed.

Ltac inv_fields H :=
  repeat match type of H with
         | bind U1 _ _ = _ =>
             let v := fresh "v" in let g := fresh "g" in
             let Hv := fresh "Hv" in
             bind_inv H v g Hv; apply faithful_U1 in Hv;
             destruct Hv as (? & ? & ?)
         | bind U2 _ _ = _ =>
             let v := fresh "v" in let g := fresh "g" in
             let Hv := fresh "Hv" in
             bind_inv H v g Hv; apply faithful_U2 in Hv;
             destruct Hv as (? & ? & ?)
         | bind U4 _ _ = _ =>
             let v := fresh "v" in let g := fresh "g" in
             let Hv := fresh "Hv" in
             bind_inv H v g Hv; apply faithful_U4 in Hv;
             destruct Hv as (? & ? & ?)
         | ret _ _ = _ =>
             apply ret_inv_ok in H; destruct H as [<- <-]
         end.

Ltac chain_unread :=
  repeat match goal with
         | H : unread ?x = _ |- _ => rewrite H; clear H
         end;
  cbn [app]; rewrite <- ?app_assoc; reflexivity.

Ltac chain_tell :=
  repeat match goal with
         | H : tell ?x = _ |- _ => rewrite H; clear H
         end;
  len_norm; lia.

Ltac entry_done :=
  unfold wf_constant, encode_constant; cbn [tag fields encode_fields];
  split; [auto 6 | split; [chain_unread | chain_tell]].

Lemma faithful_JVMConstant_init :
  faithful JVMConstant_init encode_constant wf_constant.
Proof.
  intros f c f' H. unfold JVMConstant_init in H.
  bind_inv H t f1 Ht. apply faithful_U1 in Ht. destruct Ht as (Pt & Ut & Tt).
  revert H. destruct (Z.eqb_spec t CONSTANT_Class) as [->|N7]; intros H.
  { inv_fields H. entry_done. }
  revert H. destruct (Z.eqb_spec t CONSTANT_Fieldref) as [->|N9];
    cbn [orb]; intros H.
  { inv_fields H. entry_done. }
  revert H. destruct (Z.eqb_spec t CONSTANT_Methodref) as [->|N10];
    cbn [orb]; intros H.
  { inv_fields H. entry_done. }
  revert H. destruct (Z.eqb_spec t CONSTANT_InterfaceMethodref) as [->|N11];
    cbn [orb]; intros H.
  { inv_fields H. entry_done. }
  revert H. destruct (Z.eqb_spec t CONSTANT_String) as [->|N8]; intros H.
  { inv_fields H. entry_done. }
  revert H. destruct (Z.eqb_spec t CONSTANT_Integer) as [->|N3]; intros H.
  { inv_fields H. entry_done. }
  revert H. destruct (Z.eqb_spec t CONSTANT_Float) as [->|N4]; intros H.
  { inv_fields H. entry_done. }
  revert H. destruct (Z.eqb_spec t CONSTANT_Long) as [->|N5];
    cbn [orb]; intros H.
  { inv_fields H. entry_done. }
  revert H. destruct (Z.eqb_spec t CONSTANT_Double) as [->|N6];
    cbn [orb]; intros H.
  { inv_fields H. entry_done. }
  revert H. destruct (Z.eqb_spec t CONSTANT_NameAndType) as [->|N12];
    intros H.
  { inv_fields H. entry_done. }
  revert H. destruct (Z.eqb_spec t CONSTANT_Utf8) as [->|N1]; intros H.
  { bind_inv H n g1 Hn. apply faithful_U2 in Hn.
    destruct Hn as (Pn & Un & Tn).
    bind_inv H raw g2 Hraw.
    apply (U_inv_bytes n g1 raw g2 (proj1 Pn)) in Hraw.
    destruct Hraw as (Lraw & Uraw & Traw).
    bind_inv H s g3 Hs. unfold lift, decode_utf8 in Hs.
    destruct (utf8_decode raw) as [s'|] eqn:D; [|discriminate].
    inversion Hs; subst s' g3. clear Hs.
    apply utf8_encode_decode in D. destruct D as [Es Ss].
    apply ret_inv_ok in H. destruct H as [<- <-].
    unfold wf_constant, encode_constant. cbn [tag fields encode_fields].
    rewrite Es. split; [|split].
    - repeat split; try assumption; [congruence | unfold u16 in Pn; lia].
    - rewrite Ut, Un, Uraw. cbn [app]. now rewrite <- app_assoc.
    - rewrite Traw, Tn, Tt. len_norm. lia. }
  revert H. destruct (Z.eqb_spec t CONSTANT_MethodHandle) as [->|N15];
    intros H.
  { inv_fields H. entry_done. }
  revert H. destruct (Z.eqb_spec t CONSTANT_MethodType) as [->|N16];
    intros H.
  { inv_fields H. entry_done. }
  revert H. destruct (Z.eqb_spec t CONSTANT_InvokeDynamic) as [->|N18];
    intros H.
  { inv_fields H. entry_done. }
  inv_fields H.
  unfold wf_constant, encode_constant. cbn [tag fields encode_fields].
  split; [|split; [chain_unread | chain_tell]].
  split; [assumption|]. unfold known_tags. cbn [In]. intuition congruence.
Qed.

Lemma faithful_read_exception_entry :
  faithful read_exception_entry encode_exception exception_in_range.
Proof.
  intros f e f' H. unfold read_exception_entry in H. inv_fields H.
  unfold exception_in_range, encode_exception, u16 in *.
  cbn [start_pc end_pc handler_pc catch_type].
  split; [auto | split; [chain_unread | chain_tell]].
Qed.

Lemma faithful_JVMCodeAttr_init (pool : list JVMConstant)
      (nested : M JVMAttribute) :
  faithful nested encode_attribute (wf_attribute pool) ->
  faithful (JVMCodeAttr_init nested) encode_code_attr (wf_code_attr pool).
Proof.
  intros Hn f ca f' H. unfold JVMCodeAttr_init in H.
  bind_inv H ms f1 Hms. apply faithful_U2 in Hms.
  destruct Hms as (Pms & Ums & Tms).
  bind_inv H ml f2 Hml. apply faithful_U2 in Hml.
  destruct Hml as (Pml & Uml & Tml).
  bind_inv H cl f3 Hcl. apply faithful_U4 in Hcl.
  destruct Hcl as (Pcl & Ucl & Tcl).
  bind_inv H code f4 Hcode.
  apply (U_inv_bytes cl f3 code f4 (proj1 Pcl)) in Hcode.
  destruct Hcode as (Lcode & Ucode & Tcode).
  bind_inv H etl f5 Hetl. apply faithful_U2 in Hetl.
  destruct Hetl as (Petl & Uetl & Tetl).
  bind_inv H table f6 Htable.
  apply (faithful_comprehension _ _ _ _ _ _ _
           faithful_read_exception_entry (proj1 Petl)) in Htable.
  destruct Htable as (Ptable & Ltable & Utable & Ttable).
  bind_inv H n f7 Hcount. apply faithful_U2 in Hcount.
  destruct Hcount as (Pn & Ucount & Tcount).
  bind_inv H attrs f8 Hattrs.
  apply (faithful_comprehension _ _ _ _ _ _ _ Hn (proj1 Pn)) in Hattrs.
  destruct Hattrs as (Pattrs & Lattrs & Uattrs & Tattrs).
  apply ret_inv_ok in H. destruct H as [<- <-].
  unfold wf_code_attr, encode_code_attr, encode_exception_table,
    encode_attributes.
  split; [|split].
  - repeat split; try assumption; try congruence;
      solve [apply Pms | apply Pml | apply Pcl | apply Petl | apply Pn].
  - rewrite Ums, Uml, Ucl, Ucode, Uetl, Utable, Ucount, Uattrs.
    now rewrite <- !app_assoc.
  - rewrite Tattrs, Tcount, Ttable, Tetl, Tcode, Tcl, Tml, Tms.
    len_norm. lia.
Qed.

Lemma encode_attribute_code idx c alen ca :
  encode_attribute (mkAttribute idx c alen (Code_info ca))
  = be16 idx ++ be32 alen ++ encode_code_attr ca.
Proof. destruct ca. reflexivity. Qed.

Lemma wf_attribute_code pool idx c alen ca :
  u16 idx -> getitem pool (idx - 1) = Ok c -> u32 alen ->
  JVMConstant_str c = Code -> wf_code_attr pool ca ->
  wf_attribute pool (mkAttribute idx c alen (Code_info ca)).
Proof.
  intros Hidx Hget Hlen Hname Hca. destruct ca.
  cbn [wf_attribute wf_code_attr] in *.
  destruct Hca as (? & ? & ? & ? & ? & ? & ? & ? & ? & Hall).
  apply fold_and_Forall in Hall. tauto.
Qed.

Lemma faithful_JVMAttribute_init (fuel : nat) (pool : list JVMConstant) :
  faithful (JVMAttribute_init fuel pool) encode_attribute (wf_attribute pool).
Proof.
  induction fuel as [|fuel IH]; intros f a f' H; cbn [JVMAttribute_init] in H.
  - discriminate.
  - bind_inv H idx f1 Hidx. apply faithful_U2 in Hidx.
    destruct Hidx as (Pidx & Uidx & Tidx).
    bind_inv H c f2 Hc. unfold lift in Hc.
    inversion Hc as [[Hget Hf2]]. subst f2. clear Hc.
    bind_inv H alen f3 Hlen. apply faithful_U4 in Hlen.
    destruct Hlen as (Plen & Ulen & Tlen).
    destruct (str_eqb (JVMConstant_str c) Code) eqn:Ename.
    + apply str_eqb_eq in Ename.
      bind_inv H ca f4 Hca.
      apply (faithful_JVMCodeAttr_init pool _ IH) in Hca.
      destruct Hca as (Pca & Uca & Tca).
      apply ret_inv_ok in H. destruct H as [<- <-].
      rewrite encode_attribute_code. split; [|split].
      * now apply wf_attribute_code.
      * rewrite Uidx, Ulen, Uca. now rewrite <- !app_assoc.
      * rewrite Tca, Tlen, Tidx. len_norm. lia.
    + apply str_eqb_neq in Ename.
      bind_inv H payload f4 Hp.
      apply (U_inv_bytes alen f3 payload f4 (proj1 Plen)) in Hp.
      destruct Hp as (Lp & Up & Tp).
      apply ret_inv_ok in H. destruct H as [<- <-].
      cbn [wf_attribute encode_attribute]. split; [|split].
      * repeat split; try assumption; solve [apply Pidx | apply Plen | auto].
      * rewrite Uidx, Ulen, Up. now rewrite <- !app_assoc.
      * rewrite Tp, Tlen, Tidx. len_norm. lia.
Qed.

Lemma faithful_JVMMethod_init (fuel : nat) (pool : list JVMConstant) :
  faithful (JVMMethod_init fuel pool) encode_method (wf_method pool).
Proof.
  intros f m f' H. unfold JVMMethod_init in H.
  bind_inv H flags f1 Hflags. apply faithful_U2 in Hflags.
  destruct Hflags as (Pflags & Uflags & Tflags).
  bind_inv H name f2 Hname. apply faithful_U2 in Hname.
  destruct Hname as (Pname & Uname & Tname).
  bind_inv H desc f3 Hdesc. apply faithful_U2 in Hdesc.
  destruct Hdesc as (Pdesc & Udesc & Tdesc).
  bind_inv H n f4 Hn. apply faithful_U2 in Hn.
  destruct Hn as (Pn & Un & Tn).
  bind_inv H attrs f5 Hattrs.
  apply (faithful_comprehension _ _ _ _ _ _ _
           (faithful_JVMAttribute_init fuel pool) (proj1 Pn)) in Hattrs.
  destruct Hattrs as (Pattrs & Lattrs & Uattrs & Tattrs).
  apply ret_inv_ok in H. destruct H as [<- <-].
  unfold wf_method, encode_method, wf_attributes, encode_attributes.
  cbn [method_access_flags method_name_index method_descriptor_index
       method_attributes_count method_attributes].
  split; [tauto | split].
  - rewrite Uflags, Uname, Udesc, Un, Uattrs. now rewrite <- !app_assoc.
  - rewrite Tattrs, Tn, Tdesc, Tname, Tflags. len_norm. lia.
Qed.

Lemma faithful_JVMField_init (fuel : nat) (pool : list JVMConstant) :
  faithful (JVMField_init fuel pool) encode_field (wf_field pool).
Proof.
  intros f m f' H. unfold JVMField_init in H.
  bind_inv H flags f1 Hflags. apply faithful_U2 in Hflags.
  destruct Hflags as (Pflags & Uflags & Tflags).
  bind_inv H name f2 Hname. apply faithful_U2 in Hname.
  destruct Hname as (Pname & Uname & Tname).
  bind_inv H desc f3 Hdesc. apply faithful_U2 in Hdesc.
  destruct Hdesc as (Pdesc & Udesc & Tdesc).
  bind_inv H n f4 Hn. apply faithful_U2 in Hn.
  destruct Hn as (Pn & Un & Tn).
  bind_inv H attrs f5 Hattrs.
  apply (faithful_comprehension _ _ _ _ _ _ _
           (faithful_JVMAttribute_init fuel pool) (proj1 Pn)) in Hattrs.
  destruct Hattrs as (Pattrs & Lattrs & Uattrs & Tattrs).
  apply ret_inv_ok in H. destruct H as [<- <-].
  unfold wf_field, encode_field, wf_attributes, encode_attributes.
  cbn [field_access_flags field_name_index field_descriptor_index
       field_attributes_count field_attributes].
  split; [tauto | split].
  - rewrite Uflags, Uname, Udesc, Un, Uattrs. now rewrite <- !app_assoc.
  - rewrite Tattrs, Tn, Tdesc, Tname, Tflags. len_norm. lia.
Qed.

Lemma magic_inv_bytes f u f' :
  validate_class_file_magic f = (Ok u, f') ->
  unread f = [xca; xfe; xba; xbe] ++ unread f' /\ tell f' = tell f + 4.
Proof.
  unfold validate_class_file_magic. intros H.
  bind_inv H magic f1 Hm. apply faithful_U4 in Hm.
  destruct Hm as (_ & Um & Tm).
  destruct (Z.eqb_spec magic 3405691582) as [->|N]; cbn [negb] in H;
    [|discriminate].
  apply ret_inv_ok in H. destruct H as [_ <-].
  split; [exact Um | exact Tm].
Qed.

Lemma read_constant_pool_inv_bytes f count entries f' :
  read_constant_pool f = (Ok (count, entries), f') ->
  count <> 0 ->
  count = len entries + 1 /\ u16 count /\ Forall wf_constant entries
  /\ unread f = encode_pool entries ++ unread f'
  /\ tell f' = tell f + len (encode_pool entries).
Proof.
  unfold read_constant_pool. intros H Hc.
  bind_inv H n f1 Hn. apply faithful_U2 in Hn. destruct Hn as (Pn & Un & Tn).
  bind_inv H l f2 Hl.
  apply ret_inv_ok in H. destruct H as [E <-]. inversion E; subst n l.
  assert (H0 : 0 <= count - 1) by (unfold u16 in Pn; lia).
  apply (faithful_comprehension _ _ _ _ _ _ _
           faithful_JVMConstant_init H0) in Hl.
  destruct Hl as (Pl & Ll & Ul & Tl).
  assert (Ec : count = len entries + 1) by lia.
  unfold encode_pool. rewrite <- Ec.
  repeat split; try assumption; try apply Pn.
  - rewrite Un, Ul. now rewrite <- app_assoc.
  - rewrite Tl, Tn. len_norm. lia.
Qed.

Lemma class_body_inv_bytes (fuel : nat) f k f' :
  JVMClass_body fuel f = (Ok k, f') ->
  constant_pool_count k <> 0 ->
  wf_class k
  /\ unread f = encode_class k ++ unread f'
  /\ tell f' = tell f + len (encode_class k).
Proof.
  unfold JVMClass_body. intros H Hcount.
  bind_inv H u f1 Hmagic. apply magic_inv_bytes in Hmagic.
  destruct Hmagic as (Umagic & Tmagic).
  bind_inv H minor f2 Hminor. apply faithful_U2 in Hminor.
  destruct Hminor as (Pminor & Uminor & Tminor).
  bind_inv H major f3 Hmajor. apply faithful_U2 in Hmajor.
  destruct Hmajor as (Pmajor & Umajor & Tmajor).
  bind_inv H cp f4 Hpool. destruct cp as [cpc pool]. cbn [fst snd] in H.
  bind_inv H flags f5 Hflags. apply faithful_U2 in Hflags.
  destruct Hflags as (Pflags & Uflags & Tflags).
  bind_inv H this f6 Hthis. apply faithful_U2 in Hthis.
  destruct Hthis as (Pthis & Uthis & Tthis).
  bind_inv H super f7 Hsuper. apply faithful_U2 in Hsuper.
  destruct Hsuper as (Psuper & Usuper & Tsuper).
  bind_inv H ic f8 Hic. apply faithful_U2 in Hic.
  destruct Hic as (Pic & Uic & Tic).
  bind_inv H ifs f9 Hifs.
  apply (faithful_comprehension _ _ _ _ _ _ _ faithful_U2 (proj1 Pic))
    in Hifs.
  destruct Hifs as (Pifs & Lifs & Uifs & Tifs).
  bind_inv H fc f10 Hfc. apply faithful_U2 in Hfc.
  destruct Hfc as (Pfc & Ufc & Tfc).
  bind_inv H flds f11 Hflds.
  apply (faithful_comprehension _ _ _ _ _ _ _
           (faithful_JVMField_init fuel pool) (proj1 Pfc)) in Hflds.
  destruct Hflds as (Pflds & Lflds & Uflds & Tflds).
  bind_inv H mc f12 Hmc. apply faithful_U2 in Hmc.
  destruct Hmc as (Pmc & Umc & Tmc).
  bind_inv H meths f13 Hmeths.
  apply (faithful_comprehension _ _ _ _ _ _ _
           (faithful_JVMMethod_init fuel pool) (proj1 Pmc)) in Hmeths.
  destruct Hmeths as (Pmeths & Lmeths & Umeths & Tmeths).
  bind_inv H ac f14 Hac. apply faithful_U2 in Hac.
  destruct Hac as (Pac & Uac & Tac).
  bind_inv H attrs f15 Hattrs.
  apply (faithful_comprehension _ _ _ _ _ _ _
           (faithful_JVMAttribute_init fuel pool) (proj1 Pac)) in Hattrs.
  destruct Hattrs as (Pattrs & Lattrs & Uattrs & Tattrs).
  apply ret_inv_ok in H. destruct H as [<- <-].
  cbn [constant_pool_count] in Hcount.
  apply read_constant_pool_inv_bytes in Hpool; [|assumption].
  destruct Hpool as (Ecpc & Pcpc & Ppool & Upool & Tpool).
  unfold wf_class, encode_class, wf_attributes, encode_attributes.
  cbn [minor_version major_version constant_pool_count constant_pool
       access_flags this_class super_class interfaces_count interfaces
       fields_count class_fields methods_count methods
       attributes_count attributes].
  split; [tauto | split].
  - rewrite Umagic, Uminor, Umajor, Upool, Uflags, Uthis, Usuper, Uic, Uifs,
      Ufc, Uflds, Umc, Umeths, Uac, Uattrs.
    now rewrite <- !app_assoc.
  - rewrite Tattrs, Tac, Tmeths, Tmc, Tflds, Tfc, Tifs, Tic, Tsuper, Tthis,
      Tflags, Tpool, Tmajor, Tminor, Tmagic.
    len_norm. lia.
Qed.

(** Nothing is lost or made up in a decode.  When the constructor returns
    a class (with a pool count other than 0), the class is well formed,
    and the bytes read are its encoding: the file is those bytes followed
    by what was left unread. *)
Theorem decoded_class_faithful (content : list byte) (k : JVMClass)
      (f' : JVMClassFile) :
  JVMClass_init content = (Ok k, f') ->
  constant_pool_count k <> 0 ->
  wf_class k
  /\ content = encode_class k ++ unread f'
  /\ tell f' = len (encode_class k).
Proof.
  unfold JVMClass_init. intros H Hc.
  apply class_body_inv_bytes in H; [|assumption].
  destruct H as (Hwf & Hu & Ht). cbn [open unread tell] in *.
  split; [assumption | split; [assumption | lia]].
Qed.

Lemma decoded_class_faithful_witness :
  wf_class sample_class_value
  /\ sample_class ++ [xff]
     = encode_class sample_class_value ++ unread (mkFile 83 [xff])
  /\ tell (mkFile 83 [xff]) = len (encode_class sample_class_value).
Proof.
  apply (decoded_class_faithful (sample_class ++ [xff]) sample_class_value
                                (mkFile 83 [xff])).
  - vm_compute. reflexivity.
  - vm_compute. discriminate.
Defined.

(** ** What the decoded values say *)

(** Every attribute the constructor returns, at any depth of nesting, is
    well formed against the pool (its name is the entry its index points
    at, a raw payload has the declared length, the counts of a Code body
    are those of its sequences, the info is a Code body exactly for the
    name "Code"), and the bytes read for it are its encoding. *)
Theorem decoded_attribute_faithful (fuel : nat) (pool : list JVMConstant)
      (f : JVMClassFile) (a : JVMAttribute) (f' : JVMClassFile) :
  JVMAttribute_init fuel pool f = (Ok a, f') ->
  wf_attribute pool a
  /\ unread f = encode_attribute a ++ unread f'
  /\ tell f' = tell f + len (encode_attribute a).
Proof. apply faithful_JVMAttribute_init. Qed.

Lemma decoded_attribute_faithful_witness :
  wf_attribute sample_pool
    (mkAttribute 1 (mkConstant 1 (Utf8_fields 4 Code)) 0
       (Code_info (mkCodeAttr 1 1 1 [xb1] 0 [] 0 [])))
  /\ unread (open mismatched_code_attribute)
     = encode_attribute
         (mkAttribute 1 (mkConstant 1 (Utf8_fields 4 Code)) 0
            (Code_info (mkCodeAttr 1 1 1 [xb1] 0 [] 0 [])))
       ++ unread (mkFile 19 [])
  /\ tell (mkFile 19 [])
     = tell (open mismatched_code_attribute)
       + len (encode_attribute
                (mkAttribute 1 (mkConstant 1 (Utf8_fields 4 Code)) 0
                   (Code_info (mkCodeAttr 1 1 1 [xb1] 0 [] 0 [])))).
Proof.
  apply (decoded_attribute_faithful 1 sample_pool
           (open mismatched_code_attribute)).
  vm_compute. reflexivity.
Defined.

(** Only a Utf8 entry whose text is "Code" prints as "Code": no other
    entry can select the Code decoder. *)
Theorem str_is_Code (c : JVMConstant) :
  JVMConstant_str c = Code
  <-> tag c = CONSTANT_Utf8 /\ exists n, fields c = Utf8_fields n Code.
Proof.
  unfold JVMConstant_str. destruct (Z.eqb_spec (tag c) CONSTANT_Utf8) as [E|N].
  - destruct (fields c) eqn:F; split;
      try (intros H; vm_compute in H; discriminate);
      try (intros [_ [n Hn]]; discriminate).
    + intros ->. split; [assumption | now eexists].
    + intros [_ [n Hn]]. now inversion Hn.
  - split.
    + intros H. now apply unknown_text_not_Code in H.
    + intros [H _]. contradiction.
Qed.

(** A decoded attribute prints as "Code" exactly when its info is a
    decoded Code body. *)
Theorem attribute_str_Code (fuel : nat) (pool : list JVMConstant)
      (f : JVMClassFile) (a : JVMAttribute) (f' : JVMClassFile) :
  JVMAttribute_init fuel pool f = (Ok a, f') ->
  (JVMAttribute_str a = Code <-> exists ca, info a = Code_info ca).
Proof.
  intros H. apply faithful_JVMAttribute_init in H. destruct H as (Hwf & _).
  destruct a as [idx c alen [ca|payload]]; cbn [wf_attribute] in Hwf;
    unfold JVMAttribute_str; cbn [attribute_name info].
  - destruct ca. destruct Hwf as (_ & _ & _ & Hname & _).
    split; [intros _; now eexists | intros _; exact Hname].
  - destruct Hwf as (_ & _ & _ & Hname & _).
    split; [intros E; contradiction | intros [ca Hca]; discriminate].
Qed.

Lemma attribute_str_Code_witness :
  JVMAttribute_str
    (mkAttribute 3 (mkConstant 1 (Utf8_fields 10 (str_of_string "SourceFile")))
                 2 (Raw_info [x00; x04])) = Code
  <-> exists ca,
        info (mkAttribute 3
                (mkConstant 1 (Utf8_fields 10 (str_of_string "SourceFile")))
                2 (Raw_info [x00; x04])) = Code_info ca.
Proof.
  apply (attribute_str_Code 1 sample_pool
           (open (be16 3 ++ be32 2 ++ [x00; x04])) _ (mkFile 8 [])).
  vm_compute. reflexivity.
Defined.

(** An entry that is not a Utf8 entry takes one byte of tag and a number
    of bytes fixed by the tag: 2, 3, 4 or 8 for the tags with a [case]
    (8 for Long and Double, which are one entry each), none for any other
    tag. *)
Theorem entry_size (f : JVMClassFile) (c : JVMConstant) (f' : JVMClassFile) :
  JVMConstant_init f = (Ok c, f') ->
  tag c <> CONSTANT_Utf8 ->
  tell f' = tell f + 1 + entry_width (tag c).
Proof.
  intros H Ht. apply faithful_JVMConstant_init in H.
  destruct H as (Hwf & _ & ->).
  destruct c as [t fs]. unfold wf_constant, encode_constant in *.
  cbn [tag fields] in *.
  destruct fs; cbn [encode_fields];
    try (destruct Hwf as (-> & _)); try contradiction;
    try (destruct Hwf as ([->|[->| ->]] & _));
    try (destruct Hwf as ([->| ->] & _));
    try (len_norm; vm_compute (entry_width _); lia).
  destruct Hwf as [_ Hn]. unfold entry_width.
  assert (Hne : forall x, In x known_tags -> (t =? x) = false).
  { intros x Hx. apply Z.eqb_neq. intros E. apply Hn. now rewrite E. }
  rewrite (Hne CONSTANT_Class), (Hne CONSTANT_Fieldref),
    (Hne CONSTANT_Methodref), (Hne CONSTANT_InterfaceMethodref),
    (Hne CONSTANT_String), (Hne CONSTANT_Integer), (Hne CONSTANT_Float),
    (Hne CONSTANT_Long), (Hne CONSTANT_Double), (Hne CONSTANT_NameAndType),
    (Hne CONSTANT_MethodHandle),
    (Hne CONSTANT_MethodType), (Hne CONSTANT_InvokeDynamic)
    by in_known_tags.
  cbn [orb]. len_norm. lia.
Qed.

Lemma entry_size_witness :
  tell (mkFile 9 [x07])
  = tell (open [x05; x00; x00; x00; x00; x00; x00; x00; x2a; x07])
    + 1 + entry_width (tag (mkConstant 5 (Wide_fields 0 42))).
Proof.
  apply (entry_size (open [x05; x00; x00; x00; x00; x00; x00; x00; x2a; x07])
                    (mkConstant 5 (Wide_fields 0 42)) (mkFile 9 [x07])).
  - vm_compute. reflexivity.
  - vm_compute. discriminate.
Defined.

(** ** Edges *)

(** A name index that lies beyond the stored entries, or any name index
    when the pool is empty, makes [JVMAttribute.__init__] raise
    [IndexError] right after the two bytes of the index: the length field
    is not read. *)
Theorem attribute_name_out_of_range (fuel : nat) (pool : list JVMConstant)
      (pos idx : Z) (rest : list byte) :
  0 <= idx < 65536 ->
  len pool < idx \/ pool = [] ->
  JVMAttribute_init (S fuel) pool (mkFile pos (be16 idx ++ rest))
  = (Raise IndexError, mkFile (pos + 2) rest).
Proof.
  intros Hidx Hout. cbn [JVMAttribute_init].
  rewrite (bind_ok _ (U2_be16 pos idx rest Hidx)).
  assert (Hget : getitem pool (idx - 1) = Raise IndexError).
  { destruct Hout as [Hlt| ->]; [now apply getitem_beyond|].
    destruct (Z.eq_dec idx 0) as [->|Hn]; [reflexivity|].
    apply getitem_beyond. change (len (@nil JVMConstant)) with 0. lia. }
  rewrite Hget. reflexivity.
Qed.

Lemma attribute_name_out_of_range_witness :
  JVMAttribute_init 1 sample_pool (mkFile 0 (be16 4 ++ [x00; x00; x00; x00]))
  = (Raise IndexError, mkFile (0 + 2) [x00; x00; x00; x00]).
Proof.
  apply (attribute_name_out_of_range 0 sample_pool 0 4 [x00; x00; x00; x00]).
  - lia.
  - left. vm_compute. reflexivity.
Defined.

(** A file of fewer than four bytes, the empty file included, makes the
    constructor raise [struct.error] with the file read to its end. *)
Theorem short_file_rejected (content : list byte) :
  len content < 4 ->
  JVMClass_init content = (Raise struct_error, mkFile (len content) []).
Proof.
  intros Hlen. unfold JVMClass_init, JVMClass_body, validate_class_file_magic.
  apply bind_raise. apply bind_raise. unfold open.
  rewrite fixed_width_U4.
  assert (E : (4 <=? List.length content)%nat = false)
    by (apply Nat.leb_gt; unfold len in Hlen; lia).
  now rewrite E.
Qed.

Lemma short_file_rejected_witness :
  JVMClass_init [xca; xfe] = (Raise struct_error, mkFile (len [xca; xfe]) []).
Proof.
  apply (short_file_rejected [xca; xfe]). vm_compute. reflexivity.
Defined.

Lemma getitem_ok_inv {A} (l : list A) (i : Z) (x : A) :
  getitem l i = Ok x ->
  (0 <= i /\ nth_error l (Z.to_nat i) = Some x)
  \/ (i < 0 /\ 0 <= i + len l
      /\ nth_error l (Z.to_nat (i + len l)) = Some x).
Proof.
  unfold getitem. destruct (Z.ltb_spec i 0) as [Hneg|Hpos]; cbv zeta.
  - destruct ((i + len l <? 0) || (len l <=? i + len l)) eqn:E;
      [discriminate|].
    apply orb_false_iff in E. destruct E as [E1 _]. apply Z.ltb_ge in E1.
    destruct (nth_error l (Z.to_nat (i + len l))) eqn:N; [|discriminate].
    intros H. inversion H; subst. right. auto.
  - destruct ((i <? 0) || (len l <=? i)) eqn:E; [discriminate|].
    destruct (nth_error l (Z.to_nat i)) eqn:N; [|discriminate].
    intros H. inversion H; subst. left. auto.
Qed.

(** The name of a decoded attribute is the stored pool entry number
    [attribute_name_index - 1], counting list elements from 0, for every
    name index from 1 on; for the name index 0 it is the last stored
    entry. *)
Theorem attribute_name_resolution (fuel : nat) (pool : list JVMConstant)
      (f : JVMClassFile) (a : JVMAttribute) (f' : JVMClassFile) :
  JVMAttribute_init fuel pool f = (Ok a, f') ->
  (1 <= attribute_name_index a ->
   nth_error pool (Z.to_nat (attribute_name_index a - 1))
   = Some (attribute_name a))
  /\ (attribute_name_index a = 0 ->
      nth_error pool (List.length pool - 1) = Some (attribute_name a)).
Proof.
  intros H. apply faithful_JVMAttribute_init in H. destruct H as (Hwf & _).
  destruct a as [idx c alen inf]. cbn [wf_attribute] in Hwf.
  destruct Hwf as (_ & Hget & _). cbn [attribute_name_index attribute_name].
  apply getitem_ok_inv in Hget. split.
  - intros Hidx. destruct Hget as [[_ Hn]|[Hneg _]]; [exact Hn | lia].
  - intros ->. destruct Hget as [[Hneg _]|(_ & Hl & Hn)]; [lia|].
    replace (List.length pool - 1)%nat with (Z.to_nat (0 - 1 + len pool))
      by (unfold len in *; lia).
    exact Hn.
Qed.

Lemma attribute_name_resolution_witness :
  (1 <= attribute_name_index
          (mkAttribute 3
             (mkConstant 1 (Utf8_fields 10 (str_of_string "SourceFile")))
             2 (Raw_info [x00; x04])) ->
   nth_error sample_pool
     (Z.to_nat
        (attribute_name_index
           (mkAttribute 3
              (mkConstant 1 (Utf8_fields 10 (str_of_string "SourceFile")))
              2 (Raw_info [x00; x04])) - 1))
   = Some
       (attribute_name
          (mkAttribute 3
             (mkConstant 1 (Utf8_fields 10 (str_of_string "SourceFile")))
             2 (Raw_info [x00; x04]))))
  /\ (attribute_name_index
        (mkAttribute 3
           (mkConstant 1 (Utf8_fields 10 (str_of_string "SourceFile")))
           2 (Raw_info [x00; x04])) = 0 ->
      nth_error sample_pool (List.length sample_pool - 1)
      = Some
          (attribute_name
             (mkAttribute 3
                (mkConstant 1 (Utf8_fields 10 (str_of_string "SourceFile")))
                2 (Raw_info [x00; x04])))).
Proof.
  apply (attribute_name_resolution 1 sample_pool
           (open (be16 3 ++ be32 2 ++ [x00; x04])) _ (mkFile 8 [])).
  vm_compute. reflexivity.
Defined.

Lemma class_body_parts (fuel : nat) f k f' :
  JVMClass_body fuel f = (Ok k, f') ->
  Forall (wf_field (constant_pool k)) (class_fields k)
  /\ Forall (wf_method (constant_pool k)) (methods k)
  /\ Forall (wf_attribute (constant_pool k)) (attributes k).
Proof.
  unfold JVMClass_body. intros H.
  bind_inv H u f1 Hmagic. bind_inv H minor f2 Hminor.
  bind_inv H major f3 Hmajor.
  bind_inv H cp f4 Hpool. destruct cp as [cpc pool]. cbn [fst snd] in H.
  bind_inv H flags f5 Hflags. bind_inv H this f6 Hthis.
  bind_inv H super f7 Hsuper.
  bind_inv H ic f8 Hic. bind_inv H ifs f9 Hifs.
  bind_inv H fc f10 Hfc. apply faithful_U2 in Hfc.
  destruct Hfc as (Pfc & _).
  bind_inv H flds f11 Hflds.
  apply (faithful_comprehension _ _ _ _ _ _ _
           (faithful_JVMField_init fuel pool) (proj1 Pfc)) in Hflds.
  destruct Hflds as (Pflds & _).
  bind_inv H mc f12 Hmc. apply faithful_U2 in Hmc.
  destruct Hmc as (Pmc & _).
  bind_inv H meths f13 Hmeths.
  apply (faithful_comprehension _ _ _ _ _ _ _
           (faithful_JVMMethod_init fuel pool) (proj1 Pmc)) in Hmeths.
  destruct Hmeths as (Pmeths & _).
  bind_inv H ac f14 Hac. apply faithful_U2 in Hac.
  destruct Hac as (Pac & _).
  bind_inv H attrs f15 Hattrs.
  apply (faithful_comprehension _ _ _ _ _ _ _
           (faithful_JVMAttribute_init fuel pool) (proj1 Pac)) in Hattrs.
  destruct Hattrs as (Pattrs & _).
  apply ret_inv_ok in H. destruct H as [<- _].
  cbn [constant_pool class_fields methods attributes]. auto.
Qed.

Lemma no_attribute_without_pool (a : JVMAttribute) :
  ~ wf_attribute [] a.
Proof.
  destruct a as [idx c alen inf]. cbn [wf_attribute].
  intros (_ & Hget & _). unfold getitem in Hget.
  change (len (@nil JVMConstant)) with 0 in Hget.
  destruct (Z.ltb_spec (idx - 1) 0); cbv zeta in Hget.
  - destruct (Z.ltb_spec (idx - 1 + 0) 0); [discriminate | lia].
  - destruct (Z.ltb_spec (idx - 1) 0); [lia|].
    destruct (Z.leb_spec 0 (idx - 1)); [discriminate | lia].
Qed.

Lemma Forall_never {A} (P : A -> Prop) (l : list A) :
  (forall x, ~ P x) -> Forall P l -> l = [].
Proof.
  intros Hn H. destruct H as [|x l Hx _]; [reflexivity|].
  now apply Hn in Hx.
Qed.

(** With an empty constant pool (a count field of 0 or 1) a class is
    decoded only if it carries no attribute at all: none on the class, on
    a field or on a method. *)
Theorem empty_pool_no_attributes (content : list byte) (k : JVMClass)
      (f' : JVMClassFile) :
  JVMClass_init content = (Ok k, f') ->
  constant_pool k = [] ->
  all_attributes k = [].
Proof.
  unfold JVMClass_init. intros H Hp. apply class_body_parts in H.
  rewrite Hp in H. destruct H as (Hf & Hm & Ha).
  unfold all_attributes.
  rewrite (Forall_never _ _ no_attribute_without_pool Ha), app_nil_r.
  assert (Ef : flat_map field_attributes (class_fields k) = []).
  { induction Hf as [|fd l Hfd _ IH]; [reflexivity|].
    cbn [flat_map]. rewrite IH, app_nil_r.
    destruct Hfd as (_ & _ & _ & _ & _ & Hall).
    apply (Forall_never _ _ no_attribute_without_pool Hall). }
  assert (Em : flat_map method_attributes (methods k) = []).
  { induction Hm as [|m l Hmd _ IH]; [reflexivity|].
    cbn [flat_map]. rewrite IH, app_nil_r.
    destruct Hmd as (_ & _ & _ & _ & _ & Hall).
    apply (Forall_never _ _ no_attribute_without_pool Hall). }
  now rewrite Ef, Em.
Qed.

Lemma empty_pool_no_attributes_witness :
  all_attributes
    (mkClass 0 52 0 [] 33 0 0 0 [] 0 [] 0 [] 0 []) = [].
Proof.
  apply (empty_pool_no_attributes class_with_zero_pool_count
           (mkClass 0 52 0 [] 33 0 0 0 [] 0 [] 0 [] 0 []) (mkFile 24 [])).
  - vm_compute. reflexivity.
  - reflexivity.
Defined.
